(** * Unicorn Factory: the tokenomics ledger engine

    A shallow embedding of the Express server of the repository: the linear
    bonding curve and its two quote loops, the in-memory stores, and the
    request handlers that buy, sell, list, fill and release.  The embedding
    follows the TypeScript source of the server; the compiled
    [server/dist/index.js] has the same curve and the same project, buy,
    sell and offer handlers, without the [fundingGoal] field and without the
    milestone and proposal handlers.

    Numbers.  The server computes with JavaScript numbers, that is with
    IEEE 754 doubles, and the development reads the code twice.  The first
    reading is arithmetic: funds (prices, budgets, the reserve) are exact
    rationals [Q] and token counts (supply, balances, offer amounts) are
    integers [Z].  It is the reading for requests whose amounts are numbers
    and whose token counts are whole, and for what does not depend on how a
    sum is rounded: which test a handler makes first, which fields it
    writes, what a sequence of calls conserves.  The second reading, in the
    part on binary64, is the code on doubles, with their rounding, [NaN]
    and the infinities; what is said of the sums of the quotes and of
    requests that carry no number is said there.

    Requests.  A handler takes the values its first lines read from the
    request: the caller ([x-user-id]), the path parameters, and the numbers
    that [Number(req.body?.x || 0)] yields.  The results of [nanoid(8)] and
    [Date.now()] are arguments of the handlers that draw them. *)

From Stdlib Require Import ZArith QArith Qminmax Lqa Lia Ascii String Floats.
From stdpp Require Import gmap strings list fin_maps.

Local Open Scope Z_scope.

(** ** The bonding curve *)

Definition BASE_PRICE : Q := 1 # 100.
Definition SLOPE : Q := 1 # 10000.
Definition FUNDING_CAP : Q := 100000 # 1.

(** [steps < 5000] in both quote loops. *)
Definition MAX_STEPS : nat := 5000.

Definition priceAtSupply (supply : Z) : Q :=
  (BASE_PRICE + SLOPE * inject_Z supply)%Q.

(** [x > 0] and [x <= 0] on funds, as booleans. *)
Definition Qpos_bool (x : Q) : bool := negb (Qle_bool x 0).

(** The body of [buyTokensQuote] in exact arithmetic: [fuel] is the number
    of iterations that the test [steps < 5000] still allows. *)
Fixpoint buy_loop (fuel : nat) (tokens : Z) (budget : Q) (s : Z) : Z :=
  match fuel with
  | O => tokens
  | S fuel' =>
      if Qpos_bool budget then
        let p := priceAtSupply s in
        if Qle_bool p budget
        then buy_loop fuel' (tokens + 1) (budget - p)%Q (s + 1)
        else tokens
      else tokens
  end.

Definition buyTokensQuote (currentSupply : Z) (amountIn : Q) : Z :=
  buy_loop MAX_STEPS 0 amountIn currentSupply.

(** The body of [sellTokensQuote] in exact arithmetic, for whole numbers
    of tokens. *)
Fixpoint sell_loop (fuel : nat) (s t : Z) (out : Q) : Q :=
  match fuel with
  | O => out
  | S fuel' =>
      if (0 <? t) && (0 <=? s)
      then sell_loop fuel' (s - 1) (t - 1) (out + priceAtSupply s)%Q
      else out
  end.

Definition sellTokensQuote (currentSupply tokensIn : Z) : Q :=
  sell_loop MAX_STEPS (Z.max 0 (currentSupply - 1)) tokensIn 0%Q.

(** ** Reference sums used to state the quote properties *)

(** [walked_cost s n] is [price(s) + price(s+1) + ... + price(s+n-1)]. *)
Fixpoint walked_cost (s : Z) (n : nat) : Q :=
  match n with
  | O => 0%Q
  | S n' => (priceAtSupply s + walked_cost (s + 1) n')%Q
  end.

(** [descending_sum s n] is [price(s) + price(s-1) + ... + price(s-n+1)]. *)
Fixpoint descending_sum (s : Z) (n : nat) : Q :=
  match n with
  | O => 0%Q
  | S n' => (priceAtSupply s + descending_sum (s - 1) n')%Q
  end.


(** ** The entities held in the stores *)

Local Open Scope string_scope.
Local Open Scope Z_scope.

Inductive OfferStatus := OfferOpen | OfferFilled | OfferCancelled.
Inductive MilestoneStatus := MilestonePending | MilestoneReleased.

Record Project := mkProject {
  p_id : string;
  p_founderId : string;
  p_name : string;
  p_videoUrl : option string;
  p_summary : string;
  p_resumesUrl : option string;
  p_plan : string;
  p_createdAt : Z;
  p_supply : Z;
  p_reserve : Q;
  p_capReached : bool;
  p_tokenSymbol : option string;
  p_fundingGoal : Q
}.

Record Holding := mkHolding {
  h_userId : string;
  h_projectId : string;
  h_balance : Z
}.

Record Offer := mkOffer {
  o_id : string;
  o_projectId : string;
  o_sellerId : string;
  o_pricePerToken : Q;
  o_amount : Z;
  o_createdAt : Z;
  o_status : OfferStatus
}.

Record Milestone := mkMilestone {
  m_id : string;
  m_projectId : string;
  m_title : string;
  m_description : string;
  m_amount : Q;
  m_status : MilestoneStatus;
  m_createdAt : Z
}.

Record Proposal := mkProposal {
  pr_id : string;
  pr_projectId : string;
  pr_milestoneId : string;
  pr_amount : Q;
  pr_approvals : Z;
  pr_rejections : Z;
  pr_released : bool;
  pr_createdAt : Z
}.

#[global] Instance OfferStatus_eq_dec : EqDecision OfferStatus.
Proof. solve_decision. Defined.

(** Assignments to one field of a stored object. *)

Definition set_supply (p : Project) (v : Z) : Project :=
  mkProject (p_id p) (p_founderId p) (p_name p) (p_videoUrl p) (p_summary p)
    (p_resumesUrl p) (p_plan p) (p_createdAt p) v (p_reserve p)
    (p_capReached p) (p_tokenSymbol p) (p_fundingGoal p).

Definition set_reserve (p : Project) (v : Q) : Project :=
  mkProject (p_id p) (p_founderId p) (p_name p) (p_videoUrl p) (p_summary p)
    (p_resumesUrl p) (p_plan p) (p_createdAt p) (p_supply p) v
    (p_capReached p) (p_tokenSymbol p) (p_fundingGoal p).

Definition set_capReached (p : Project) (v : bool) : Project :=
  mkProject (p_id p) (p_founderId p) (p_name p) (p_videoUrl p) (p_summary p)
    (p_resumesUrl p) (p_plan p) (p_createdAt p) (p_supply p) (p_reserve p)
    v (p_tokenSymbol p) (p_fundingGoal p).

Definition set_balance (h : Holding) (v : Z) : Holding :=
  mkHolding (h_userId h) (h_projectId h) v.

Definition set_amount (o : Offer) (v : Z) : Offer :=
  mkOffer (o_id o) (o_projectId o) (o_sellerId o) (o_pricePerToken o) v
    (o_createdAt o) (o_status o).

Definition set_status (o : Offer) (v : OfferStatus) : Offer :=
  mkOffer (o_id o) (o_projectId o) (o_sellerId o) (o_pricePerToken o)
    (o_amount o) (o_createdAt o) v.

Definition set_m_status (m : Milestone) (v : MilestoneStatus) : Milestone :=
  mkMilestone (m_id m) (m_projectId m) (m_title m) (m_description m)
    (m_amount m) v (m_createdAt m).

Definition set_approvals (pr : Proposal) (v : Z) : Proposal :=
  mkProposal (pr_id pr) (pr_projectId pr) (pr_milestoneId pr) (pr_amount pr)
    v (pr_rejections pr) (pr_released pr) (pr_createdAt pr).

Definition set_rejections (pr : Proposal) (v : Z) : Proposal :=
  mkProposal (pr_id pr) (pr_projectId pr) (pr_milestoneId pr) (pr_amount pr)
    (pr_approvals pr) v (pr_released pr) (pr_createdAt pr).

Definition set_released (pr : Proposal) (v : bool) : Proposal :=
  mkProposal (pr_id pr) (pr_projectId pr) (pr_milestoneId pr) (pr_amount pr)
    (pr_approvals pr) (pr_rejections pr) v (pr_createdAt pr).

(** ** The in-memory stores *)

Record Store := mkStore {
  projects : gmap string Project;
  holdings : gmap string Holding;   (* key: userId:projectId *)
  offers : gmap string Offer;
  milestones : gmap string Milestone;
  proposals : gmap string Proposal
}.

Definition empty_store : Store := mkStore ∅ ∅ ∅ ∅ ∅.

Definition with_projects (st : Store) (v : gmap string Project) : Store :=
  mkStore v (holdings st) (offers st) (milestones st) (proposals st).
Definition with_holdings (st : Store) (v : gmap string Holding) : Store :=
  mkStore (projects st) v (offers st) (milestones st) (proposals st).
Definition with_offers (st : Store) (v : gmap string Offer) : Store :=
  mkStore (projects st) (holdings st) v (milestones st) (proposals st).
Definition with_milestones (st : Store) (v : gmap string Milestone) : Store :=
  mkStore (projects st) (holdings st) (offers st) v (proposals st).
Definition with_proposals (st : Store) (v : gmap string Proposal) : Store :=
  mkStore (projects st) (holdings st) (offers st) (milestones st) v.

(** The key of a holding: the template string [userId:projectId]. *)
Definition holdingKey (userId projectId : string) : string :=
  userId +:+ ":" +:+ projectId.

(** ** Responses *)

(** [Error status msg] is [res.status(status).json({ error: msg })]; the
    other constructors are the JSON payloads of the successful calls. *)
Inductive Response :=
  | Error (status : Z) (error : string)
  | ProjectJson (project : Project)
  | BuyJson (project : Project) (tokensOut : Z)
  | SellJson (project : Project) (amountOut : Q)
  | OfferJson (offer : Offer)
  | FillJson (offer : Offer)
  | MilestoneJson (milestone : Milestone)
  | ProposalJson (proposal : Proposal)
  | ReleaseJson (project : Project) (proposal : Proposal)
      (milestone : Milestone) (amount : Q).

(** The failures of the specification's taxonomy, as the server sends them. *)
Definition NotFound : Response := Error 404 "not found".
Definition CapReached : Response := Error 400 "funding cap reached".
Definition InvalidAmount_buy : Response := Error 400 "amount > 0 required".
Definition QuoteTooSmall : Response := Error 400 "amount too small for current price".
Definition InvalidAmount_sell : Response := Error 400 "tokens > 0 required".
Definition InsufficientBalance : Response := Error 400 "insufficient balance".
Definition InvalidAmount_offer : Response :=
  Error 400 "pricePerToken and amount > 0 required".
Definition OfferNotFound : Response := Error 404 "offer not found".
Definition OfferNotOpen : Response := Error 400 "offer not open".
Definition InvalidAmount_fill : Response := Error 400 "amount > 0 required".
Definition Forbidden_release : Response := Error 403 "only founder can release".
Definition ProposalNotFound : Response := Error 404 "proposal not found".
Definition MilestoneNotFound : Response := Error 404 "milestone not found".
Definition AlreadyReleased : Response := Error 400 "already released".
Definition NotApproved : Response := Error 400 "not approved yet".

Definition is_error (r : Response) : bool :=
  match r with Error _ _ => true | _ => false end.

(** ** Request handlers as store transformers *)

(** A handler runs on the stores and either goes on with a value or has
    sent its response ([return res...json(...)]); the stores it leaves are
    those at that point, whatever was written before. *)
Definition Handler (A : Type) : Type := Store -> Store * (A + Response).

#[global] Instance Handler_ret : MRet Handler :=
  fun A (a : A) (st : Store) => (st, inl a).

#[global] Instance Handler_bind : MBind Handler :=
  fun A B (k : A -> Handler B) (m : Handler A) (st : Store) =>
    match m st with
    | (st', inl a) => k a st'
    | (st', inr r) => (st', inr r)
    end.

Definition respond {A} (r : Response) : Handler A :=
  fun st => (st, inr r).

Definition read {A} (f : Store -> A) : Handler A :=
  fun st => (st, inl (f st)).

Definition write (f : Store -> Store) : Handler unit :=
  fun st => (f st, inl tt).

(** [if (c) return res...] *)
Definition reject_if (c : bool) (r : Response) : Handler unit :=
  if c then respond r else mret tt.

Definition run (m : Handler Response) (st : Store) : Store * Response :=
  match m st with
  | (st', inl r) => (st', r)
  | (st', inr r) => (st', r)
  end.

(** [const p = projects.get(id); if (!p) return 404]. *)
Definition projects_get (id : string) : Handler Project :=
  o ← read (fun st => projects st !! id);
  match o with
  | Some p => mret p
  | None => respond NotFound
  end.

(** An assignment to a field of the project found under [id]: the object
    is shared with the store, so the store sees it. *)
Definition projects_store (id : string) (p : Project) : Handler unit :=
  write (fun st => with_projects st (<[id := p]> (projects st))).

Definition holdings_set (key : string) (h : Holding) : Handler unit :=
  write (fun st => with_holdings st (<[key := h]> (holdings st))).

Definition offers_set (key : string) (o : Offer) : Handler unit :=
  write (fun st => with_offers st (<[key := o]> (offers st))).

Definition milestones_set (key : string) (m : Milestone) : Handler unit :=
  write (fun st => with_milestones st (<[key := m]> (milestones st))).

Definition proposals_set (key : string) (pr : Proposal) : Handler unit :=
  write (fun st => with_proposals st (<[key := pr]> (proposals st))).

Definition is_empty_string (s : string) : bool :=
  match s with EmptyString => true | _ => false end.

(** The body of [POST /projects]; a missing text field is the empty string. *)
Record ProjectBody := mkProjectBody {
  b_name : string;
  b_videoUrl : option string;
  b_summary : string;
  b_resumesUrl : option string;
  b_plan : string;
  b_tokenSymbol : option string;
  b_fundingGoal : option Q
}.

(** [POST /projects].  [id] is the result of [nanoid(8)], [now] of
    [Date.now()]. *)
Definition post_projects (userId : string) (body : ProjectBody)
    (id : string) (now : Z) : Handler Response :=
  reject_if (is_empty_string (b_name body) || is_empty_string (b_summary body)
             || is_empty_string (b_plan body))
    (Error 400 "name, summary, plan required");;
  let project :=
    mkProject id userId (b_name body) (b_videoUrl body) (b_summary body)
      (b_resumesUrl body) (b_plan body) now 0 0%Q false (b_tokenSymbol body)
      (match b_fundingGoal body with
       | Some g => if Qpos_bool g then g else FUNDING_CAP
       | None => FUNDING_CAP
       end) in
  projects_store id project;;
  let founderKey := holdingKey userId id in
  o ← read (fun st => holdings st !! founderKey);
  let founderHolding := default (mkHolding userId id 0) o in
  let founderHolding := set_balance founderHolding (h_balance founderHolding + 100) in
  holdings_set founderKey founderHolding;;
  let project := set_supply project (p_supply project + 100) in
  projects_store id project;;
  mret (ProjectJson project).

(** [POST /projects/:id/buy], for a request whose [amount] is a number
    ([post_buy64] takes any double). *)
Definition post_buy (userId id : string) (amount : Q) : Handler Response :=
  p ← projects_get id;
  reject_if (p_capReached p) CapReached;;
  reject_if (Qle_bool amount 0) InvalidAmount_buy;;
  let tokensOut := buyTokensQuote (p_supply p) amount in
  reject_if (tokensOut <=? 0) QuoteTooSmall;;
  let p := set_supply p (p_supply p + tokensOut) in
  projects_store id p;;
  let p := set_reserve p (p_reserve p + amount)%Q in
  projects_store id p;;
  let p := if Qle_bool FUNDING_CAP (p_reserve p) then set_capReached p true else p in
  projects_store id p;;
  let key := holdingKey userId (p_id p) in
  o ← read (fun st => holdings st !! key);
  let h := default (mkHolding userId (p_id p) 0) o in
  let h := set_balance h (h_balance h + tokensOut) in
  holdings_set key h;;
  mret (BuyJson p tokensOut).

(** [POST /projects/:id/sell], for a request whose [tokens] is a whole
    number ([post_sell64] takes any double). *)
Definition post_sell (userId id : string) (tokens : Z) : Handler Response :=
  p ← projects_get id;
  reject_if (tokens <=? 0) InvalidAmount_sell;;
  let key := holdingKey userId (p_id p) in
  o ← read (fun st => holdings st !! key);
  match o with
  | None => respond InsufficientBalance
  | Some h =>
      reject_if (h_balance h <? tokens) InsufficientBalance;;
      let amountOut := sellTokensQuote (p_supply p) tokens in
      let p := set_supply p (Z.max 0 (p_supply p - tokens)) in
      projects_store id p;;
      let p := set_reserve p (Qmax 0 (p_reserve p - amountOut)) in
      projects_store id p;;
      let h := set_balance h (h_balance h - tokens) in
      holdings_set key h;;
      mret (SellJson p amountOut)
  end.

(** [POST /projects/:id/offers], for a request whose [pricePerToken] is a
    number and whose [amount] is a whole number ([post_offers64] takes any
    doubles).  [offerId] is the result of [nanoid(8)]. *)
Definition post_offers (userId id : string) (pricePerToken : Q) (amount : Z)
    (offerId : string) (now : Z) : Handler Response :=
  p ← projects_get id;
  reject_if (Qle_bool pricePerToken 0 || (amount <=? 0)) InvalidAmount_offer;;
  let key := holdingKey userId (p_id p) in
  o ← read (fun st => holdings st !! key);
  match o with
  | None => respond InsufficientBalance
  | Some h =>
      reject_if (h_balance h <? amount) InsufficientBalance;;
      let h := set_balance h (h_balance h - amount) in
      holdings_set key h;;
      let offer :=
        mkOffer offerId (p_id p) userId pricePerToken amount now OfferOpen in
      offers_set (o_id offer) offer;;
      mret (OfferJson offer)
  end.

(** [POST /projects/:id/offers/:offerId/fill], for a request whose
    [amount] is a whole number ([post_fill64] takes any double). *)
Definition post_fill (buyerId id offerId : string) (amount : Z) : Handler Response :=
  p ← projects_get id;
  oo ← read (fun st => offers st !! offerId);
  match oo with
  | None => respond OfferNotFound
  | Some offer =>
      reject_if (negb (bool_decide (o_projectId offer = p_id p))) OfferNotFound;;
      reject_if (negb (bool_decide (o_status offer = OfferOpen)) || (o_amount offer <=? 0))
        OfferNotOpen;;
      let take := Z.max 0 (Z.min (o_amount offer) amount) in
      reject_if (take <=? 0) InvalidAmount_fill;;
      let buyerKey := holdingKey buyerId (p_id p) in
      o ← read (fun st => holdings st !! buyerKey);
      let buyerHolding := default (mkHolding buyerId (p_id p) 0) o in
      let buyerHolding := set_balance buyerHolding (h_balance buyerHolding + take) in
      holdings_set buyerKey buyerHolding;;
      let offer := set_amount offer (o_amount offer - take) in
      offers_set offerId offer;;
      let offer := if o_amount offer =? 0 then set_status offer OfferFilled else offer in
      offers_set offerId offer;;
      offers_set (o_id offer) offer;;
      mret (FillJson offer)
  end.

(** [POST /projects/:id/milestones], for a request whose [amount] is a
    number; [title] and [description] are the trimmed strings. *)
Definition post_milestones (userId id : string) (title description : string)
    (amount : Q) (milestoneId : string) (now : Z) : Handler Response :=
  p ← projects_get id;
  reject_if (negb (bool_decide (p_founderId p = userId)))
    (Error 403 "only founder can create milestones");;
  reject_if (is_empty_string title || Qle_bool amount 0)
    (Error 400 "title and amount > 0 required");;
  let m := mkMilestone milestoneId (p_id p) title description amount
             MilestonePending now in
  milestones_set (m_id m) m;;
  mret (MilestoneJson m).

(** [POST /projects/:id/proposals], for a request whose [amount] is a
    number. *)
Definition post_proposals (userId id : string) (milestoneId : string)
    (amount : Q) (proposalId : string) (now : Z) : Handler Response :=
  p ← projects_get id;
  reject_if (negb (bool_decide (p_founderId p = userId)))
    (Error 403 "only founder can create proposals");;
  om ← read (fun st => milestones st !! milestoneId);
  match om with
  | None => respond (Error 400 "invalid milestone")
  | Some m =>
      reject_if (negb (bool_decide (m_projectId m = p_id p)))
        (Error 400 "invalid milestone");;
      reject_if (Qle_bool amount 0 || negb (Qle_bool amount (m_amount m)))
        (Error 400 "invalid amount");;
      let pr := mkProposal proposalId (p_id p) milestoneId amount 0 0 false now in
      proposals_set (pr_id pr) pr;;
      mret (ProposalJson pr)
  end.

(** [POST /projects/:id/proposals/:proposalId/vote] *)
Definition post_vote (id proposalId : string) (approve : bool) : Handler Response :=
  p ← projects_get id;
  opr ← read (fun st => proposals st !! proposalId);
  match opr with
  | None => respond ProposalNotFound
  | Some pr =>
      reject_if (negb (bool_decide (pr_projectId pr = p_id p))) ProposalNotFound;;
      let pr := if approve then set_approvals pr (pr_approvals pr + 1)
                else set_rejections pr (pr_rejections pr + 1) in
      proposals_set proposalId pr;;
      proposals_set (pr_id pr) pr;;
      mret (ProposalJson pr)
  end.

(** [POST /projects/:id/proposals/:proposalId/release] *)
Definition post_release (userId id proposalId : string) : Handler Response :=
  p ← projects_get id;
  reject_if (negb (bool_decide (p_founderId p = userId))) Forbidden_release;;
  opr ← read (fun st => proposals st !! proposalId);
  match opr with
  | None => respond ProposalNotFound
  | Some pr =>
      reject_if (negb (bool_decide (pr_projectId pr = p_id p))) ProposalNotFound;;
      om ← read (fun st => milestones st !! pr_milestoneId pr);
      match om with
      | None => respond MilestoneNotFound
      | Some m =>
          reject_if (pr_released pr) AlreadyReleased;;
          reject_if ((pr_approvals pr <? 1) || (pr_approvals pr <=? pr_rejections pr))
            NotApproved;;
          let amount := Qmin (pr_amount pr) (p_reserve p) in
          let p := set_reserve p (Qmax 0 (p_reserve p - amount)) in
          projects_store id p;;
          let p := if Qle_bool FUNDING_CAP (p_reserve p) then p
                   else set_capReached p false in
          projects_store id p;;
          let pr := set_released pr true in
          proposals_set proposalId pr;;
          let m' := set_m_status m MilestoneReleased in
          milestones_set (pr_milestoneId pr) m';;
          proposals_set (pr_id pr) pr;;
          milestones_set (m_id m') m';;
          mret (ReleaseJson p pr m' amount)
      end
  end.

(** ** The engine operations and their traces *)

(** The operations on requests whose amounts are numbers and whose token
    counts are whole; [Op64] has the operations on any doubles. *)

Inductive Op :=
  | CreateProject (userId : string) (body : ProjectBody) (id : string) (now : Z)
  | Buy (userId id : string) (amount : Q)
  | Sell (userId id : string) (tokens : Z)
  | CreateOffer (userId id : string) (pricePerToken : Q) (amount : Z)
      (offerId : string) (now : Z)
  | Fill (buyerId id offerId : string) (amount : Z).

Definition handler_of (op : Op) : Handler Response :=
  match op with
  | CreateProject userId body id now => post_projects userId body id now
  | Buy userId id amount => post_buy userId id amount
  | Sell userId id tokens => post_sell userId id tokens
  | CreateOffer userId id price amount offerId now =>
      post_offers userId id price amount offerId now
  | Fill buyerId id offerId amount => post_fill buyerId id offerId amount
  end.

Definition exec (op : Op) (st : Store) : Store * Response :=
  run (handler_of op) st.

Definition caller (op : Op) : string :=
  match op with
  | CreateProject u _ _ _ | Buy u _ _ | Sell u _ _
  | CreateOffer u _ _ _ _ _ | Fill u _ _ _ => u
  end.

Fixpoint exec_all (ops : list Op) (st : Store) : Store :=
  match ops with
  | [] => st
  | op :: ops' => exec_all ops' (fst (exec op st))
  end.

(** The identifiers that [nanoid(8)] draws: eight characters of the
    URL-friendly alphabet [A-Za-z0-9_-]. *)
Definition url_alphabet (c : Ascii.ascii) : bool :=
  let n := nat_of_ascii c in
  ((65 <=? n) && (n <=? 90) || (97 <=? n) && (n <=? 122)
   || (48 <=? n) && (n <=? 57) || (n =? 95) || (n =? 45))%nat.

Fixpoint all_url_alphabet (s : string) : bool :=
  match s with
  | EmptyString => true
  | String c s' => url_alphabet c && all_url_alphabet s'
  end.

Definition is_nanoid (s : string) : bool :=
  (String.length s =? 8)%nat && all_url_alphabet s.

(** What the identifier generator is trusted for: a well-formed identifier
    that is not in use. *)
Definition fresh_ids (op : Op) (st : Store) : Prop :=
  match op with
  | CreateProject _ _ id _ => is_nanoid id = true /\ projects st !! id = None
  | CreateOffer _ _ _ _ offerId _ => is_nanoid offerId = true /\ offers st !! offerId = None
  | _ => True
  end.

(** The states reached from the empty stores by the five operations on
    numeric requests. *)
Inductive reachable : Store -> Prop :=
  | reachable_init : reachable empty_store
  | reachable_step st op :
      reachable st -> fresh_ids op st -> reachable (fst (exec op st)).

(** ** Token accounting *)

(** The sum of [f] over the values of a store. *)
Definition sum_over {A} (f : A -> Z) (m : gmap string A) : Z :=
  map_fold (fun _ x acc => f x + acc) 0 m.

Definition holding_weight (pid : string) (h : Holding) : Z :=
  if bool_decide (h_projectId h = pid) then h_balance h else 0.

Definition escrow_weight (pid : string) (o : Offer) : Z :=
  if bool_decide (o_projectId o = pid) && bool_decide (o_status o = OfferOpen)
  then o_amount o else 0.

(** The sum of all holding balances of a project. *)
Definition holdings_total (pid : string) (st : Store) : Z :=
  sum_over (holding_weight pid) (holdings st).

(** The sum of [amount] over the open offers of a project. *)
Definition escrow_total (pid : string) (st : Store) : Z :=
  sum_over (escrow_weight pid) (offers st).

(** The balance of a user in a project ([0] without a holding). *)
Definition balance_of (userId pid : string) (st : Store) : Z :=
  match holdings st !! holdingKey userId pid with
  | Some h => h_balance h
  | None => 0
  end.

(** Whether an identifier contains the separator of the holding keys. *)
Fixpoint has_colon (s : string) : bool :=
  match s with
  | EmptyString => false
  | String c s' => bool_decide (c = ":"%char) || has_colon s'
  end.

(** ** Consistency of the stores *)

(** What every store built by the handlers satisfies: objects sit under
    their own identifiers and keys, refer to existing projects, hold no
    negative amount, and for every project the tokens held and the tokens
    in open offers add up to the supply. *)
Record consistent (st : Store) : Prop := mkConsistent {
  cons_project : forall id p,
    projects st !! id = Some p -> p_id p = id /\ has_colon id = false;
  cons_holding : forall k h,
    holdings st !! k = Some h ->
    k = holdingKey (h_userId h) (h_projectId h) /\
    is_Some (projects st !! h_projectId h) /\ 0 <= h_balance h;
  cons_offer : forall k o,
    offers st !! k = Some o ->
    o_id o = k /\ is_Some (projects st !! o_projectId o) /\ 0 <= o_amount o;
  cons_supply : forall id p,
    projects st !! id = Some p ->
    holdings_total id st + escrow_total id st = p_supply p
}.

(** A trace all of whose identifiers are fresh when they are drawn. *)
Fixpoint fresh_trace (ops : list Op) (st : Store) : Prop :=
  match ops with
  | [] => True
  | op :: ops' => fresh_ids op st /\ fresh_trace ops' (fst (exec op st))
  end.



(** ** What the successful calls write *)

(** The project a successful buy leaves under [id]. *)
Definition bought (p : Project) (amount : Q) : Project :=
  let tokensOut := buyTokensQuote (p_supply p) amount in
  let p := set_supply p (p_supply p + tokensOut) in
  let p := set_reserve p (p_reserve p + amount)%Q in
  if Qle_bool FUNDING_CAP (p_reserve p) then set_capReached p true else p.

(** The holding that a credit of [n] tokens leaves under the key of
    [userId] and [pid]. *)
Definition credited (st : Store) (userId pid : string) (n : Z) : Holding :=
  let h := default (mkHolding userId pid 0) (holdings st !! holdingKey userId pid) in
  set_balance h (h_balance h + n).

(** The project a successful sell leaves under [id]. *)
Definition sold (p : Project) (tokens : Z) : Project :=
  let amountOut := sellTokensQuote (p_supply p) tokens in
  let p := set_supply p (Z.max 0 (p_supply p - tokens)) in
  set_reserve p (Qmax 0 (p_reserve p - amountOut)).

(** The offer a fill of [take] tokens leaves. *)
Definition filled (offer : Offer) (take : Z) : Offer :=
  let offer := set_amount offer (o_amount offer - take) in
  if o_amount offer =? 0 then set_status offer OfferFilled else offer.

(** The project that [POST /projects] stores. *)
Definition created (userId : string) (body : ProjectBody) (id : string)
    (now : Z) : Project :=
  mkProject id userId (b_name body) (b_videoUrl body) (b_summary body)
    (b_resumesUrl body) (b_plan body) now 100 0%Q false (b_tokenSymbol body)
    (match b_fundingGoal body with
     | Some g => if Qpos_bool g then g else FUNDING_CAP
     | None => FUNDING_CAP
     end).

(** The project a successful release leaves under [id]. *)
Definition drawn_down (p : Project) (amount : Q) : Project :=
  let p := set_reserve p (Qmax 0 (p_reserve p - amount)) in
  if Qle_bool FUNDING_CAP (p_reserve p) then p else set_capReached p false.

(** The number of tokens a fill takes: the request clamped to the offer. *)
Definition fill_take (offer : Offer) (amount : Z) : Z :=
  Z.max 0 (Z.min (o_amount offer) amount).

(** ** Concrete stores used in the examples *)

Definition example_body (goal : option Q) : ProjectBody :=
  mkProjectBody "Aurora AI Vision" None "Vision stack for robotics" None
    "MVP, pilots, SDK" None goal.

Definition example_project (reserve : Q) (capReached : bool) (goal : Q) : Project :=
  mkProject "V1StGXR8" "alice" "Aurora AI Vision" None
    "Vision stack for robotics" None "MVP, pilots, SDK" 1 100 reserve
    capReached None goal.


(** The example project with a milestone of [20000] and a proposal of
    [10000] on it that has two approvals and one rejection. *)
Definition example_milestone : Milestone :=
  mkMilestone "mS7_ab12" "V1StGXR8" "Pilot" "" 20000 MilestonePending 2.

Definition example_proposal (released : bool) : Proposal :=
  mkProposal "pR0p_x9Z" "V1StGXR8" "mS7_ab12" 10000 2 1 released 3.

Definition example_governed_store (reserve : Q) (capReached : bool) (goal : Q)
    (released : bool) : Store :=
  mkStore {[ "V1StGXR8" := example_project reserve capReached goal ]}
    {[ holdingKey "alice" "V1StGXR8" := mkHolding "alice" "V1StGXR8" 100 ]}
    ∅
    {[ "mS7_ab12" := example_milestone ]}
    {[ "pR0p_x9Z" := example_proposal released ]}.


(** Alice lists five tokens and takes them back herself. *)
Definition self_fill_trace : list Op :=
  [ CreateProject "alice" (example_body None) "V1StGXR8" 1;
    CreateOffer "alice" "V1StGXR8" (1 # 20) 5 "oFfer_01" 2 ].

(** ** Further definitions *)

(** The number of levels the sell loop sums: the tokens asked for, capped by
    the levels from the start level down to [0] and by the iteration
    ceiling. *)
Definition sell_levels (currentSupply tokensIn : Z) : nat :=
  Nat.min MAX_STEPS
    (Nat.min (Z.to_nat tokensIn) (Z.to_nat (Z.max 0 (currentSupply - 1) + 1))).


(** The proposal a vote leaves. *)
Definition voted (pr : Proposal) (approve : bool) : Proposal :=
  if approve then set_approvals pr (pr_approvals pr + 1)
  else set_rejections pr (pr_rejections pr + 1).

(** The numbers of approving and of rejecting votes in a list of votes. *)
Definition approving (votes : list bool) : Z :=
  Z.of_nat (length (List.filter (fun b => b) votes)).
Definition rejecting (votes : list bool) : Z :=
  Z.of_nat (length (List.filter negb votes)).

(** ** The whole API *)

(** A call of one of the nine writing handlers, with a request whose
    amounts are numbers and whose token counts are whole. *)
Inductive Call :=
  | Market (op : Op)
  | CreateMilestone (userId id title description : string) (amount : Q)
      (milestoneId : string) (now : Z)
  | CreateProposal (userId id milestoneId : string) (amount : Q)
      (proposalId : string) (now : Z)
  | Vote (id proposalId : string) (approve : bool)
  | Release (userId id proposalId : string).

Definition serve (c : Call) (st : Store) : Store * Response :=
  match c with
  | Market op => exec op st
  | CreateMilestone userId id title description amount milestoneId now =>
      run (post_milestones userId id title description amount milestoneId now) st
  | CreateProposal userId id milestoneId amount proposalId now =>
      run (post_proposals userId id milestoneId amount proposalId now) st
  | Vote id proposalId approve => run (post_vote id proposalId approve) st
  | Release userId id proposalId => run (post_release userId id proposalId) st
  end.

Definition fresh_call (c : Call) (st : Store) : Prop :=
  match c with
  | Market op => fresh_ids op st
  | CreateMilestone _ _ _ _ _ milestoneId _ =>
      is_nanoid milestoneId = true /\ milestones st !! milestoneId = None
  | CreateProposal _ _ _ _ proposalId _ =>
      is_nanoid proposalId = true /\ proposals st !! proposalId = None
  | _ => True
  end.

(** The states of the server on numeric requests: those reached from the
    empty stores by calls of the nine handlers whose amounts are numbers and
    whose token counts are whole. *)
Inductive served : Store -> Prop :=
  | served_init : served empty_store
  | served_step st c :
      served st -> fresh_call c st -> served (fst (serve c st)).

Fixpoint serve_all (cs : list Call) (st : Store) : Store :=
  match cs with
  | [] => st
  | c :: cs' => serve_all cs' (fst (serve c st))
  end.

Fixpoint fresh_calls (cs : list Call) (st : Store) : Prop :=
  match cs with
  | [] => True
  | c :: cs' => fresh_call c st /\ fresh_calls cs' (fst (serve c st))
  end.

(** No reserve is negative, and a reserve at or above the cap has its flag
    set. *)
Definition solvent (st : Store) : Prop :=
  forall id p,
    projects st !! id = Some p ->
    (0 <= p_reserve p)%Q /\
    ((FUNDING_CAP <= p_reserve p)%Q -> p_capReached p = true).

(** Milestones and proposals sit under their identifiers; a proposal asks
    for a positive amount, at most that of its milestone, which is a
    milestone of the same project and is released when the proposal is. *)
Definition well_governed (st : Store) : Prop :=
  (forall k m,
     milestones st !! k = Some m ->
     m_id m = k /\ (0 < m_amount m)%Q /\ m_title m <> "") /\
  (forall k pr,
     proposals st !! k = Some pr ->
     pr_id pr = k /\ 0 <= pr_approvals pr /\ 0 <= pr_rejections pr /\
     exists m,
       milestones st !! pr_milestoneId pr = Some m /\
       m_projectId m = pr_projectId pr /\
       (0 < pr_amount pr)%Q /\ (pr_amount pr <= m_amount m)%Q /\
       (pr_released pr = true -> m_status m = MilestoneReleased)).

(** ** Reading handlers *)



(** What holds of every state of the server. *)
Record sound (st : Store) : Prop := mkSound {
  sound_consistent : consistent st;
  sound_solvent : solvent st;
  sound_governed : well_governed st
}.

(** Whether a call is one of the four governance handlers. *)
Definition is_governance (c : Call) : bool :=
  match c with
  | Market _ => false
  | _ => true
  end.

(** A short history of the whole API: the example project, a buy, a
    listing, a milestone, a proposal on it, one approving vote and the
    release. *)
Definition example_calls : list Call :=
  [ Market (CreateProject "alice" (example_body None) "V1StGXR8" 1);
    Market (Buy "bob" "V1StGXR8" (1 # 20));
    Market (CreateOffer "alice" "V1StGXR8" (1 # 20) 5 "oFfer_01" 2);
    CreateMilestone "alice" "V1StGXR8" "Pilot" "" (1 # 50) "mS7_ab12" 3;
    CreateProposal "alice" "V1StGXR8" "mS7_ab12" (1 # 100) "pR0p_x9Z" 4;
    Vote "V1StGXR8" "pR0p_x9Z" true ].

Definition example_state : Store := serve_all example_calls empty_store.

(** The example state after the release of the proposal. *)
Definition example_released_state : Store :=
  fst (serve (Release "alice" "V1StGXR8" "pR0p_x9Z") example_state).

(** The example state with a second approved proposal on the same
    milestone. *)
Definition example_second_proposal : list Call :=
  [ CreateProposal "alice" "V1StGXR8" "mS7_ab12" (1 # 50) "nEw_pr0P" 5;
    Vote "V1StGXR8" "nEw_pr0P" true ].

Definition example_two_proposals_state : Store :=
  serve_all example_second_proposal example_state.

(** * The server in binary64

    The same curve, quotes and market handlers with the numbers the server
    computes with: JavaScript numbers, that is IEEE 754 binary64 doubles,
    here the primitive [float].  Every sum, difference and product is
    rounded to the nearest double, and a request amount is whatever
    [Number(req.body?.x || 0)] yields, [NaN] for a text that is no number.
    This part follows [server/dist/index.js]; it is executable, and the
    statements that depend on rounding or on [NaN] are made on it. *)

Section Binary64.

Local Open Scope float_scope.
#[local] Set Warnings "-inexact-float".

(** The constants are the doubles nearest to the decimal literals, as
    JavaScript reads them. *)

Definition BASE_PRICE64 : float := 0.01.
Definition SLOPE64 : float := 0.0001.
Definition FUNDING_CAP64 : float := 100000.

Definition priceAtSupply64 (supply : float) : float :=
  BASE_PRICE64 + SLOPE64 * supply.

(** [Math.max(a, b)] and [Math.min(a, b)]: [NaN] if either is, and [-0]
    below [+0]. *)
Definition Math_max (a b : float) : float :=
  if is_nan a || is_nan b then nan
  else if a <? b then b
  else if b <? a then a
  else if get_sign a then b else a.

Definition Math_min (a b : float) : float :=
  if is_nan a || is_nan b then nan
  else if a <? b then a
  else if b <? a then b
  else if get_sign a then a else b.

(** The body of [buyTokensQuote], with [tokens], [budget] and [s] doubles. *)
Fixpoint buy_loop64 (fuel : nat) (tokens budget s : float) : float :=
  match fuel with
  | O => tokens
  | S fuel' =>
      if 0 <? budget then
        let p := priceAtSupply64 s in
        if p <=? budget
        then buy_loop64 fuel' (tokens + 1) (budget - p) (s + 1)
        else tokens
      else tokens
  end.

Definition buyTokensQuote64 (currentSupply amountIn : float) : float :=
  buy_loop64 MAX_STEPS 0 amountIn currentSupply.

(** The body of [sellTokensQuote]. *)
Fixpoint sell_loop64 (fuel : nat) (s t out : float) : float :=
  match fuel with
  | O => out
  | S fuel' =>
      if (0 <? t) && (0 <=? s)
      then sell_loop64 fuel' (s - 1) (t - 1) (out + priceAtSupply64 s)
      else out
  end.

Definition sellTokensQuote64 (currentSupply tokensIn : float) : float :=
  sell_loop64 MAX_STEPS (Math_max 0 (currentSupply - 1)) tokensIn 0.

(** ** The walk of the buy loop, step by step *)

(** The supply level, the running budget and the token counter after [k]
    tokens, as the loop computes them. *)
Fixpoint level64 (s : float) (k : nat) : float :=
  match k with
  | O => s
  | S k' => level64 (s + 1) k'
  end.

Fixpoint budget64 (s f : float) (k : nat) : float :=
  match k with
  | O => f
  | S k' => budget64 (s + 1) (f - priceAtSupply64 s) k'
  end.

Fixpoint count64 (tokens : float) (k : nat) : float :=
  match k with
  | O => tokens
  | S k' => count64 (tokens + 1) k'
  end.

(** Whether the loop takes one more token after [k]: the running budget is
    positive and covers the price of the next level. *)
Definition covered64 (s f : float) (k : nat) : bool :=
  (0 <? budget64 s f k) && (priceAtSupply64 (level64 s k) <=? budget64 s f k).

(** The double of a natural number. *)
Definition float_of_nat (n : nat) : float :=
  of_uint63 (Uint63.of_Z (Z.of_nat n)).

(** The prices of the [k] levels walked up from [s], lowest level first. *)
Fixpoint walked64 (s : float) (k : nat) : list float :=
  match k with
  | O => []
  | S k' => priceAtSupply64 s :: walked64 (s + 1) k'
  end.

(** ** The walk of the sell loop *)

(** A counter after [j] decrements: the level [s] and the tokens left [t]
    of the sell loop. *)
Fixpoint down64 (x : float) (j : nat) : float :=
  match j with
  | O => x
  | S j' => down64 (x - 1) j'
  end.

(** Whether the sell loop sums one more price after [j]: tokens are left
    and the level is not below [0]. *)
Definition selling64 (s t : float) (j : nat) : bool :=
  (0 <? down64 t j) && (0 <=? down64 s j).

(** The prices of the [n] levels walked down from [s], highest level
    first. *)
Fixpoint descending64 (s : float) (n : nat) : list float :=
  match n with
  | O => []
  | S n' => priceAtSupply64 s :: descending64 (s - 1) n'
  end.

(** The sum of a list of doubles in binary64, from the left, starting at
    [0]: how [out += p] accumulates. *)
Definition sum64 (l : list float) : float :=
  fold_left PrimFloat.add l 0.

(** ** Exact values of doubles *)

(** The rational number that a finite double stands for ([0] for the
    zeros; not meant for the infinities and [NaN]). *)
Definition exact (x : float) : Q :=
  match Prim2SF x with
  | S754_finite sign m e =>
      let z := if sign then Zneg m else Zpos m in
      match e with
      | Zneg k => (z # (2 ^ k)%positive)%Q
      | _ => inject_Z (z * 2 ^ e)%Z
      end
  | _ => 0%Q
  end.

(** The exact sum of the values of a list of doubles. *)
Fixpoint exact_total (l : list float) : Q :=
  match l with
  | [] => 0%Q
  | x :: l' => (exact x + exact_total l')%Q
  end.

(** The same sum kept in lowest terms, for evaluation. *)
Fixpoint exact_sum (l : list float) : Q :=
  match l with
  | [] => 0%Q
  | x :: l' => Qred (exact x + exact_sum l')
  end.


(** ** The stores and handlers in binary64 *)

Record Project64 := mkProject64 {
  p64_id : string;
  p64_founderId : string;
  p64_name : string;
  p64_videoUrl : option string;
  p64_summary : string;
  p64_resumesUrl : option string;
  p64_plan : string;
  p64_createdAt : Z;
  p64_supply : float;
  p64_reserve : float;
  p64_capReached : bool
}.

Record Holding64 := mkHolding64 {
  h64_userId : string;
  h64_projectId : string;
  h64_balance : float
}.

Record Offer64 := mkOffer64 {
  o64_id : string;
  o64_projectId : string;
  o64_sellerId : string;
  o64_pricePerToken : float;
  o64_amount : float;
  o64_createdAt : Z;
  o64_status : OfferStatus
}.

Definition set_supply64 (p : Project64) (v : float) : Project64 :=
  mkProject64 (p64_id p) (p64_founderId p) (p64_name p) (p64_videoUrl p)
    (p64_summary p) (p64_resumesUrl p) (p64_plan p) (p64_createdAt p) v
    (p64_reserve p) (p64_capReached p).

Definition set_reserve64 (p : Project64) (v : float) : Project64 :=
  mkProject64 (p64_id p) (p64_founderId p) (p64_name p) (p64_videoUrl p)
    (p64_summary p) (p64_resumesUrl p) (p64_plan p) (p64_createdAt p)
    (p64_supply p) v (p64_capReached p).

Definition set_capReached64 (p : Project64) (v : bool) : Project64 :=
  mkProject64 (p64_id p) (p64_founderId p) (p64_name p) (p64_videoUrl p)
    (p64_summary p) (p64_resumesUrl p) (p64_plan p) (p64_createdAt p)
    (p64_supply p) (p64_reserve p) v.

Definition set_balance64 (h : Holding64) (v : float) : Holding64 :=
  mkHolding64 (h64_userId h) (h64_projectId h) v.

Definition set_amount64 (o : Offer64) (v : float) : Offer64 :=
  mkOffer64 (o64_id o) (o64_projectId o) (o64_sellerId o)
    (o64_pricePerToken o) v (o64_createdAt o) (o64_status o).

Definition set_status64 (o : Offer64) (v : OfferStatus) : Offer64 :=
  mkOffer64 (o64_id o) (o64_projectId o) (o64_sellerId o)
    (o64_pricePerToken o) (o64_amount o) (o64_createdAt o) v.

Record Store64 := mkStore64 {
  projects64 : gmap string Project64;
  holdings64 : gmap string Holding64;
  offers64 : gmap string Offer64
}.

Definition empty_store64 : Store64 := mkStore64 ∅ ∅ ∅.

Inductive Response64 :=
  | Error64 (status : Z) (error : string)
  | ProjectJson64 (project : Project64)
  | BuyJson64 (project : Project64) (tokensOut : float)
  | SellJson64 (project : Project64) (amountOut : float)
  | OfferJson64 (offer : Offer64)
  | FillJson64 (offer : Offer64).

Definition is_error64 (r : Response64) : bool :=
  match r with Error64 _ _ => true | _ => false end.

(** [POST /projects] *)
Definition post_projects64 (userId : string) (body : ProjectBody)
    (id : string) (now : Z) (st : Store64) : Store64 * Response64 :=
  if is_empty_string (b_name body) || is_empty_string (b_summary body)
     || is_empty_string (b_plan body)
  then (st, Error64 400 "name, summary, plan required")
  else
    let project :=
      mkProject64 id userId (b_name body) (b_videoUrl body) (b_summary body)
        (b_resumesUrl body) (b_plan body) now 0 0 false in
    let founderKey := holdingKey userId id in
    let founderHolding :=
      default (mkHolding64 userId id 0) (holdings64 st !! founderKey) in
    let founderHolding :=
      set_balance64 founderHolding (h64_balance founderHolding + 100) in
    let project := set_supply64 project (p64_supply project + 100) in
    (mkStore64 (<[id := project]> (projects64 st))
       (<[founderKey := founderHolding]> (holdings64 st)) (offers64 st),
     ProjectJson64 project).

(** [POST /projects/:id/buy]; [amount] is [Number(req.body?.amount || 0)]. *)
Definition post_buy64 (userId id : string) (amount : float) (st : Store64)
    : Store64 * Response64 :=
  match projects64 st !! id with
  | None => (st, Error64 404 "not found")
  | Some p =>
      if p64_capReached p then (st, Error64 400 "funding cap reached")
      else if amount <=? 0 then (st, Error64 400 "amount > 0 required")
      else
        let tokensOut := buyTokensQuote64 (p64_supply p) amount in
        if tokensOut <=? 0
        then (st, Error64 400 "amount too small for current price")
        else
          let p := set_supply64 p (p64_supply p + tokensOut) in
          let p := set_reserve64 p (p64_reserve p + amount) in
          let p := if FUNDING_CAP64 <=? p64_reserve p
                   then set_capReached64 p true else p in
          let key := holdingKey userId (p64_id p) in
          let h := default (mkHolding64 userId (p64_id p) 0)
                     (holdings64 st !! key) in
          let h := set_balance64 h (h64_balance h + tokensOut) in
          (mkStore64 (<[id := p]> (projects64 st))
             (<[key := h]> (holdings64 st)) (offers64 st),
           BuyJson64 p tokensOut)
  end.

(** [POST /projects/:id/sell]; [tokens] is [Number(req.body?.tokens || 0)]. *)
Definition post_sell64 (userId id : string) (tokens : float) (st : Store64)
    : Store64 * Response64 :=
  match projects64 st !! id with
  | None => (st, Error64 404 "not found")
  | Some p =>
      if tokens <=? 0 then (st, Error64 400 "tokens > 0 required")
      else
        let key := holdingKey userId (p64_id p) in
        match holdings64 st !! key with
        | None => (st, Error64 400 "insufficient balance")
        | Some h =>
            if h64_balance h <? tokens
            then (st, Error64 400 "insufficient balance")
            else
              let amountOut := sellTokensQuote64 (p64_supply p) tokens in
              let p := set_supply64 p (Math_max 0 (p64_supply p - tokens)) in
              let p := set_reserve64 p (Math_max 0 (p64_reserve p - amountOut)) in
              let h := set_balance64 h (h64_balance h - tokens) in
              (mkStore64 (<[id := p]> (projects64 st))
                 (<[key := h]> (holdings64 st)) (offers64 st),
               SellJson64 p amountOut)
        end
  end.

(** [POST /projects/:id/offers] *)
Definition post_offers64 (userId id : string) (pricePerToken amount : float)
    (offerId : string) (now : Z) (st : Store64) : Store64 * Response64 :=
  match projects64 st !! id with
  | None => (st, Error64 404 "not found")
  | Some p =>
      if (pricePerToken <=? 0) || (amount <=? 0)
      then (st, Error64 400 "pricePerToken and amount > 0 required")
      else
        let key := holdingKey userId (p64_id p) in
        match holdings64 st !! key with
        | None => (st, Error64 400 "insufficient balance")
        | Some h =>
            if h64_balance h <? amount
            then (st, Error64 400 "insufficient balance")
            else
              let h := set_balance64 h (h64_balance h - amount) in
              let offer :=
                mkOffer64 offerId (p64_id p) userId pricePerToken amount now
                  OfferOpen in
              (mkStore64 (projects64 st) (<[key := h]> (holdings64 st))
                 (<[o64_id offer := offer]> (offers64 st)),
               OfferJson64 offer)
        end
  end.

(** [POST /projects/:id/offers/:offerId/fill] *)
Definition post_fill64 (buyerId id offerId : string) (amount : float)
    (st : Store64) : Store64 * Response64 :=
  match projects64 st !! id with
  | None => (st, Error64 404 "not found")
  | Some p =>
      match offers64 st !! offerId with
      | None => (st, Error64 404 "offer not found")
      | Some offer =>
          if negb (bool_decide (o64_projectId offer = p64_id p))
          then (st, Error64 404 "offer not found")
          else if negb (bool_decide (o64_status offer = OfferOpen))
                  || (o64_amount offer <=? 0)
          then (st, Error64 400 "offer not open")
          else
            let take := Math_max 0 (Math_min (o64_amount offer) amount) in
            if take <=? 0 then (st, Error64 400 "amount > 0 required")
            else
              let buyerKey := holdingKey buyerId (p64_id p) in
              let buyerHolding :=
                default (mkHolding64 buyerId (p64_id p) 0)
                  (holdings64 st !! buyerKey) in
              let buyerHolding :=
                set_balance64 buyerHolding (h64_balance buyerHolding + take) in
              let offer := set_amount64 offer (o64_amount offer - take) in
              let offer := if o64_amount offer =? 0
                           then set_status64 offer OfferFilled else offer in
              (mkStore64 (projects64 st)
                 (<[buyerKey := buyerHolding]> (holdings64 st))
                 (<[o64_id offer := offer]> (<[offerId := offer]> (offers64 st))),
               FillJson64 offer)
      end
  end.

(** The engine operations with the numbers of the requests as doubles. *)
Inductive Op64 :=
  | CreateProject64 (userId : string) (body : ProjectBody) (id : string) (now : Z)
  | Buy64 (userId id : string) (amount : float)
  | Sell64 (userId id : string) (tokens : float)
  | CreateOffer64 (userId id : string) (pricePerToken amount : float)
      (offerId : string) (now : Z)
  | Fill64 (buyerId id offerId : string) (amount : float).

Definition exec64 (op : Op64) (st : Store64) : Store64 * Response64 :=
  match op with
  | CreateProject64 userId body id now => post_projects64 userId body id now st
  | Buy64 userId id amount => post_buy64 userId id amount st
  | Sell64 userId id tokens => post_sell64 userId id tokens st
  | CreateOffer64 userId id price amount offerId now =>
      post_offers64 userId id price amount offerId now st
  | Fill64 buyerId id offerId amount => post_fill64 buyerId id offerId amount st
  end.

Fixpoint exec_all64 (ops : list Op64) (st : Store64) : Store64 :=
  match ops with
  | [] => st
  | op :: ops' => exec_all64 ops' (fst (exec64 op st))
  end.




(** Alice founds a project and sells with a request whose token count is
    no number. *)
Definition nan_sell_trace : list Op64 :=
  [ CreateProject64 "alice" (example_body None) "V1StGXR8" 1;
    Sell64 "alice" "V1StGXR8" nan ].

End Binary64.
(** ** Facts about the curve *)

Lemma Qpos_bool_true x : Qpos_bool x = true <-> (0 < x)%Q.
Proof.
  unfold Qpos_bool. rewrite negb_true_iff.
  destruct (Qle_bool x 0) eqn:E.
  - apply Qle_bool_iff in E. split; [discriminate | intros H; lra].
  - split; [intros _ | reflexivity].
    destruct (Qlt_le_dec 0 x) as [H | H]; [exact H |].
    apply Qle_bool_iff in H. congruence.
Qed.

Lemma Qpos_bool_false x : Qpos_bool x = false <-> (x <= 0)%Q.
Proof.
  unfold Qpos_bool. rewrite negb_false_iff. apply Qle_bool_iff.
Qed.

Lemma Qle_bool_false x y : Qle_bool x y = false <-> (y < x)%Q.
Proof.
  destruct (Qle_bool x y) eqn:E.
  - apply Qle_bool_iff in E. split; [discriminate | intros H; lra].
  - split; [intros _ | reflexivity].
    destruct (Qlt_le_dec y x) as [H | H]; [exact H |].
    apply Qle_bool_iff in H. congruence.
Qed.

Lemma priceAtSupply_succ s :
  (priceAtSupply (s + 1) == priceAtSupply s + SLOPE)%Q.
Proof.
  unfold priceAtSupply. rewrite inject_Z_plus. unfold SLOPE, BASE_PRICE.
  change (inject_Z 1) with 1%Q. lra.
Qed.

Lemma priceAtSupply_pos s : 0 <= s -> (0 < priceAtSupply s)%Q.
Proof.
  intros Hs. unfold priceAtSupply, BASE_PRICE, SLOPE.
  assert (H : (0 <= inject_Z s)%Q) by (change 0%Q with (inject_Z 0); now rewrite <- Zle_Qle).
  lra.
Qed.

Lemma priceAtSupply_mono s s' : s <= s' -> (priceAtSupply s <= priceAtSupply s')%Q.
Proof.
  intros Hs. unfold priceAtSupply, BASE_PRICE, SLOPE.
  assert (H : (inject_Z s <= inject_Z s')%Q) by now rewrite <- Zle_Qle.
  lra.
Qed.

Lemma walked_cost_snoc s n :
  (walked_cost s (S n) == walked_cost s n + priceAtSupply (s + Z.of_nat n))%Q.
Proof.
  revert s. induction n as [| n IH]; intros s.
  - cbn [walked_cost]. rewrite Z.add_0_r. lra.
  - change (walked_cost s (S (S n)))
      with (priceAtSupply s + walked_cost (s + 1) (S n))%Q.
    rewrite IH. cbn [walked_cost].
    replace (s + 1 + Z.of_nat n) with (s + Z.of_nat (S n)) by lia. lra.
Qed.

Lemma walked_cost_nonneg s n : 0 <= s -> (0 <= walked_cost s n)%Q.
Proof.
  revert s. induction n as [| n IH]; intros s Hs; cbn [walked_cost].
  - lra.
  - pose proof (priceAtSupply_pos s Hs). pose proof (IH (s + 1) ltac:(lia)). lra.
Qed.

(** Selling down from level [s + n - 1] walks the levels that buying from
    [s] walked up. *)
Lemma descending_sum_walked_cost s n :
  (descending_sum (s + Z.of_nat n - 1) n == walked_cost s n)%Q.
Proof.
  induction n as [| n IH].
  - reflexivity.
  - rewrite walked_cost_snoc. cbn [descending_sum].
    replace (s + Z.of_nat (S n) - 1 - 1) with (s + Z.of_nat n - 1) by lia.
    rewrite IH. replace (s + Z.of_nat (S n) - 1) with (s + Z.of_nat n) by lia. lra.
Qed.

(** ** The two quote loops *)

(** What the buy loop returns: the number [k] of tokens it adds is bounded
    by the iterations left, the [k] walked prices fit in the budget, and
    unless the iterations ran out the next price does not. *)
Lemma buy_loop_spec fuel : forall tokens budget s,
  0 <= s -> (0 <= budget)%Q ->
  exists k : nat,
    buy_loop fuel tokens budget s = tokens + Z.of_nat k /\
    (k <= fuel)%nat /\
    (walked_cost s k <= budget)%Q /\
    ((k < fuel)%nat -> (budget < walked_cost s (S k))%Q).
Proof.
  induction fuel as [| fuel IH]; intros tokens budget s Hs Hb.
  - exists O. cbn. repeat split; [lia | lia | lra | lia].
  - cbn [buy_loop]. pose proof (priceAtSupply_pos s Hs) as Hp.
    destruct (Qpos_bool budget) eqn:Epos.
    + destruct (Qle_bool (priceAtSupply s) budget) eqn:Ele.
      * apply Qle_bool_iff in Ele.
        destruct (IH (tokens + 1) (budget - priceAtSupply s)%Q (s + 1))
          as (k & Heq & Hk & Hcost & Hnext); [lia | lra |].
        exists (S k). rewrite Heq. repeat split.
        -- lia.
        -- lia.
        -- cbn [walked_cost]. lra.
        -- intros Hlt. specialize (Hnext ltac:(lia)).
           change (walked_cost s (S (S k)))
             with (priceAtSupply s + walked_cost (s + 1) (S k))%Q. lra.
      * apply Qle_bool_false in Ele.
        exists O. cbn [walked_cost]. repeat split; [lia | lia | lra |].
        intros _. lra.
    + apply Qpos_bool_false in Epos.
      exists O. cbn [walked_cost]. repeat split; [lia | lia | lra |].
      intros _. lra.
Qed.

(** With enough budget for every remaining iteration the loop runs to the
    ceiling. *)
Lemma buy_loop_ceiling fuel : forall tokens budget s,
  0 <= s -> (walked_cost s fuel <= budget)%Q ->
  buy_loop fuel tokens budget s = tokens + Z.of_nat fuel.
Proof.
  induction fuel as [| fuel IH]; intros tokens budget s Hs Hb.
  - cbn. lia.
  - cbn [buy_loop]. cbn [walked_cost] in Hb.
    pose proof (priceAtSupply_pos s Hs) as Hp.
    pose proof (walked_cost_nonneg (s + 1) fuel ltac:(lia)) as Hc.
    assert (Epos : Qpos_bool budget = true) by (apply Qpos_bool_true; lra).
    assert (Ele : Qle_bool (priceAtSupply s) budget = true)
      by (apply Qle_bool_iff; lra).
    rewrite Epos, Ele. rewrite IH; [lia | lia | lra].
Qed.

Lemma walked_cost_upper s n :
  0 <= s ->
  (walked_cost s n <= inject_Z (Z.of_nat n) * priceAtSupply (s + Z.of_nat n))%Q.
Proof.
  intros Hs. induction n as [| n IH].
  - cbn [walked_cost]. change (inject_Z (Z.of_nat 0)) with 0%Q. lra.
  - rewrite walked_cost_snoc.
    replace (Z.of_nat (S n)) with (Z.of_nat n + 1) by lia.
    rewrite inject_Z_plus. change (inject_Z 1) with 1%Q.
    pose proof (priceAtSupply_mono (s + Z.of_nat n) (s + (Z.of_nat n + 1)) ltac:(lia)) as Hm.
    pose proof (priceAtSupply_pos (s + Z.of_nat n) ltac:(lia)) as Hp.
    assert (Hn : (0 <= inject_Z (Z.of_nat n))%Q)
      by (change 0%Q with (inject_Z 0); rewrite <- Zle_Qle; lia).
    assert (Hprod : (inject_Z (Z.of_nat n) * priceAtSupply (s + Z.of_nat n)
                     <= inject_Z (Z.of_nat n) * priceAtSupply (s + (Z.of_nat n + 1)))%Q).
    { rewrite !(Qmult_comm (inject_Z (Z.of_nat n))).
      apply Qmult_le_compat_r; assumption. }
    lra.
Qed.

(** What the sell loop returns: it adds the prices of the levels [s],
    [s - 1], ... and stops after [t] of them, below level [0], or at the
    iteration ceiling, whichever comes first. *)
Lemma sell_loop_spec fuel : forall s t out,
  -1 <= s -> 0 <= t ->
  (sell_loop fuel s t out ==
   out + descending_sum s (Nat.min fuel (Nat.min (Z.to_nat t) (Z.to_nat (s + 1)))))%Q.
Proof.
  induction fuel as [| fuel IH]; intros s t out Hs Ht.
  - cbn. lra.
  - cbn [sell_loop].
    destruct (0 <? t) eqn:Et; [destruct (0 <=? s) eqn:Es |]; cbn [andb].
    + apply Z.ltb_lt in Et. apply Z.leb_le in Es.
      rewrite IH by lia.
      replace (Nat.min (S fuel) (Nat.min (Z.to_nat t) (Z.to_nat (s + 1))))
        with (S (Nat.min fuel (Nat.min (Z.to_nat (t - 1)) (Z.to_nat (s - 1 + 1)))))
        by lia.
      cbn [descending_sum]. lra.
    + apply Z.leb_gt in Es.
      replace (Z.to_nat (s + 1)) with O by lia.
      rewrite Nat.min_0_r, Nat.min_0_r. cbn. lra.
    + apply Z.ltb_ge in Et.
      replace (Z.to_nat t) with O by lia.
      rewrite Nat.min_0_l, Nat.min_0_r. cbn. lra.
Qed.

(** ** The quotes as functions of their arguments *)

Lemma buyTokensQuote_spec s f :
  0 <= s -> (0 <= f)%Q ->
  exists k : nat,
    buyTokensQuote s f = Z.of_nat k /\
    (k <= MAX_STEPS)%nat /\
    (walked_cost s k <= f)%Q /\
    ((k < MAX_STEPS)%nat -> (f < walked_cost s (S k))%Q).
Proof.
  intros Hs Hf. unfold buyTokensQuote.
  destruct (buy_loop_spec MAX_STEPS 0 f s Hs Hf) as (k & Heq & Hk & Hc & Hn).
  exists k. rewrite Heq. repeat split; auto.
Qed.

Lemma MAX_STEPS_Z : Z.of_nat MAX_STEPS = 5000.
Proof. reflexivity. Qed.

Lemma sellTokensQuote_spec cs t :
  0 <= cs -> 0 <= t ->
  (sellTokensQuote cs t ==
   descending_sum (Z.max 0 (cs - 1))
     (Nat.min MAX_STEPS
        (Nat.min (Z.to_nat t) (Z.to_nat (Z.max 0 (cs - 1) + 1)))))%Q.
Proof.
  intros Hcs Ht. unfold sellTokensQuote.
  rewrite sell_loop_spec by lia. lra.
Qed.

(** From a supply of at least one token the quote sums the prices of the
    levels [cs - 1], [cs - 2], ...: [t] of them, unless level [0] or the
    iteration ceiling comes first. *)
Lemma sellTokensQuote_levels cs t :
  1 <= cs -> 0 <= t ->
  (sellTokensQuote cs t ==
   descending_sum (cs - 1)
     (Nat.min MAX_STEPS (Nat.min (Z.to_nat t) (Z.to_nat cs))))%Q.
Proof.
  intros Hcs Ht. rewrite sellTokensQuote_spec by lia.
  replace (Z.max 0 (cs - 1)) with (cs - 1) by lia.
  replace (cs - 1 + 1) with cs by lia. reflexivity.
Qed.

(** Selling back exactly what a buy returned pays the prices the buy walked. *)
Lemma sell_after_buy s (k : nat) :
  0 <= s -> (k <= MAX_STEPS)%nat ->
  (sellTokensQuote (s + Z.of_nat k) (Z.of_nat k) == walked_cost s k)%Q.
Proof.
  intros Hs Hk. rewrite sellTokensQuote_spec by lia.
  destruct k as [| k].
  - rewrite Nat.min_0_l, Nat.min_0_r. reflexivity.
  - replace (Z.max 0 (s + Z.of_nat (S k) - 1)) with (s + Z.of_nat (S k) - 1) by lia.
    replace (Nat.min MAX_STEPS
               (Nat.min (Z.to_nat (Z.of_nat (S k)))
                  (Z.to_nat (s + Z.of_nat (S k) - 1 + 1)))) with (S k) by lia.
    apply descending_sum_walked_cost.
Qed.

Lemma buy_loop_ge fuel : forall tokens budget s,
  tokens <= buy_loop fuel tokens budget s.
Proof.
  induction fuel as [| fuel IH]; intros tokens budget s; cbn [buy_loop].
  - lia.
  - destruct (Qpos_bool budget); [| lia].
    destruct (Qle_bool (priceAtSupply s) budget); [| lia].
    specialize (IH (tokens + 1) (budget - priceAtSupply s)%Q (s + 1)). lia.
Qed.

Lemma buyTokensQuote_nonneg s f : 0 <= buyTokensQuote s f.
Proof. apply buy_loop_ge. Qed.

Lemma buyTokensQuote_ceiling s f :
  0 <= s -> (walked_cost s MAX_STEPS <= f)%Q -> buyTokensQuote s f = 5000.
Proof.
  intros Hs Hf. unfold buyTokensQuote.
  rewrite buy_loop_ceiling by assumption. reflexivity.
Qed.

(** ** More about the quotes *)

Lemma buy_loop_nonpos fuel tokens budget s :
  (budget <= 0)%Q -> buy_loop fuel tokens budget s = tokens.
Proof.
  intros Hb. destruct fuel as [| fuel]; cbn [buy_loop]; [reflexivity |].
  apply Qpos_bool_false in Hb. now rewrite Hb.
Qed.

Lemma buyTokensQuote_nonpos s f : (f <= 0)%Q -> buyTokensQuote s f = 0.
Proof. intros Hf. unfold buyTokensQuote. now apply buy_loop_nonpos. Qed.

Lemma sell_loop_nonpos fuel s t out : t <= 0 -> sell_loop fuel s t out = out.
Proof.
  intros Ht. destruct fuel as [| fuel]; cbn [sell_loop]; [reflexivity |].
  replace (0 <? t) with false by (symmetry; apply Z.ltb_ge; lia). reflexivity.
Qed.

Lemma sellTokensQuote_count cs t :
  (sellTokensQuote cs t ==
   descending_sum (Z.max 0 (cs - 1)) (sell_levels cs t))%Q.
Proof.
  unfold sellTokensQuote, sell_levels.
  destruct (Z.le_gt_cases 0 t) as [Ht | Ht].
  - rewrite sell_loop_spec by lia. lra.
  - rewrite sell_loop_nonpos by lia.
    replace (Z.to_nat t) with O by lia.
    rewrite Nat.min_0_l, Nat.min_0_r. reflexivity.
Qed.

Lemma walked_cost_le_count s n m :
  0 <= s -> (n <= m)%nat -> (walked_cost s n <= walked_cost s m)%Q.
Proof.
  intros Hs Hnm. induction Hnm as [| m Hnm IH]; [lra |].
  rewrite walked_cost_snoc.
  pose proof (priceAtSupply_pos (s + Z.of_nat m) ltac:(lia)). lra.
Qed.

Lemma walked_cost_le_supply n : forall s s',
  s <= s' -> (walked_cost s n <= walked_cost s' n)%Q.
Proof.
  induction n as [| n IH]; intros s s' Hs; cbn [walked_cost]; [lra |].
  pose proof (priceAtSupply_mono s s' Hs).
  pose proof (IH (s + 1) (s' + 1) ltac:(lia)). lra.
Qed.

Lemma descending_sum_snoc s n :
  (descending_sum s (S n) == descending_sum s n + priceAtSupply (s - Z.of_nat n))%Q.
Proof.
  revert s. induction n as [| n IH]; intros s.
  - cbn [descending_sum]. rewrite Z.sub_0_r. lra.
  - change (descending_sum s (S (S n)))
      with (priceAtSupply s + descending_sum (s - 1) (S n))%Q.
    rewrite IH. cbn [descending_sum].
    replace (s - 1 - Z.of_nat n) with (s - Z.of_nat (S n)) by lia. lra.
Qed.

(** As long as the walk stays at levels [>= 0], more levels sum to more. *)
Lemma descending_sum_le_count s n m :
  (n <= m)%nat -> Z.of_nat m <= s + 1 ->
  (descending_sum s n <= descending_sum s m)%Q.
Proof.
  intros Hnm. induction Hnm as [| m Hnm IH]; intros Hm; [lra |].
  rewrite descending_sum_snoc.
  pose proof (priceAtSupply_pos (s - Z.of_nat m) ltac:(lia)).
  specialize (IH ltac:(lia)). lra.
Qed.

Lemma sell_levels_bounds cs t :
  (sell_levels cs t <= MAX_STEPS)%nat /\
  Z.of_nat (sell_levels cs t) <= Z.max 0 t /\
  Z.of_nat (sell_levels cs t) <= Z.max 0 (cs - 1) + 1.
Proof. unfold sell_levels. lia. Qed.

Lemma sellTokensQuote_nonneg cs t : (0 <= sellTokensQuote cs t)%Q.
Proof.
  rewrite sellTokensQuote_count.
  pose proof (sell_levels_bounds cs t) as (_ & _ & Hb).
  change 0%Q with (descending_sum (Z.max 0 (cs - 1)) 0).
  apply descending_sum_le_count; lia.
Qed.



(** From here on the quotes are used through the lemmas above. *)
Opaque buyTokensQuote sellTokensQuote.

(** ** Running the handlers *)

(** Unfolds the handler monad so that a handler becomes a cascade of tests
    on the stores it was started on. *)
Ltac unfold_handler :=
  cbv [exec run handler_of post_projects post_buy post_sell post_offers
       post_fill post_milestones post_proposals post_vote post_release
       projects_get projects_store holdings_set offers_set milestones_set
       proposals_set reject_if respond read write
       mbind mret Handler_bind Handler_ret
       with_projects with_holdings with_offers with_milestones with_proposals
       projects holdings offers milestones proposals].

Lemma post_buy_run userId id amount st :
  run (post_buy userId id amount) st =
  match projects st !! id with
  | None => (st, NotFound)
  | Some p =>
      if p_capReached p then (st, CapReached)
      else if Qle_bool amount 0 then (st, InvalidAmount_buy)
      else if buyTokensQuote (p_supply p) amount <=? 0 then (st, QuoteTooSmall)
      else
        (mkStore (<[id := bought p amount]> (projects st))
           (<[holdingKey userId (p_id p) :=
                credited st userId (p_id p) (buyTokensQuote (p_supply p) amount)]>
              (holdings st))
           (offers st) (milestones st) (proposals st),
         BuyJson (bought p amount) (buyTokensQuote (p_supply p) amount))
  end.
Proof.
  destruct st as [ps hs os ms prs]. unfold_handler.
  destruct (ps !! id) as [p |]; [| reflexivity].
  destruct (p_capReached p) eqn:Ecap; [reflexivity |].
  destruct (Qle_bool amount 0); [reflexivity |].
  destruct (buyTokensQuote (p_supply p) amount <=? 0); [reflexivity |].
  rewrite !insert_insert_eq. unfold bought, credited.
  cbv zeta. destruct (Qle_bool FUNDING_CAP _); reflexivity.
Qed.

Lemma post_sell_run userId id tokens st :
  run (post_sell userId id tokens) st =
  match projects st !! id with
  | None => (st, NotFound)
  | Some p =>
      if tokens <=? 0 then (st, InvalidAmount_sell)
      else
        match holdings st !! holdingKey userId (p_id p) with
        | None => (st, InsufficientBalance)
        | Some h =>
            if h_balance h <? tokens then (st, InsufficientBalance)
            else
              (mkStore (<[id := sold p tokens]> (projects st))
                 (<[holdingKey userId (p_id p) :=
                      set_balance h (h_balance h - tokens)]> (holdings st))
                 (offers st) (milestones st) (proposals st),
               SellJson (sold p tokens) (sellTokensQuote (p_supply p) tokens))
        end
  end.
Proof.
  destruct st as [ps hs os ms prs]. unfold_handler.
  destruct (ps !! id) as [p |]; [| reflexivity].
  destruct (tokens <=? 0); [reflexivity |].
  destruct (hs !! holdingKey userId (p_id p)) as [h |]; [| reflexivity].
  destruct (h_balance h <? tokens); [reflexivity |].
  rewrite !insert_insert_eq. reflexivity.
Qed.

Lemma post_offers_run userId id pricePerToken amount offerId now st :
  run (post_offers userId id pricePerToken amount offerId now) st =
  match projects st !! id with
  | None => (st, NotFound)
  | Some p =>
      if Qle_bool pricePerToken 0 || (amount <=? 0) then (st, InvalidAmount_offer)
      else
        match holdings st !! holdingKey userId (p_id p) with
        | None => (st, InsufficientBalance)
        | Some h =>
            if h_balance h <? amount then (st, InsufficientBalance)
            else
              let offer :=
                mkOffer offerId (p_id p) userId pricePerToken amount now OfferOpen in
              (mkStore (projects st)
                 (<[holdingKey userId (p_id p) :=
                      set_balance h (h_balance h - amount)]> (holdings st))
                 (<[offerId := offer]> (offers st))
                 (milestones st) (proposals st),
               OfferJson offer)
        end
  end.
Proof.
  destruct st as [ps hs os ms prs]. unfold_handler.
  destruct (ps !! id) as [p |]; [| reflexivity].
  destruct (Qle_bool pricePerToken 0 || (amount <=? 0)); [reflexivity |].
  destruct (hs !! holdingKey userId (p_id p)) as [h |]; [| reflexivity].
  destruct (h_balance h <? amount); reflexivity.
Qed.

Lemma o_id_filled offer take : o_id (filled offer take) = o_id offer.
Proof. unfold filled. cbv zeta. destruct (_ =? 0); reflexivity. Qed.

Lemma post_fill_run buyerId id offerId amount st :
  run (post_fill buyerId id offerId amount) st =
  match projects st !! id with
  | None => (st, NotFound)
  | Some p =>
      match offers st !! offerId with
      | None => (st, OfferNotFound)
      | Some offer =>
          if negb (bool_decide (o_projectId offer = p_id p)) then (st, OfferNotFound)
          else if negb (bool_decide (o_status offer = OfferOpen))
                  || (o_amount offer <=? 0) then (st, OfferNotOpen)
          else if fill_take offer amount <=? 0 then (st, InvalidAmount_fill)
          else
            let offer' := filled offer (fill_take offer amount) in
            (mkStore (projects st)
               (<[holdingKey buyerId (p_id p) :=
                    credited st buyerId (p_id p) (fill_take offer amount)]>
                  (holdings st))
               (<[o_id offer := offer']> (<[offerId := offer']> (offers st)))
               (milestones st) (proposals st),
             FillJson offer')
      end
  end.
Proof.
  destruct st as [ps hs os ms prs]. unfold_handler.
  destruct (ps !! id) as [p |]; [| reflexivity].
  destruct (os !! offerId) as [offer |]; [| reflexivity].
  destruct (negb (bool_decide (o_projectId offer = p_id p))); [reflexivity |].
  destruct (negb (bool_decide (o_status offer = OfferOpen)) || (o_amount offer <=? 0));
    [reflexivity |].
  unfold fill_take.
  destruct (Z.max 0 (Z.min (o_amount offer) amount) <=? 0); [reflexivity |].
  rewrite !insert_insert_eq. unfold filled, credited. cbv zeta.
  destruct (_ =? 0); reflexivity.
Qed.

Lemma post_projects_run userId body id now st :
  run (post_projects userId body id now) st =
  if is_empty_string (b_name body) || is_empty_string (b_summary body)
     || is_empty_string (b_plan body)
  then (st, Error 400 "name, summary, plan required")
  else
    (mkStore (<[id := created userId body id now]> (projects st))
       (<[holdingKey userId id := credited st userId id 100]> (holdings st))
       (offers st) (milestones st) (proposals st),
     ProjectJson (created userId body id now)).
Proof.
  destruct st as [ps hs os ms prs]. unfold_handler.
  destruct (is_empty_string (b_name body) || is_empty_string (b_summary body)
            || is_empty_string (b_plan body)); [reflexivity |].
  rewrite !insert_insert_eq. reflexivity.
Qed.

Lemma post_release_run userId id proposalId st :
  run (post_release userId id proposalId) st =
  match projects st !! id with
  | None => (st, NotFound)
  | Some p =>
      if negb (bool_decide (p_founderId p = userId)) then (st, Forbidden_release)
      else
        match proposals st !! proposalId with
        | None => (st, ProposalNotFound)
        | Some pr =>
            if negb (bool_decide (pr_projectId pr = p_id p))
            then (st, ProposalNotFound)
            else
              match milestones st !! pr_milestoneId pr with
              | None => (st, MilestoneNotFound)
              | Some m =>
                  if pr_released pr then (st, AlreadyReleased)
                  else if (pr_approvals pr <? 1)
                          || (pr_approvals pr <=? pr_rejections pr)
                  then (st, NotApproved)
                  else
                    let amount := Qmin (pr_amount pr) (p_reserve p) in
                    let p' := drawn_down p amount in
                    let pr' := set_released pr true in
                    let m' := set_m_status m MilestoneReleased in
                    (mkStore (<[id := p']> (projects st)) (holdings st) (offers st)
                       (<[m_id m := m']> (<[pr_milestoneId pr := m']> (milestones st)))
                       (<[pr_id pr := pr']> (<[proposalId := pr']> (proposals st))),
                     ReleaseJson p' pr' m' amount)
              end
        end
  end.
Proof.
  destruct st as [ps hs os ms prs]. unfold_handler.
  destruct (ps !! id) as [p |]; [| reflexivity].
  destruct (negb (bool_decide (p_founderId p = userId))); [reflexivity |].
  destruct (prs !! proposalId) as [pr |]; [| reflexivity].
  destruct (negb (bool_decide (pr_projectId pr = p_id p))); [reflexivity |].
  destruct (ms !! pr_milestoneId pr) as [m |]; [| reflexivity].
  destruct (pr_released pr); [reflexivity |].
  destruct ((pr_approvals pr <? 1) || (pr_approvals pr <=? pr_rejections pr));
    [reflexivity |].
  rewrite !insert_insert_eq. reflexivity.
Qed.

Lemma exec_run op st :
  exec op st =
  match op with
  | CreateProject userId body id now => run (post_projects userId body id now) st
  | Buy userId id amount => run (post_buy userId id amount) st
  | Sell userId id tokens => run (post_sell userId id tokens) st
  | CreateOffer userId id price amount offerId now =>
      run (post_offers userId id price amount offerId now) st
  | Fill buyerId id offerId amount => run (post_fill buyerId id offerId amount) st
  end.
Proof. destruct op; reflexivity. Qed.

(** ** Running the governance handlers *)

Lemma post_milestones_run userId id title description amount milestoneId now st :
  run (post_milestones userId id title description amount milestoneId now) st =
  match projects st !! id with
  | None => (st, NotFound)
  | Some p =>
      if negb (bool_decide (p_founderId p = userId))
      then (st, Error 403 "only founder can create milestones")
      else if is_empty_string title || Qle_bool amount 0
      then (st, Error 400 "title and amount > 0 required")
      else
        let m := mkMilestone milestoneId (p_id p) title description amount
                   MilestonePending now in
        (mkStore (projects st) (holdings st) (offers st)
           (<[milestoneId := m]> (milestones st)) (proposals st),
         MilestoneJson m)
  end.
Proof.
  destruct st as [ps hs os ms prs]. unfold_handler.
  destruct (ps !! id) as [p |]; [| reflexivity].
  destruct (negb (bool_decide (p_founderId p = userId))); [reflexivity |].
  destruct (is_empty_string title || Qle_bool amount 0); reflexivity.
Qed.

Lemma post_proposals_run userId id milestoneId amount proposalId now st :
  run (post_proposals userId id milestoneId amount proposalId now) st =
  match projects st !! id with
  | None => (st, NotFound)
  | Some p =>
      if negb (bool_decide (p_founderId p = userId))
      then (st, Error 403 "only founder can create proposals")
      else
        match milestones st !! milestoneId with
        | None => (st, Error 400 "invalid milestone")
        | Some m =>
            if negb (bool_decide (m_projectId m = p_id p))
            then (st, Error 400 "invalid milestone")
            else if Qle_bool amount 0 || negb (Qle_bool amount (m_amount m))
            then (st, Error 400 "invalid amount")
            else
              let pr := mkProposal proposalId (p_id p) milestoneId amount
                          0 0 false now in
              (mkStore (projects st) (holdings st) (offers st) (milestones st)
                 (<[proposalId := pr]> (proposals st)),
               ProposalJson pr)
        end
  end.
Proof.
  destruct st as [ps hs os ms prs]. unfold_handler.
  destruct (ps !! id) as [p |]; [| reflexivity].
  destruct (negb (bool_decide (p_founderId p = userId))); [reflexivity |].
  destruct (ms !! milestoneId) as [m |]; [| reflexivity].
  destruct (negb (bool_decide (m_projectId m = p_id p))); [reflexivity |].
  destruct (Qle_bool amount 0 || negb (Qle_bool amount (m_amount m)));
    reflexivity.
Qed.

Lemma post_vote_run id proposalId approve st :
  run (post_vote id proposalId approve) st =
  match projects st !! id with
  | None => (st, NotFound)
  | Some p =>
      match proposals st !! proposalId with
      | None => (st, ProposalNotFound)
      | Some pr =>
          if negb (bool_decide (pr_projectId pr = p_id p))
          then (st, ProposalNotFound)
          else
            let pr' := voted pr approve in
            (mkStore (projects st) (holdings st) (offers st) (milestones st)
               (<[pr_id pr := pr']> (<[proposalId := pr']> (proposals st))),
             ProposalJson pr')
      end
  end.
Proof.
  destruct st as [ps hs os ms prs]. unfold_handler.
  destruct (ps !! id) as [p |]; [| reflexivity].
  destruct (prs !! proposalId) as [pr |]; [| reflexivity].
  destruct (negb (bool_decide (pr_projectId pr = p_id p))); [reflexivity |].
  unfold voted. destruct approve; reflexivity.
Qed.

Lemma serve_run c st :
  serve c st =
  match c with
  | Market op => exec op st
  | CreateMilestone userId id title description amount milestoneId now =>
      run (post_milestones userId id title description amount milestoneId now) st
  | CreateProposal userId id milestoneId amount proposalId now =>
      run (post_proposals userId id milestoneId amount proposalId now) st
  | Vote id proposalId approve => run (post_vote id proposalId approve) st
  | Release userId id proposalId => run (post_release userId id proposalId) st
  end.
Proof. destruct c; reflexivity. Qed.

(** ** Holding keys *)

Lemma append_nil p : "" +:+ p = p.
Proof. reflexivity. Qed.

Lemma append_cons c u p : String c u +:+ p = String c (u +:+ p).
Proof. reflexivity. Qed.

Lemma holdingKey_unfold u p : holdingKey u p = u +:+ String ":" p.
Proof. reflexivity. Qed.

Lemma has_colon_append u p : has_colon (u +:+ String ":" p) = true.
Proof.
  induction u as [| c u IH].
  - reflexivity.
  - rewrite append_cons. cbn [has_colon]. rewrite IH. apply orb_true_r.
Qed.

(** Project identifiers hold no colon, so a key determines its user and
    its project. *)
Lemma holdingKey_inj u p u' p' :
  has_colon p = false -> has_colon p' = false ->
  holdingKey u p = holdingKey u' p' -> u = u' /\ p = p'.
Proof.
  rewrite !holdingKey_unfold. intros Hp Hp'. revert u'.
  induction u as [| c u IH]; intros [| c' u'];
    rewrite ?append_nil, ?append_cons; intros Heq.
  - injection Heq as ->. split; reflexivity.
  - injection Heq as <- ->.
    pose proof (has_colon_append u' p') as Hc. congruence.
  - injection Heq as -> <-.
    pose proof (has_colon_append u p) as Hc. congruence.
  - injection Heq as -> Heq. destruct (IH u' Heq) as [-> ->]. split; reflexivity.
Qed.

Lemma url_alphabet_not_colon c : url_alphabet c = true -> c <> ":"%char.
Proof. intros H ->. vm_compute in H. discriminate. Qed.

Lemma all_url_alphabet_no_colon s : all_url_alphabet s = true -> has_colon s = false.
Proof.
  induction s as [| c s IH]; cbn [all_url_alphabet has_colon]; [reflexivity |].
  intros H. apply andb_true_iff in H. destruct H as [Hc Hs].
  rewrite (bool_decide_eq_false_2 _ (url_alphabet_not_colon c Hc)).
  now apply IH.
Qed.

Lemma is_nanoid_no_colon s : is_nanoid s = true -> has_colon s = false.
Proof.
  unfold is_nanoid. intros H. apply andb_true_iff in H.
  apply all_url_alphabet_no_colon, H.
Qed.

(** ** Sums over a store *)

Section SumOver.
Context {A : Type} (f : A -> Z).

Lemma sum_over_empty : sum_over f ∅ = 0.
Proof. unfold sum_over. apply map_fold_empty. Qed.

Lemma sum_over_insert_fresh (m : gmap string A) k x :
  m !! k = None -> sum_over f (<[k := x]> m) = f x + sum_over f m.
Proof.
  intros Hk. unfold sum_over.
  apply (map_fold_insert_L (fun (_ : string) (x : A) (acc : Z) => f x + acc));
    [intros; lia | exact Hk].
Qed.

Lemma sum_over_delete (m : gmap string A) k x :
  m !! k = Some x -> sum_over f m = f x + sum_over f (delete k m).
Proof.
  intros Hk. unfold sum_over.
  apply (map_fold_delete_L (fun (_ : string) (x : A) (acc : Z) => f x + acc));
    [intros; lia | exact Hk].
Qed.

(** Writing [x] under [k] replaces the weight of what was there. *)
Lemma sum_over_insert (m : gmap string A) k x :
  sum_over f (<[k := x]> m) =
  sum_over f m - from_option f 0 (m !! k) + f x.
Proof.
  destruct (m !! k) as [y |] eqn:Hk; cbn [from_option].
  - rewrite <- insert_delete_eq.
    rewrite sum_over_insert_fresh by apply lookup_delete_eq.
    rewrite (sum_over_delete m k y Hk). lia.
  - rewrite sum_over_insert_fresh by exact Hk. lia.
Qed.

Lemma sum_over_nonneg (m : gmap string A) :
  (forall k x, m !! k = Some x -> 0 <= f x) -> 0 <= sum_over f m.
Proof.
  induction m as [| k x m Hk IH] using map_ind; intros Hall.
  - rewrite sum_over_empty. lia.
  - rewrite sum_over_insert_fresh by exact Hk.
    pose proof (Hall k x (lookup_insert_eq _ _ _)) as Hx.
    assert (0 <= sum_over f m); [| lia].
    apply IH. intros k' x' Hk'. apply (Hall k' x').
    rewrite lookup_insert_ne; [exact Hk' | congruence].
Qed.

Lemma sum_over_zero (m : gmap string A) :
  (forall k x, m !! k = Some x -> f x = 0) -> sum_over f m = 0.
Proof.
  induction m as [| k x m Hk IH] using map_ind; intros Hall.
  - apply sum_over_empty.
  - rewrite sum_over_insert_fresh by exact Hk.
    rewrite (Hall k x (lookup_insert_eq _ _ _)).
    rewrite IH; [reflexivity |].
    intros k' x' Hk'. apply (Hall k' x').
    rewrite lookup_insert_ne; [exact Hk' | congruence].
Qed.

(** With no negative weight, one entry weighs at most the total. *)
Lemma sum_over_bound (m : gmap string A) k x :
  (forall k x, m !! k = Some x -> 0 <= f x) ->
  m !! k = Some x -> f x <= sum_over f m.
Proof.
  intros Hall Hk. rewrite (sum_over_delete m k x Hk).
  assert (0 <= sum_over f (delete k m)); [| lia].
  apply sum_over_nonneg. intros k' x' Hk'.
  apply lookup_delete_Some in Hk'. apply (Hall k' x'), Hk'.
Qed.
End SumOver.

(** ** Holdings and offers in a consistent store *)

Lemma is_Some_insert {A} (m : gmap string A) i j x :
  is_Some (m !! j) -> is_Some (<[i := x]> m !! j).
Proof.
  intros H. destruct (decide (i = j)) as [-> | Hne].
  - rewrite lookup_insert_eq. eauto.
  - now rewrite lookup_insert_ne.
Qed.

Lemma holding_at_key st u id h :
  consistent st -> has_colon id = false ->
  holdings st !! holdingKey u id = Some h ->
  h_userId h = u /\ h_projectId h = id.
Proof.
  intros C Hcol Hh.
  destruct (cons_holding st C _ _ Hh) as (Hk & [p Hp] & _).
  destruct (cons_project st C _ _ Hp) as [_ Hcol'].
  apply holdingKey_inj in Hk; [| assumption | assumption].
  destruct Hk as [-> ->]. split; reflexivity.
Qed.

Lemma credited_eq st u id n :
  consistent st -> has_colon id = false ->
  credited st u id n = mkHolding u id (balance_of u id st + n).
Proof.
  intros C Hcol. unfold credited, balance_of.
  destruct (holdings st !! holdingKey u id) as [h |] eqn:Hh; [| reflexivity].
  destruct (holding_at_key st u id h C Hcol Hh) as [Hu Hp].
  destruct h as [hu hp hb]. cbn in *. subst. reflexivity.
Qed.

Lemma debited_eq st u id h n :
  consistent st -> has_colon id = false ->
  holdings st !! holdingKey u id = Some h ->
  set_balance h (h_balance h - n) = mkHolding u id (balance_of u id st - n).
Proof.
  intros C Hcol Hh. unfold balance_of. rewrite Hh.
  destruct (holding_at_key st u id h C Hcol Hh) as [Hu Hp].
  destruct h as [hu hp hb]. cbn in *. subst. reflexivity.
Qed.

Lemma balance_of_nonneg st u id : consistent st -> 0 <= balance_of u id st.
Proof.
  intros C. unfold balance_of.
  destruct (holdings st !! holdingKey u id) as [h |] eqn:Hh; [| lia].
  apply (cons_holding st C _ _ Hh).
Qed.

(** Writing the balance [b] of [u] in [id] moves the total of [id] by the
    difference, and no other total. *)
Lemma holdings_total_update st u id b id' :
  consistent st -> has_colon id = false ->
  sum_over (holding_weight id')
    (<[holdingKey u id := mkHolding u id b]> (holdings st)) =
  holdings_total id' st +
  (if bool_decide (id = id') then b - balance_of u id st else 0).
Proof.
  intros C Hcol. rewrite sum_over_insert. fold (holdings_total id' st).
  unfold balance_of, holding_weight at 2. cbn [h_projectId h_balance].
  destruct (holdings st !! holdingKey u id) as [h |] eqn:Hh; cbn [from_option].
  - destruct (holding_at_key st u id h C Hcol Hh) as [_ Hp].
    unfold holding_weight. rewrite Hp. destruct (bool_decide (id = id')); lia.
  - destruct (bool_decide (id = id')); lia.
Qed.

Lemma holdings_update_consistent st u id b (ps' : gmap string Project) :
  consistent st -> has_colon id = false -> 0 <= b ->
  is_Some (ps' !! id) ->
  (forall j, is_Some (projects st !! j) -> is_Some (ps' !! j)) ->
  forall k h,
    <[holdingKey u id := mkHolding u id b]> (holdings st) !! k = Some h ->
    k = holdingKey (h_userId h) (h_projectId h) /\
    is_Some (ps' !! h_projectId h) /\ 0 <= h_balance h.
Proof.
  intros C Hcol Hb Hid Hmono k h.
  destruct (decide (holdingKey u id = k)) as [<- | Hne].
  - rewrite lookup_insert_eq. intros Heq. injection Heq as <-.
    cbn [h_userId h_projectId h_balance]. auto.
  - rewrite lookup_insert_ne by exact Hne. intros Hh.
    destruct (cons_holding st C _ _ Hh) as (Hk & Hp & Hbal). auto.
Qed.

(** The balance of one user is at most the total of the project. *)
Lemma balance_le_total st u id :
  consistent st -> has_colon id = false ->
  balance_of u id st <= holdings_total id st.
Proof.
  intros C Hcol. unfold balance_of.
  destruct (holdings st !! holdingKey u id) as [h |] eqn:Hh.
  - destruct (holding_at_key st u id h C Hcol Hh) as [_ Hp].
    replace (h_balance h) with (holding_weight id h)
      by (unfold holding_weight; rewrite Hp, bool_decide_eq_true_2; reflexivity).
    apply (sum_over_bound (holding_weight id) (holdings st) (holdingKey u id) h);
      [| exact Hh].
    intros k x Hx. unfold holding_weight.
    destruct (bool_decide _); [apply (cons_holding st C _ _ Hx) | lia].
  - apply sum_over_nonneg. intros k x Hx. unfold holding_weight.
    destruct (bool_decide _); [apply (cons_holding st C _ _ Hx) | lia].
Qed.

Lemma escrow_total_nonneg st id : consistent st -> 0 <= escrow_total id st.
Proof.
  intros C. apply sum_over_nonneg. intros k o Ho. unfold escrow_weight.
  destruct (_ && _); [apply (cons_offer st C _ _ Ho) | lia].
Qed.

Lemma p_id_bought p amount : p_id (bought p amount) = p_id p.
Proof. unfold bought. cbv zeta. destruct (Qle_bool FUNDING_CAP _); reflexivity. Qed.

Lemma p_supply_bought p amount :
  p_supply (bought p amount) = p_supply p + buyTokensQuote (p_supply p) amount.
Proof. unfold bought. cbv zeta. destruct (Qle_bool FUNDING_CAP _); reflexivity. Qed.

Lemma consistent_empty : consistent empty_store.
Proof.
  constructor; cbn [empty_store projects holdings offers]; intros ? ?;
    rewrite lookup_empty; discriminate.
Qed.

Lemma totals_fresh st id :
  consistent st -> projects st !! id = None ->
  holdings_total id st = 0 /\ escrow_total id st = 0.
Proof.
  intros C Hid. split.
  - apply sum_over_zero. intros k h Hh. unfold holding_weight.
    destruct (cons_holding st C _ _ Hh) as (_ & [p Hp] & _).
    rewrite bool_decide_eq_false_2; [reflexivity | congruence].
  - apply sum_over_zero. intros k o Ho. unfold escrow_weight.
    destruct (cons_offer st C _ _ Ho) as (_ & [p Hp] & _).
    rewrite bool_decide_eq_false_2; [reflexivity | congruence].
Qed.

Lemma balance_of_fresh st u id :
  consistent st -> has_colon id = false -> projects st !! id = None ->
  balance_of u id st = 0.
Proof.
  intros C Hcol Hid. unfold balance_of.
  destruct (holdings st !! holdingKey u id) as [h |] eqn:Hh; [| reflexivity].
  destruct (holding_at_key st u id h C Hcol Hh) as [_ Hp].
  destruct (cons_holding st C _ _ Hh) as (_ & [p Hpr] & _). congruence.
Qed.

(** ** Every operation keeps the stores consistent *)

Lemma consistent_create u body id now st :
  consistent st -> is_nanoid id = true -> projects st !! id = None ->
  consistent (fst (run (post_projects u body id now) st)).
Proof.
  intros C Hnano Hfresh. rewrite post_projects_run.
  destruct (_ || _); [exact C |]. cbn [fst].
  pose proof (is_nanoid_no_colon id Hnano) as Hcol.
  rewrite (credited_eq st u id 100 C Hcol).
  rewrite (balance_of_fresh st u id C Hcol Hfresh).
  constructor; cbn [projects holdings offers].
  - intros id' p'. destruct (decide (id = id')) as [<- | Hne].
    + rewrite lookup_insert_eq. intros Heq. injection Heq as <-. auto.
    + rewrite lookup_insert_ne by exact Hne. apply (cons_project st C).
  - apply (holdings_update_consistent st u id (0 + 100)); try assumption.
    + lia.
    + rewrite lookup_insert_eq. eauto.
    + intros j. apply is_Some_insert.
  - intros k o Ho. destruct (cons_offer st C _ _ Ho) as (Hk & Hp & Ha).
    split; [exact Hk |]. split; [now apply is_Some_insert | exact Ha].
  - intros id' p'. unfold holdings_total, escrow_total. cbn [holdings offers].
    rewrite (holdings_total_update st u id (0 + 100) id' C Hcol).
    fold (escrow_total id' st).
    rewrite (balance_of_fresh st u id C Hcol Hfresh).
    destruct (decide (id = id')) as [<- | Hne].
    + rewrite lookup_insert_eq. intros Heq. injection Heq as <-.
      destruct (totals_fresh st id C Hfresh) as [-> ->].
      rewrite bool_decide_eq_true_2 by reflexivity. reflexivity.
    + rewrite lookup_insert_ne by exact Hne. intros Hp'.
      rewrite (bool_decide_eq_false_2 _ Hne).
      pose proof (cons_supply st C _ _ Hp'). lia.
Qed.

Lemma consistent_buy u id amount st :
  consistent st -> consistent (fst (run (post_buy u id amount) st)).
Proof.
  intros C. rewrite post_buy_run.
  destruct (projects st !! id) as [p |] eqn:Hp; [| exact C].
  destruct (p_capReached p); [exact C |].
  destruct (Qle_bool amount 0); [exact C |].
  destruct (_ <=? 0); [exact C |]. cbn [fst].
  destruct (cons_project st C _ _ Hp) as [Hid Hcol]. rewrite Hid.
  set (t := buyTokensQuote (p_supply p) amount).
  assert (Ht : 0 <= t) by apply buyTokensQuote_nonneg.
  rewrite (credited_eq st u id t C Hcol).
  pose proof (balance_of_nonneg st u id C) as Hb.
  constructor; cbn [projects holdings offers].
  - intros id' p'. destruct (decide (id = id')) as [<- | Hne].
    + rewrite lookup_insert_eq. intros Heq. injection Heq as <-.
      rewrite p_id_bought. auto.
    + rewrite lookup_insert_ne by exact Hne. apply (cons_project st C).
  - apply (holdings_update_consistent st u id (balance_of u id st + t));
      try assumption.
    + lia.
    + rewrite lookup_insert_eq. eauto.
    + intros j. apply is_Some_insert.
  - intros k o Ho. destruct (cons_offer st C _ _ Ho) as (Hk & Hpo & Ha).
    split; [exact Hk |]. split; [now apply is_Some_insert | exact Ha].
  - intros id' p'. unfold holdings_total, escrow_total. cbn [holdings offers].
    rewrite (holdings_total_update st u id (balance_of u id st + t) id' C Hcol).
    fold (escrow_total id' st).
    destruct (decide (id = id')) as [<- | Hne].
    + rewrite lookup_insert_eq. intros Heq. injection Heq as <-.
      rewrite bool_decide_eq_true_2 by reflexivity.
      rewrite p_supply_bought. fold t.
      pose proof (cons_supply st C _ _ Hp). lia.
    + rewrite lookup_insert_ne by exact Hne. intros Hp'.
      rewrite (bool_decide_eq_false_2 _ Hne).
      pose proof (cons_supply st C _ _ Hp'). lia.
Qed.

Lemma consistent_sell u id tokens st :
  consistent st -> consistent (fst (run (post_sell u id tokens) st)).
Proof.
  intros C. rewrite post_sell_run.
  destruct (projects st !! id) as [p |] eqn:Hp; [| exact C].
  destruct (tokens <=? 0) eqn:Et; [exact C |].
  destruct (cons_project st C _ _ Hp) as [Hid Hcol]. rewrite Hid.
  destruct (holdings st !! holdingKey u id) as [h |] eqn:Hh; [| exact C].
  destruct (h_balance h <? tokens) eqn:Eb; [exact C |]. cbn [fst].
  apply Z.leb_gt in Et. apply Z.ltb_ge in Eb.
  rewrite (debited_eq st u id h tokens C Hcol Hh).
  assert (Hbal : balance_of u id st = h_balance h)
    by (unfold balance_of; now rewrite Hh).
  constructor; cbn [projects holdings offers].
  - intros id' p'. destruct (decide (id = id')) as [<- | Hne].
    + rewrite lookup_insert_eq. intros Heq. injection Heq as <-. auto.
    + rewrite lookup_insert_ne by exact Hne. apply (cons_project st C).
  - apply (holdings_update_consistent st u id (balance_of u id st - tokens));
      try assumption.
    + lia.
    + rewrite lookup_insert_eq. eauto.
    + intros j. apply is_Some_insert.
  - intros k o Ho. destruct (cons_offer st C _ _ Ho) as (Hk & Hpo & Ha).
    split; [exact Hk |]. split; [now apply is_Some_insert | exact Ha].
  - intros id' p'. unfold holdings_total, escrow_total. cbn [holdings offers].
    rewrite (holdings_total_update st u id (balance_of u id st - tokens) id' C Hcol).
    fold (escrow_total id' st).
    destruct (decide (id = id')) as [<- | Hne].
    + rewrite lookup_insert_eq. intros Heq. injection Heq as <-.
      rewrite bool_decide_eq_true_2 by reflexivity.
      cbn [sold p_supply set_supply set_reserve].
      pose proof (cons_supply st C _ _ Hp).
      pose proof (balance_le_total st u id C Hcol).
      pose proof (escrow_total_nonneg st id C). lia.
    + rewrite lookup_insert_ne by exact Hne. intros Hp'.
      rewrite (bool_decide_eq_false_2 _ Hne).
      pose proof (cons_supply st C _ _ Hp'). lia.
Qed.

Lemma consistent_offer u id price amount offerId now st :
  consistent st -> offers st !! offerId = None ->
  consistent (fst (run (post_offers u id price amount offerId now) st)).
Proof.
  intros C Hfresh. rewrite post_offers_run.
  destruct (projects st !! id) as [p |] eqn:Hp; [| exact C].
  destruct (Qle_bool price 0 || (amount <=? 0)) eqn:Ea; [exact C |].
  destruct (cons_project st C _ _ Hp) as [Hid Hcol]. rewrite Hid.
  destruct (holdings st !! holdingKey u id) as [h |] eqn:Hh; [| exact C].
  destruct (h_balance h <? amount) eqn:Eb; [exact C |]. cbv zeta. cbn [fst].
  apply orb_false_iff in Ea. destruct Ea as [_ Ea].
  apply Z.leb_gt in Ea. apply Z.ltb_ge in Eb.
  rewrite (debited_eq st u id h amount C Hcol Hh).
  assert (Hbal : balance_of u id st = h_balance h)
    by (unfold balance_of; now rewrite Hh).
  constructor; cbn [projects holdings offers].
  - apply (cons_project st C).
  - apply (holdings_update_consistent st u id (balance_of u id st - amount));
      try assumption; [lia | eauto | auto].
  - intros k o. destruct (decide (offerId = k)) as [<- | Hne].
    + rewrite lookup_insert_eq. intros Heq. injection Heq as <-.
      cbn [o_id o_projectId o_amount]. split; [reflexivity |].
      split; [eauto | lia].
    + rewrite lookup_insert_ne by exact Hne. apply (cons_offer st C).
  - intros id' p' Hp'. unfold holdings_total, escrow_total. cbn [holdings offers].
    rewrite (holdings_total_update st u id (balance_of u id st - amount) id' C Hcol).
    rewrite sum_over_insert, Hfresh. cbn [from_option].
    fold (escrow_total id' st).
    unfold escrow_weight. cbn [o_projectId o_status o_amount].
    rewrite (bool_decide_eq_true_2 (OfferOpen = OfferOpen)) by reflexivity.
    rewrite andb_true_r.
    pose proof (cons_supply st C _ _ Hp').
    destruct (bool_decide (id = id')); lia.
Qed.

Lemma filled_weight id' o take :
  o_status o = OfferOpen -> 0 < take <= o_amount o ->
  escrow_weight id' (filled o take) = escrow_weight id' o
    - (if bool_decide (o_projectId o = id') then take else 0).
Proof.
  intros Hopen Htake. unfold filled, escrow_weight. cbv zeta.
  cbn [o_amount set_amount].
  destruct (o_amount o - take =? 0) eqn:E;
    cbn [o_projectId o_status o_amount set_amount set_status].
  - apply Z.eqb_eq in E.
    rewrite (bool_decide_eq_false_2 (OfferFilled = OfferOpen)) by discriminate.
    rewrite andb_false_r, Hopen.
    rewrite (bool_decide_eq_true_2 (OfferOpen = OfferOpen)) by reflexivity.
    rewrite andb_true_r. destruct (bool_decide _); lia.
  - rewrite Hopen.
    rewrite (bool_decide_eq_true_2 (OfferOpen = OfferOpen)) by reflexivity.
    rewrite andb_true_r. destruct (bool_decide _); lia.
Qed.

Lemma filled_fields o take :
  o_id (filled o take) = o_id o /\
  o_projectId (filled o take) = o_projectId o /\
  o_sellerId (filled o take) = o_sellerId o /\
  o_amount (filled o take) = o_amount o - take.
Proof.
  unfold filled. cbv zeta. cbn [o_amount set_amount].
  destruct (_ =? 0); repeat split; reflexivity.
Qed.

(** What a fill that passed its tests knows about the offer. *)
Lemma fill_tests o (pid : string) amount :
  negb (bool_decide (o_projectId o = pid)) = false ->
  negb (bool_decide (o_status o = OfferOpen)) || (o_amount o <=? 0) = false ->
  (fill_take o amount <=? 0) = false ->
  o_projectId o = pid /\ o_status o = OfferOpen /\
  0 < fill_take o amount <= o_amount o.
Proof.
  intros E1 E2 E3.
  apply negb_false_iff, bool_decide_eq_true in E1.
  apply orb_false_iff in E2. destruct E2 as [E2 E2'].
  apply negb_false_iff, bool_decide_eq_true in E2.
  apply Z.leb_gt in E2'. apply Z.leb_gt in E3.
  unfold fill_take in *. repeat split; [assumption | assumption | lia | lia].
Qed.

Lemma consistent_fill b id offerId amount st :
  consistent st -> consistent (fst (run (post_fill b id offerId amount) st)).
Proof.
  intros C. rewrite post_fill_run.
  destruct (projects st !! id) as [p |] eqn:Hp; [| exact C].
  destruct (offers st !! offerId) as [o |] eqn:Ho; [| exact C].
  destruct (negb (bool_decide (o_projectId o = p_id p))) eqn:E1; [exact C |].
  destruct (negb (bool_decide (o_status o = OfferOpen)) || (o_amount o <=? 0))
    eqn:E2; [exact C |].
  destruct (fill_take o amount <=? 0) eqn:E3; [exact C |].
  cbv zeta. cbn [fst].
  destruct (fill_tests o (p_id p) amount E1 E2 E3) as (Hpid & Hopen & Htake).
  destruct (cons_project st C _ _ Hp) as [Hid Hcol]. rewrite Hid in *.
  destruct (cons_offer st C _ _ Ho) as (Hoid & _ & Hamt).
  rewrite Hoid, insert_insert_eq.
  set (take := fill_take o amount) in *.
  rewrite (credited_eq st b id take C Hcol).
  pose proof (balance_of_nonneg st b id C) as Hb.
  destruct (filled_fields o take) as (Hf1 & Hf2 & _ & Hf4).
  constructor; cbn [projects holdings offers].
  - apply (cons_project st C).
  - apply (holdings_update_consistent st b id (balance_of b id st + take));
      try assumption; [lia | eauto | auto].
  - intros k o'. destruct (decide (offerId = k)) as [<- | Hne].
    + rewrite lookup_insert_eq. intros Heq. injection Heq as <-.
      rewrite Hf1, Hf2, Hf4, Hpid. split; [exact Hoid |]. split; [eauto | lia].
    + rewrite lookup_insert_ne by exact Hne. apply (cons_offer st C).
  - intros id' p' Hp'. unfold holdings_total, escrow_total. cbn [holdings offers].
    rewrite (holdings_total_update st b id (balance_of b id st + take) id' C Hcol).
    rewrite sum_over_insert, Ho. cbn [from_option].
    fold (escrow_total id' st).
    rewrite (filled_weight id' o take Hopen Htake), Hpid.
    pose proof (cons_supply st C _ _ Hp').
    destruct (bool_decide (id = id')); lia.
Qed.

Lemma consistent_exec op st :
  consistent st -> fresh_ids op st -> consistent (fst (exec op st)).
Proof.
  intros C Hfresh. rewrite exec_run. destruct op; cbn [fresh_ids] in Hfresh.
  - destruct Hfresh. now apply consistent_create.
  - now apply consistent_buy.
  - now apply consistent_sell.
  - destruct Hfresh. now apply consistent_offer.
  - now apply consistent_fill.
Qed.

Lemma reachable_consistent st : reachable st -> consistent st.
Proof.
  induction 1 as [| st op _ IH Hfresh].
  - apply consistent_empty.
  - now apply consistent_exec.
Qed.

(** ** Traces *)

Lemma reachable_exec_all ops : forall st,
  reachable st -> fresh_trace ops st -> reachable (exec_all ops st).
Proof.
  induction ops as [| op ops IH]; intros st Hr Hf; cbn [exec_all].
  - exact Hr.
  - destruct Hf as [Hop Hrest]. apply IH; [| exact Hrest].
    now apply reachable_step.
Qed.

Lemma p_capReached_bought p amount :
  (FUNDING_CAP <= p_reserve (bought p amount))%Q ->
  p_capReached (bought p amount) = true.
Proof.
  unfold bought. cbv zeta.
  destruct (Qle_bool FUNDING_CAP _) eqn:E; [reflexivity |].
  cbn [p_reserve set_reserve] in *. intros H. apply Qle_bool_iff in H. congruence.
Qed.




(** ** Every call keeps the stores sound *)

(** Consistency speaks of the projects, the holdings and the offers only,
    and of a project only through its identifier and its supply. *)
Lemma consistent_frame st st' :
  consistent st ->
  (forall id p', projects st' !! id = Some p' ->
     exists p, projects st !! id = Some p /\ p_id p' = p_id p /\
               p_supply p' = p_supply p) ->
  (forall id, is_Some (projects st !! id) -> is_Some (projects st' !! id)) ->
  holdings st' = holdings st -> offers st' = offers st ->
  consistent st'.
Proof.
  intros C Hback Hfwd Hh Ho. constructor.
  - intros id p' Hp'. destruct (Hback id p' Hp') as (p & Hp & Hid & _).
    rewrite Hid. apply (cons_project st C _ _ Hp).
  - rewrite Hh. intros k h Hk.
    destruct (cons_holding st C _ _ Hk) as (H1 & H2 & H3). auto.
  - rewrite Ho. intros k o Hk.
    destruct (cons_offer st C _ _ Hk) as (H1 & H2 & H3). auto.
  - intros id p' Hp'. destruct (Hback id p' Hp') as (p & Hp & _ & Hs).
    unfold holdings_total, escrow_total. rewrite Hh, Ho, Hs.
    apply (cons_supply st C _ _ Hp).
Qed.

Lemma consistent_same_projects st st' :
  consistent st -> projects st' = projects st ->
  holdings st' = holdings st -> offers st' = offers st -> consistent st'.
Proof.
  intros C Hp Hh Ho. apply (consistent_frame st st' C); try assumption.
  - rewrite Hp. intros id p' H. exists p'. auto.
  - rewrite Hp. auto.
Qed.

Lemma p_fields_drawn_down p amount :
  p_id (drawn_down p amount) = p_id p /\
  p_founderId (drawn_down p amount) = p_founderId p /\
  p_supply (drawn_down p amount) = p_supply p /\
  p_reserve (drawn_down p amount) = Qmax 0 (p_reserve p - amount) /\
  p_fundingGoal (drawn_down p amount) = p_fundingGoal p.
Proof.
  unfold drawn_down. cbv zeta. destruct (Qle_bool FUNDING_CAP _);
    repeat split; reflexivity.
Qed.

Lemma consistent_serve c st :
  consistent st -> fresh_call c st -> consistent (fst (serve c st)).
Proof.
  intros C Hfresh. rewrite serve_run.
  destruct c as [op | u id ti de a mid now | u id mid a pid now | id pid ap | u id pid].
  - now apply consistent_exec.
  - rewrite post_milestones_run.
    destruct (projects st !! id); [| exact C].
    destruct (negb _); [exact C |]. destruct (_ || _); [exact C |].
    now apply (consistent_same_projects st).
  - rewrite post_proposals_run.
    destruct (projects st !! id); [| exact C].
    destruct (negb _); [exact C |].
    destruct (milestones st !! mid); [| exact C].
    destruct (negb _); [exact C |]. destruct (_ || _); [exact C |].
    now apply (consistent_same_projects st).
  - rewrite post_vote_run.
    destruct (projects st !! id); [| exact C].
    destruct (proposals st !! pid); [| exact C].
    destruct (negb _); [exact C |].
    now apply (consistent_same_projects st).
  - rewrite post_release_run.
    destruct (projects st !! id) as [p |] eqn:Hp; [| exact C].
    destruct (negb _); [exact C |].
    destruct (proposals st !! pid) as [pr |]; [| exact C].
    destruct (negb _); [exact C |].
    destruct (milestones st !! _) as [m |]; [| exact C].
    destruct (pr_released pr); [exact C |].
    destruct (_ || _); [exact C |]. cbv zeta. cbn [fst].
    apply (consistent_frame st); try (exact C || reflexivity); cbn [projects].
    + intros id' p'. destruct (decide (id = id')) as [<- | Hne].
      * rewrite lookup_insert_eq. intros Heq. injection Heq as <-.
        exists p. destruct (p_fields_drawn_down p (Qmin (pr_amount pr) (p_reserve p)))
          as (H1 & _ & H3 & _). auto.
      * rewrite lookup_insert_ne by exact Hne. intros H. exists p'. auto.
    + intros id'. apply is_Some_insert.
Qed.

Lemma FUNDING_CAP_pos : (0 < FUNDING_CAP)%Q.
Proof. reflexivity. Qed.

Lemma solvent_insert st id p' (ps' := <[id := p']> (projects st)) :
  solvent st ->
  (0 <= p_reserve p')%Q ->
  ((FUNDING_CAP <= p_reserve p')%Q -> p_capReached p' = true) ->
  forall id' q, ps' !! id' = Some q ->
    (0 <= p_reserve q)%Q /\ ((FUNDING_CAP <= p_reserve q)%Q -> p_capReached q = true).
Proof.
  intros S H0 Hcap id' q. subst ps'.
  destruct (decide (id = id')) as [<- | Hne].
  - rewrite lookup_insert_eq. intros Heq. injection Heq as <-. auto.
  - rewrite lookup_insert_ne by exact Hne. apply S.
Qed.

Lemma solvent_exec op st : solvent st -> solvent (fst (exec op st)).
Proof.
  intros S. rewrite exec_run. pose proof FUNDING_CAP_pos as Hcap.
  destruct op as [u body id now | u id a | u id n | u id pr a oid now | b id oid a].
  - rewrite post_projects_run. destruct (_ || _); [exact S |].
    cbn [fst]. unfold solvent. cbn [projects].
    apply solvent_insert; [exact S | cbn; lra |].
    cbn [created p_reserve]. intros H. lra.
  - rewrite post_buy_run.
    destruct (projects st !! id) as [p |] eqn:Hp; [| exact S].
    destruct (p_capReached p); [exact S |].
    destruct (Qle_bool a 0) eqn:Ea; [exact S |].
    destruct (_ <=? 0); [exact S |].
    cbn [fst]. unfold solvent. cbn [projects].
    apply Qle_bool_false in Ea. destruct (S _ _ Hp) as [Hr _].
    apply solvent_insert; [exact S | | apply p_capReached_bought].
    assert (Hres : p_reserve (bought p a) = (p_reserve p + a)%Q).
    { unfold bought. cbv zeta. destruct (Qle_bool FUNDING_CAP _); reflexivity. }
    rewrite Hres. lra.
  - rewrite post_sell_run.
    destruct (projects st !! id) as [p |] eqn:Hp; [| exact S].
    destruct (n <=? 0); [exact S |].
    destruct (holdings st !! _); [| exact S].
    destruct (_ <? _); [exact S |].
    cbn [fst]. unfold solvent. cbn [projects].
    destruct (S _ _ Hp) as [Hr Hflag].
    pose proof (sellTokensQuote_nonneg (p_supply p) n) as Hq.
    cbn [sold p_reserve p_capReached set_reserve set_supply].
    apply solvent_insert; [exact S | |];
      cbn [p_reserve p_capReached set_reserve set_supply].
    + apply Q.le_max_l.
    + intros H. apply Hflag.
      destruct (Q.max_spec 0 (p_reserve p - sellTokensQuote (p_supply p) n))
        as [[_ Heq] | [_ Heq]]; rewrite Heq in H; lra.
  - rewrite post_offers_run.
    destruct (projects st !! id); [| exact S].
    destruct (_ || _); [exact S |].
    destruct (holdings st !! _); [| exact S].
    destruct (_ <? _); exact S.
  - rewrite post_fill_run.
    destruct (projects st !! id); [| exact S].
    destruct (offers st !! oid); [| exact S].
    destruct (negb _); [exact S |].
    destruct (_ || _); [exact S |].
    destruct (_ <=? 0); exact S.
Qed.

Lemma solvent_serve c st :
  solvent st -> well_governed st -> solvent (fst (serve c st)).
Proof.
  intros S [_ G]. rewrite serve_run.
  destruct c as [op | u id ti de a mid now | u id mid a pid now | id pid ap | u id pid].
  - now apply solvent_exec.
  - rewrite post_milestones_run.
    destruct (projects st !! id); [| exact S].
    destruct (negb _); [exact S |]. destruct (_ || _); exact S.
  - rewrite post_proposals_run.
    destruct (projects st !! id); [| exact S].
    destruct (negb _); [exact S |].
    destruct (milestones st !! mid); [| exact S].
    destruct (negb _); [exact S |]. destruct (_ || _); exact S.
  - rewrite post_vote_run.
    destruct (projects st !! id); [| exact S].
    destruct (proposals st !! pid); [| exact S].
    destruct (negb _); exact S.
  - rewrite post_release_run.
    destruct (projects st !! id) as [p |] eqn:Hp; [| exact S].
    destruct (negb _); [exact S |].
    destruct (proposals st !! pid) as [pr |] eqn:Hpr; [| exact S].
    destruct (negb _); [exact S |].
    destruct (milestones st !! _) as [m |]; [| exact S].
    destruct (pr_released pr); [exact S |].
    destruct (_ || _); [exact S |]. cbv zeta. cbn [fst].
    unfold solvent. cbn [projects].
    destruct (S _ _ Hp) as [Hr Hflag].
    destruct (G _ _ Hpr) as (_ & _ & _ & m0 & _ & _ & Hpos & _).
    set (amount := Qmin (pr_amount pr) (p_reserve p)).
    assert (Ham : (0 <= amount)%Q).
    { subst amount. destruct (Q.min_spec (pr_amount pr) (p_reserve p))
        as [[_ Heq] | [_ Heq]]; rewrite Heq; lra. }
    assert (Hres : (p_reserve (drawn_down p amount) <= Qmax 0 (p_reserve p))%Q
                   /\ (0 <= p_reserve (drawn_down p amount))%Q).
    { destruct (p_fields_drawn_down p amount) as (_ & _ & _ & -> & _).
      split; [| apply Q.le_max_l].
      apply Q.max_le_compat_l. lra. }
    destruct Hres as [Hle Hnn].
    apply solvent_insert; [exact S | exact Hnn |].
    intros Hc.
    assert (Hrc : (FUNDING_CAP <= p_reserve p)%Q).
    { rewrite (Q.max_r 0 (p_reserve p) Hr) in Hle. lra. }
    unfold drawn_down in *. cbv zeta in *.
    destruct (Qle_bool FUNDING_CAP _) eqn:E.
    + cbn [p_capReached set_reserve]. apply Hflag, Hrc.
    + cbn [p_reserve set_capReached set_reserve] in Hc.
      cbn [p_reserve set_reserve] in E.
      apply Qle_bool_iff in Hc. congruence.
Qed.

(** The five market operations leave the milestones and the proposals
    alone. *)
Lemma exec_governance_frame op st :
  milestones (fst (exec op st)) = milestones st /\
  proposals (fst (exec op st)) = proposals st.
Proof.
  rewrite exec_run.
  destruct op as [u body id now | u id a | u id n | u id pr a oid now | b id oid a].
  - rewrite post_projects_run. destruct (_ || _); split; reflexivity.
  - rewrite post_buy_run.
    destruct (projects st !! id) as [p |]; [| split; reflexivity].
    destruct (p_capReached p); [split; reflexivity |].
    destruct (Qle_bool a 0); [split; reflexivity |].
    destruct (_ <=? 0); split; reflexivity.
  - rewrite post_sell_run.
    destruct (projects st !! id) as [p |]; [| split; reflexivity].
    destruct (n <=? 0); [split; reflexivity |].
    destruct (holdings st !! _); [| split; reflexivity].
    destruct (_ <? _); split; reflexivity.
  - rewrite post_offers_run.
    destruct (projects st !! id) as [p |]; [| split; reflexivity].
    destruct (_ || _); [split; reflexivity |].
    destruct (holdings st !! _); [| split; reflexivity].
    destruct (_ <? _); split; reflexivity.
  - rewrite post_fill_run.
    destruct (projects st !! id) as [p |]; [| split; reflexivity].
    destruct (offers st !! oid); [| split; reflexivity].
    destruct (negb _); [split; reflexivity |].
    destruct (_ || _); [split; reflexivity |].
    destruct (_ <=? 0); split; reflexivity.
Qed.

Lemma is_empty_string_false s : is_empty_string s = false -> s <> "".
Proof. destruct s; [discriminate | discriminate]. Qed.

Lemma voted_fields pr approve :
  pr_id (voted pr approve) = pr_id pr /\
  pr_projectId (voted pr approve) = pr_projectId pr /\
  pr_milestoneId (voted pr approve) = pr_milestoneId pr /\
  pr_amount (voted pr approve) = pr_amount pr /\
  pr_released (voted pr approve) = pr_released pr /\
  pr_approvals (voted pr approve)
    = pr_approvals pr + (if approve then 1 else 0) /\
  pr_rejections (voted pr approve)
    = pr_rejections pr + (if approve then 0 else 1).
Proof.
  unfold voted. destruct approve; cbn; repeat split; lia.
Qed.

Lemma governed_serve c st :
  well_governed st -> fresh_call c st -> well_governed (fst (serve c st)).
Proof.
  intros G Hfresh. pose proof G as [GM GP]. rewrite serve_run.
  destruct c as [op | u id ti de a mid now | u id mid a pid now | id pid ap | u id pid].
  - destruct (exec_governance_frame op st) as [Hm Hp].
    unfold well_governed. rewrite Hm, Hp. exact G.
  - destruct Hfresh as [_ Hnew]. rewrite post_milestones_run.
    destruct (projects st !! id) as [p |]; [| exact G].
    destruct (negb _); [exact G |].
    destruct (is_empty_string ti || Qle_bool a 0) eqn:E; [exact G |].
    apply orb_false_iff in E. destruct E as [Et Ea].
    apply Qle_bool_false in Ea. apply is_empty_string_false in Et.
    cbv zeta. cbn [fst]. split; cbn [milestones proposals].
    + intros k m. destruct (decide (mid = k)) as [<- | Hne].
      * rewrite lookup_insert_eq. intros Heq. injection Heq as <-. cbn. auto.
      * rewrite lookup_insert_ne by exact Hne. apply GM.
    + intros k pr Hk.
      destruct (GP k pr Hk) as (H1 & H2 & H3 & m & Hm & H4).
      split; [exact H1 |]. split; [exact H2 |]. split; [exact H3 |].
      exists m. split; [| exact H4].
      rewrite lookup_insert_ne; [exact Hm | congruence].
  - destruct Hfresh as [_ Hnew]. rewrite post_proposals_run.
    destruct (projects st !! id) as [p |]; [| exact G].
    destruct (negb _); [exact G |].
    destruct (milestones st !! mid) as [m |] eqn:Hm; [| exact G].
    destruct (negb (bool_decide (m_projectId m = p_id p))) eqn:Ep; [exact G |].
    destruct (Qle_bool a 0 || negb (Qle_bool a (m_amount m))) eqn:E; [exact G |].
    apply negb_false_iff, bool_decide_eq_true in Ep.
    apply orb_false_iff in E. destruct E as [Ea Eb].
    apply Qle_bool_false in Ea. apply negb_false_iff, Qle_bool_iff in Eb.
    cbv zeta. cbn [fst]. split; cbn [milestones proposals]; [exact GM |].
    intros k pr. destruct (decide (pid = k)) as [<- | Hne].
    + rewrite lookup_insert_eq. intros Heq. injection Heq as <-.
      cbn [pr_id pr_approvals pr_rejections pr_milestoneId pr_projectId
           pr_amount pr_released].
      split; [reflexivity |]. split; [lia |]. split; [lia |].
      exists m. split; [exact Hm |]. split; [exact Ep |].
      split; [exact Ea |]. split; [exact Eb | discriminate].
    + rewrite lookup_insert_ne by exact Hne. apply GP.
  - rewrite post_vote_run.
    destruct (projects st !! id) as [p |]; [| exact G].
    destruct (proposals st !! pid) as [pr |] eqn:Hpr; [| exact G].
    destruct (negb _); [exact G |].
    cbv zeta. cbn [fst].
    destruct (GP pid pr Hpr) as (H1 & H2 & H3 & m & Hm & H4 & H5 & H6 & H7).
    rewrite H1, insert_insert_eq.
    destruct (voted_fields pr ap) as (V1 & V2 & V3 & V4 & V5 & V6 & V7).
    split; cbn [milestones proposals]; [exact GM |].
    intros k pr'. destruct (decide (pid = k)) as [<- | Hne].
    + rewrite lookup_insert_eq. intros Heq. injection Heq as <-.
      rewrite V1, V2, V3, V4, V5, V6, V7.
      split; [exact H1 |].
      split; [destruct ap; lia |]. split; [destruct ap; lia |].
      exists m. auto.
    + rewrite lookup_insert_ne by exact Hne. apply GP.
  - rewrite post_release_run.
    destruct (projects st !! id) as [p |]; [| exact G].
    destruct (negb _); [exact G |].
    destruct (proposals st !! pid) as [pr |] eqn:Hpr; [| exact G].
    destruct (negb _); [exact G |].
    destruct (milestones st !! pr_milestoneId pr) as [m |] eqn:Hm; [| exact G].
    destruct (pr_released pr); [exact G |].
    destruct (_ || _); [exact G |]. cbv zeta. cbn [fst].
    destruct (GP pid pr Hpr) as (H1 & H2 & H3 & m0 & Hm0 & H4 & H5 & H6 & _).
    assert (m0 = m) by congruence. subst m0.
    destruct (GM _ _ Hm) as (M1 & M2 & M3).
    rewrite H1, M1, !insert_insert_eq.
    split; cbn [milestones proposals].
    + intros k m1. destruct (decide (pr_milestoneId pr = k)) as [<- | Hne].
      * rewrite lookup_insert_eq. intros Heq. injection Heq as <-. cbn. auto.
      * rewrite lookup_insert_ne by exact Hne. apply GM.
    + intros k pr1. destruct (decide (pid = k)) as [<- | Hne].
      * rewrite lookup_insert_eq. intros Heq. injection Heq as <-.
        cbn [pr_id pr_approvals pr_rejections pr_milestoneId pr_projectId
             pr_amount pr_released set_released].
        split; [exact H1 |]. split; [exact H2 |]. split; [exact H3 |].
        exists (set_m_status m MilestoneReleased).
        rewrite lookup_insert_eq. cbn. auto.
      * rewrite lookup_insert_ne by exact Hne. intros Hk.
        destruct (GP k pr1 Hk) as (P1 & P2 & P3 & m1 & Hm1 & P4 & P5 & P6 & P7).
        split; [exact P1 |]. split; [exact P2 |]. split; [exact P3 |].
        destruct (decide (pr_milestoneId pr = pr_milestoneId pr1)) as [Heq | Hne'].
        -- exists (set_m_status m MilestoneReleased).
           rewrite <- Heq, lookup_insert_eq.
           assert (m1 = m) by congruence. subst m1. cbn. auto.
        -- exists m1. rewrite lookup_insert_ne by exact Hne'. auto.
Qed.

Lemma sound_empty : sound empty_store.
Proof.
  constructor; [apply consistent_empty | |].
  - intros id p. cbn [empty_store projects]. rewrite lookup_empty. discriminate.
  - split; intros k x; cbn [empty_store milestones proposals];
      rewrite lookup_empty; discriminate.
Qed.

Lemma sound_serve c st : sound st -> fresh_call c st -> sound (fst (serve c st)).
Proof.
  intros [C S G] Hfresh. constructor.
  - now apply consistent_serve.
  - now apply solvent_serve.
  - now apply governed_serve.
Qed.

Lemma served_sound st : served st -> sound st.
Proof.
  induction 1 as [| st c _ IH Hfresh].
  - apply sound_empty.
  - now apply sound_serve.
Qed.

Lemma served_serve_all cs : forall st,
  served st -> fresh_calls cs st -> served (serve_all cs st).
Proof.
  induction cs as [| c cs IH]; intros st Hs Hf; cbn [serve_all].
  - exact Hs.
  - destruct Hf as [Hc Hrest]. apply IH; [| exact Hrest].
    now apply served_step.
Qed.

Lemma example_state_served : served example_state.
Proof.
  apply served_serve_all; [apply served_init |].
  vm_compute. repeat split.
Qed.

Lemma example_released_state_served : served example_released_state.
Proof. apply served_step; [apply example_state_served | exact I]. Qed.


Lemma is_empty_string_nonempty s : s <> "" -> is_empty_string s = false.
Proof. destruct s; [congruence | reflexivity]. Qed.

Lemma h_balance_credited st u id n :
  h_balance (credited st u id n) = balance_of u id st + n.
Proof.
  unfold credited, balance_of.
  destruct (holdings st !! holdingKey u id); reflexivity.
Qed.

(** An offer that is not open stays as it is under every call. *)
Lemma closed_offer_serve c st k o :
  consistent st -> fresh_call c st ->
  offers st !! k = Some o -> o_status o <> OfferOpen ->
  offers (fst (serve c st)) !! k = Some o.
Proof.
  intros C Hfresh Ho Hclosed. rewrite serve_run.
  destruct c as [op | u id ti de a mid now | u id mid a pid now | id pid ap | u id pid].
  - rewrite exec_run.
    destruct op as [u body id now | u id a | u id n | u id pr a oid now | b id oid a].
    + rewrite post_projects_run. destruct (_ || _); exact Ho.
    + rewrite post_buy_run.
      destruct (projects st !! id) as [p |]; [| exact Ho].
      destruct (p_capReached p); [exact Ho |].
      destruct (Qle_bool a 0); [exact Ho |].
      destruct (_ <=? 0); exact Ho.
    + rewrite post_sell_run.
      destruct (projects st !! id) as [p |]; [| exact Ho].
      destruct (n <=? 0); [exact Ho |].
      destruct (holdings st !! _); [| exact Ho].
      destruct (_ <? _); exact Ho.
    + destruct Hfresh as [_ Hnew]. rewrite post_offers_run.
      destruct (projects st !! id) as [p |]; [| exact Ho].
      destruct (_ || _); [exact Ho |].
      destruct (holdings st !! _); [| exact Ho].
      destruct (_ <? _); [exact Ho |]. cbv zeta. cbn [fst offers].
      rewrite lookup_insert_ne; [exact Ho | congruence].
    + rewrite post_fill_run.
      destruct (projects st !! id) as [p |]; [| exact Ho].
      destruct (offers st !! oid) as [o2 |] eqn:Ho2; [| exact Ho].
      destruct (negb (bool_decide (o_projectId o2 = p_id p))); [exact Ho |].
      destruct (negb (bool_decide (o_status o2 = OfferOpen)) || (o_amount o2 <=? 0))
        eqn:E2; [exact Ho |].
      destruct (fill_take o2 a <=? 0); [exact Ho |]. cbv zeta. cbn [fst offers].
      apply orb_false_iff in E2. destruct E2 as [E2 _].
      apply negb_false_iff, bool_decide_eq_true in E2.
      destruct (cons_offer st C _ _ Ho2) as (Hoid & _).
      rewrite Hoid, insert_insert_eq.
      rewrite lookup_insert_ne; [exact Ho | congruence].
  - rewrite post_milestones_run.
    destruct (projects st !! id); [| exact Ho].
    destruct (negb _); [exact Ho |]. destruct (_ || _); exact Ho.
  - rewrite post_proposals_run.
    destruct (projects st !! id); [| exact Ho].
    destruct (negb _); [exact Ho |].
    destruct (milestones st !! mid); [| exact Ho].
    destruct (negb _); [exact Ho |]. destruct (_ || _); exact Ho.
  - rewrite post_vote_run.
    destruct (projects st !! id); [| exact Ho].
    destruct (proposals st !! pid); [| exact Ho].
    destruct (negb _); exact Ho.
  - rewrite post_release_run.
    destruct (projects st !! id) as [p |]; [| exact Ho].
    destruct (negb _); [exact Ho |].
    destruct (proposals st !! pid) as [pr |]; [| exact Ho].
    destruct (negb _); [exact Ho |].
    destruct (milestones st !! _); [| exact Ho].
    destruct (pr_released pr); [exact Ho |].
    destruct (_ || _); exact Ho.
Qed.

Lemma closed_offer_serve_all cs : forall st k o,
  served st -> fresh_calls cs st ->
  offers st !! k = Some o -> o_status o <> OfferOpen ->
  offers (serve_all cs st) !! k = Some o.
Proof.
  induction cs as [| c cs IH]; intros st k o Hs Hf Ho Hc; cbn [serve_all].
  - exact Ho.
  - destruct Hf as [Hfc Hrest].
    apply IH; [now apply served_step | exact Hrest | | exact Hc].
    apply closed_offer_serve; try assumption.
    apply (sound_consistent st (served_sound st Hs)).
Qed.

(** A released proposal stays released, with its amount, under every call. *)
Lemma released_serve c st pid pr :
  well_governed st -> fresh_call c st ->
  proposals st !! pid = Some pr -> pr_released pr = true ->
  exists pr',
    proposals (fst (serve c st)) !! pid = Some pr' /\
    pr_released pr' = true /\ pr_amount pr' = pr_amount pr.
Proof.
  intros [_ GP] Hfresh Hpr Hrel. rewrite serve_run.
  assert (Hsame : exists pr', proposals st !! pid = Some pr' /\
                     pr_released pr' = true /\ pr_amount pr' = pr_amount pr)
    by (exists pr; auto).
  destruct c as [op | u id ti de a mid now | u id mid a pid2 now | id pid2 ap | u id pid2].
  - destruct (exec_governance_frame op st) as [_ ->]. exact Hsame.
  - rewrite post_milestones_run.
    destruct (projects st !! id); [| exact Hsame].
    destruct (negb _); [exact Hsame |]. destruct (_ || _); exact Hsame.
  - destruct Hfresh as [_ Hnew]. rewrite post_proposals_run.
    destruct (projects st !! id); [| exact Hsame].
    destruct (negb _); [exact Hsame |].
    destruct (milestones st !! mid); [| exact Hsame].
    destruct (negb _); [exact Hsame |]. destruct (_ || _); [exact Hsame |].
    cbv zeta. cbn [fst proposals]. exists pr.
    rewrite lookup_insert_ne; [auto | congruence].
  - rewrite post_vote_run.
    destruct (projects st !! id); [| exact Hsame].
    destruct (proposals st !! pid2) as [pr2 |] eqn:Hpr2; [| exact Hsame].
    destruct (negb _); [exact Hsame |]. cbv zeta. cbn [fst proposals].
    destruct (GP _ _ Hpr2) as (Hid2 & _). rewrite Hid2, insert_insert_eq.
    destruct (decide (pid2 = pid)) as [-> | Hne].
    + assert (pr2 = pr) by congruence. subst pr2.
      exists (voted pr ap). rewrite lookup_insert_eq.
      destruct (voted_fields pr ap) as (_ & _ & _ & V4 & V5 & _).
      rewrite V4, V5. auto.
    + exists pr. rewrite lookup_insert_ne by exact Hne. auto.
  - rewrite post_release_run.
    destruct (projects st !! id); [| exact Hsame].
    destruct (negb _); [exact Hsame |].
    destruct (proposals st !! pid2) as [pr2 |] eqn:Hpr2; [| exact Hsame].
    destruct (negb _); [exact Hsame |].
    destruct (milestones st !! _); [| exact Hsame].
    destruct (pr_released pr2) eqn:Hrel2; [exact Hsame |].
    destruct (_ || _); [exact Hsame |]. cbv zeta. cbn [fst proposals].
    destruct (GP _ _ Hpr2) as (Hid2 & _). rewrite Hid2, insert_insert_eq.
    destruct (decide (pid2 = pid)) as [-> | Hne]; [congruence |].
    exists pr. rewrite lookup_insert_ne by exact Hne. auto.
Qed.

Lemma released_serve_all cs : forall st pid pr,
  served st -> fresh_calls cs st ->
  proposals st !! pid = Some pr -> pr_released pr = true ->
  exists pr',
    proposals (serve_all cs st) !! pid = Some pr' /\
    pr_released pr' = true /\ pr_amount pr' = pr_amount pr.
Proof.
  induction cs as [| c cs IH]; intros st pid pr Hs Hf Hpr Hrel; cbn [serve_all].
  - exists pr. auto.
  - destruct Hf as [Hfc Hrest].
    destruct (released_serve c st pid pr
                (sound_governed st (served_sound st Hs)) Hfc Hpr Hrel)
      as (pr1 & Hpr1 & Hrel1 & Ham1).
    destruct (IH (fst (serve c st)) pid pr1
                (served_step st c Hs Hfc) Hrest Hpr1 Hrel1)
      as (pr' & Hpr' & Hrel' & Ham').
    exists pr'. split; [exact Hpr' |]. split; [exact Hrel' | congruence].
Qed.

Lemma example_two_proposals_state_served : served example_two_proposals_state.
Proof.
  apply served_serve_all; [apply example_state_served |].
  vm_compute. repeat split.
Qed.

(** * The quotes in binary64 *)

Section Binary64Lemmas.

Local Open Scope float_scope.
#[local] Set Warnings "-inexact-float".

(** ** The buy loop *)

(** The loop counts [k] tokens, each covered by the running budget at its
    turn, and stops at the first level that is not covered or when the fuel
    is used up. *)
Lemma buy_loop64_walk fuel : forall tokens budget s,
  exists k : nat,
    (k <= fuel)%nat /\
    buy_loop64 fuel tokens budget s = count64 tokens k /\
    (forall i, (i < k)%nat -> covered64 s budget i = true) /\
    ((k < fuel)%nat -> covered64 s budget k = false).
Proof.
  induction fuel as [| fuel IH]; intros tokens budget s.
  - exists 0%nat. split; [lia |]. split; [reflexivity |].
    split; intros; lia.
  - cbn [buy_loop64].
    destruct (0 <? budget) eqn:Hb.
    + cbv zeta. destruct (priceAtSupply64 s <=? budget) eqn:Hp.
      * destruct (IH (tokens + 1) (budget - priceAtSupply64 s) (s + 1))
          as (k & Hk & Heq & Hc & Hn).
        exists (S k). split; [lia |]. split; [exact Heq |]. split.
        -- intros [| i] Hi.
           ++ unfold covered64. cbn [budget64 level64]. now rewrite Hb, Hp.
           ++ apply (Hc i). lia.
        -- intros Hlt. apply Hn. lia.
      * exists 0%nat. split; [lia |]. split; [reflexivity |]. split.
        -- intros i Hi. lia.
        -- intros _. unfold covered64. cbn [budget64 level64].
           now rewrite Hb, Hp.
    + exists 0%nat. split; [lia |]. split; [reflexivity |]. split.
      * intros i Hi. lia.
      * intros _. unfold covered64. cbn [budget64 level64]. now rewrite Hb.
Qed.

(** The token counter after [k <= 5000] increments is the double of the
    whole number [k]; it is positive from the first increment on, and one
    decrement takes it back. *)
Lemma count64_table :
  forallb (fun k => Leibniz.eqb (count64 0 k) (float_of_nat k) &&
                    Qeq_bool (exact (float_of_nat k)) (inject_Z (Z.of_nat k)))
    (seq 0 (S MAX_STEPS)) = true /\
  forallb (fun k => (0 <? count64 0 (S k)) &&
                    Leibniz.eqb (count64 0 (S k) - 1) (count64 0 k))
    (seq 0 MAX_STEPS) = true.
Proof. split; vm_compute; reflexivity. Qed.

Lemma count64_whole k :
  (k <= MAX_STEPS)%nat -> count64 0 k = float_of_nat k.
Proof.
  intros Hk. destruct count64_table as [H _].
  rewrite forallb_forall in H. specialize (H k).
  rewrite andb_true_iff in H. destruct H as [H _]; [apply in_seq; lia |].
  now apply Leibniz.eqb_spec.
Qed.





(** ** The sell loop *)

Lemma sell_loop64_walk fuel : forall s t out,
  exists n : nat,
    (n <= fuel)%nat /\
    sell_loop64 fuel s t out = fold_left PrimFloat.add (descending64 s n) out /\
    (forall j, (j < n)%nat -> selling64 s t j = true) /\
    ((n < fuel)%nat -> selling64 s t n = false).
Proof.
  induction fuel as [| fuel IH]; intros s t out.
  - exists 0%nat. split; [lia |]. split; [reflexivity |].
    split; intros; lia.
  - cbn [sell_loop64].
    destruct ((0 <? t) && (0 <=? s)) eqn:Hg.
    + destruct (IH (s - 1) (t - 1) (out + priceAtSupply64 s))
        as (n & Hn & Heq & Hc & Hs).
      exists (S n). split; [lia |]. split; [exact Heq |]. split.
      * intros [| j] Hj.
        -- exact Hg.
        -- apply (Hc j). lia.
      * intros Hlt. apply Hs. lia.
    + exists 0%nat. split; [lia |]. split; [reflexivity |]. split.
      * intros j Hj. lia.
      * intros _. exact Hg.
Qed.


(** At a supply of [0] the start level is [0]: one price is summed when a
    token is asked for, none otherwise. *)
Lemma sell_loop64_zero_supply fuel t :
  sell_loop64 (S (S fuel)) (Math_max 0 (0 - 1)) t 0 =
  if 0 <? t then 0.01 else 0.
Proof.
  replace (Math_max 0 (0 - 1)) with 0 by (vm_compute; reflexivity).
  cbn [sell_loop64].
  replace (0 <=? 0) with true by reflexivity.
  rewrite andb_true_r. destruct (0 <? t); [| reflexivity].
  replace (0 <=? 0 - 1) with false by reflexivity.
  rewrite andb_false_r. vm_compute. reflexivity.
Qed.



(** The exact sum in lowest terms is the exact sum. *)
Lemma exact_sum_total l : (exact_sum l == exact_total l)%Q.
Proof.
  induction l as [| x l IH]; [reflexivity |].
  cbn [exact_sum exact_total]. rewrite Qred_correct, IH. reflexivity.
Qed.

End Binary64Lemmas.
(** * The quotes in exact arithmetic *)

(** What the two loops compute when no sum is rounded.  The server rounds
    every sum to a double, and the claims on the quotes are settled on the
    doubles, in the part on binary64; the statements here are the
    arithmetic the loops approximate. *)

(** In exact arithmetic too the quote stops at the iteration ceiling: with
    a supply of [0] and funds of [1000000] it is [5000] tokens, and the
    next token, at price [0.51], is still affordable. *)
Lemma buyTokensQuote_ceiling_counterexample :
  let s := 0 in
  let f := (1000000 # 1)%Q in
  let t := buyTokensQuote s f in
  t = 5000 /\
  ~ ((walked_cost s (Z.to_nat t) <= f)%Q /\
     (f < walked_cost s (Z.to_nat (t + 1)))%Q).
Proof.
  cbv zeta.
  assert (Ht : buyTokensQuote 0 (1000000 # 1) = 5000).
  { apply buyTokensQuote_ceiling; [lia |].
    pose proof (walked_cost_upper 0 MAX_STEPS ltac:(lia)) as Hu.
    rewrite MAX_STEPS_Z in Hu.
    assert (Hb : (inject_Z 5000 * priceAtSupply (0 + 5000) <= 1000000 # 1)%Q)
      by (vm_compute; discriminate).
    lra. }
  rewrite Ht. split; [reflexivity |]. intros [_ Hlt].
  pose proof (walked_cost_upper 0 (Z.to_nat (5000 + 1)) ltac:(lia)) as Hu.
  rewrite Z2Nat.id in Hu by lia.
  assert (Hb : (inject_Z (5000 + 1) * priceAtSupply (0 + (5000 + 1)) <= 1000000 # 1)%Q)
    by (vm_compute; discriminate).
  lra.
Qed.

(** In exact arithmetic, for every supply [s >= 0] and funds [f > 0] the
    quote [t = buyTokensQuote s f] lies between [0] and [5000], the walked
    prices [price(s) + ... + price(s + t - 1)] sum to at most [f], and,
    unless the quote stopped at the ceiling of [5000], one more token at
    [price(s + t)] would exceed [f]. *)
Lemma buyTokensQuote_affordable_below_ceiling s f :
  0 <= s -> (0 < f)%Q ->
  let t := buyTokensQuote s f in
  0 <= t <= 5000 /\
  (walked_cost s (Z.to_nat t) <= f)%Q /\
  (t < 5000 -> (f < walked_cost s (Z.to_nat (t + 1)))%Q).
Proof.
  intros Hs Hf t. subst t.
  destruct (buyTokensQuote_spec s f Hs ltac:(lra)) as (k & Heq & Hk & Hc & Hn).
  rewrite Heq. pose proof MAX_STEPS_Z as HM.
  split; [lia |]. split.
  - now rewrite Nat2Z.id.
  - intros Hlt. replace (Z.to_nat (Z.of_nat k + 1)) with (S k) by lia.
    apply Hn. lia.
Qed.

(** At a supply of [100] funds of [0.05] pay for two tokens. *)
Lemma buyTokensQuote_affordable_witness :
  let t := buyTokensQuote 100 (1 # 20) in
  0 <= t <= 5000 /\
  (walked_cost 100 (Z.to_nat t) <= 1 # 20)%Q /\
  (t < 5000 -> (1 # 20 < walked_cost 100 (Z.to_nat (t + 1)))%Q).
Proof.
  apply (buyTokensQuote_affordable_below_ceiling 100 (1 # 20)).
  - lia.
  - reflexivity.
Defined.

(** In exact arithmetic, for every supply [s >= 0] and funds [f > 0],
    selling the [t = buyTokensQuote s f] tokens back at supply [s + t]
    returns exactly the prices the buy walked, which is at most [f]; it
    equals [f] only when [f] is exactly that sum of whole-token prices. *)
Lemma buy_then_sell_round_trip s f :
  0 <= s -> (0 < f)%Q ->
  let t := buyTokensQuote s f in
  (sellTokensQuote (s + t) t == walked_cost s (Z.to_nat t))%Q /\
  (sellTokensQuote (s + t) t <= f)%Q /\
  ((sellTokensQuote (s + t) t == f)%Q -> (f == walked_cost s (Z.to_nat t))%Q).
Proof.
  intros Hs Hf t. subst t.
  destruct (buyTokensQuote_spec s f Hs ltac:(lra)) as (k & Heq & Hk & Hc & _).
  rewrite Heq, Nat2Z.id.
  pose proof (sell_after_buy s k Hs Hk) as Hsell.
  split; [exact Hsell |]. split.
  - rewrite Hsell. exact Hc.
  - intros Heq'. rewrite <- Hsell. symmetry. exact Heq'.
Qed.

(** The same buy, sold back. *)
Lemma buy_then_sell_round_trip_witness :
  let t := buyTokensQuote 100 (1 # 20) in
  (sellTokensQuote (100 + t) t == walked_cost 100 (Z.to_nat t))%Q /\
  (sellTokensQuote (100 + t) t <= 1 # 20)%Q /\
  ((sellTokensQuote (100 + t) t == 1 # 20)%Q ->
   (1 # 20 == walked_cost 100 (Z.to_nat t))%Q).
Proof.
  apply (buy_then_sell_round_trip 100 (1 # 20)).
  - lia.
  - reflexivity.
Defined.

(** In exact arithmetic as on the doubles, at a supply of [0] the quote is
    not [0]: the start level is clamped to [0], the loop runs once, and
    every [tokensIn >= 1] is quoted [price(0) = 0.01]. *)
Lemma sellTokensQuote_zero_supply tokensIn :
  1 <= tokensIn ->
  (sellTokensQuote 0 tokensIn == 1 # 100)%Q /\
  ~ (sellTokensQuote 0 tokensIn == 0)%Q.
Proof.
  intros Ht.
  assert (H : (sellTokensQuote 0 tokensIn == 1 # 100)%Q).
  { rewrite sellTokensQuote_spec by lia.
    replace (Nat.min MAX_STEPS
               (Nat.min (Z.to_nat tokensIn) (Z.to_nat (Z.max 0 (0 - 1) + 1))))
      with 1%nat by (pose proof MAX_STEPS_Z; lia).
    reflexivity. }
  split; [exact H |]. rewrite H. discriminate.
Qed.

(** Three tokens quoted at an empty supply. *)
Lemma sellTokensQuote_zero_supply_witness :
  (sellTokensQuote 0 3 == 1 # 100)%Q /\ ~ (sellTokensQuote 0 3 == 0)%Q.
Proof.
  apply (sellTokensQuote_zero_supply 3). lia.
Defined.

(** * The claims *)

(** ** The quotes as the server computes them *)

Section Binary64Claims.

Local Open Scope float_scope.
#[local] Set Warnings "-inexact-float".

(** C3, as stated, fails on the server in two ways.  Rounding: at a supply
    of [100], funds of [0.0603] buy three tokens, whose prices
    [0.02 + 0.0201 + 0.0202], each the double the curve yields, sum to more
    than the funds.  Ceiling: at a supply of [0], funds of [1000000] buy
    [5000] tokens, and the first [5001] prices together are still within the
    funds. *)
Lemma buyTokensQuote64_counterexample :
  (buyTokensQuote64 100 0.0603 = 3 /\
   (exact 0.0603 < exact_total (walked64 100 3))%Q) /\
  (buyTokensQuote64 0 1000000 = 5000 /\
   (exact_total (walked64 0 (S MAX_STEPS)) <= exact 1000000)%Q).
Proof.
  split; split.
  - vm_compute. reflexivity.
  - rewrite <- exact_sum_total. vm_compute. reflexivity.
  - vm_compute. reflexivity.
  - rewrite <- exact_sum_total. vm_compute. discriminate.
Qed.

(** C3 (amended): for every supply [s] and funds [f] the quote is a whole
    number [k] of tokens between [0] and [5000]; each of the [k] tokens was
    taken while the running budget, which starts at [f] and loses each
    walked price with the rounding of binary64, was positive and covered the
    price of its level; and, unless [k] is the ceiling of [5000], the
    running budget left after [k] tokens is not positive or does not cover
    the price of the next level. *)
Theorem buyTokensQuote64_greedy (s f : float) :
  exists k : nat,
    (k <= MAX_STEPS)%nat /\
    buyTokensQuote64 s f = float_of_nat k /\
    (forall i, (i < k)%nat -> covered64 s f i = true) /\
    ((k < MAX_STEPS)%nat -> covered64 s f k = false).
Proof.
  unfold buyTokensQuote64.
  destruct (buy_loop64_walk MAX_STEPS 0 f s) as (k & Hk & Heq & Hc & Hn).
  exists k. split; [exact Hk |]. split.
  - rewrite Heq. now apply count64_whole.
  - split; [exact Hc | exact Hn].
Qed.




(** C6, as stated, fails: at a supply of [0] one token is quoted
    [price(0) = 0.01], not [0]. *)
Lemma sellTokensQuote64_zero_supply_counterexample :
  sellTokensQuote64 0 1 = 0.01 /\ (sellTokensQuote64 0 1 =? 0) = false.
Proof. split; vm_compute; reflexivity. Qed.

(** C6 (amended): the sell quote is the binary64 sum of the prices of [n]
    consecutive descending levels that start at [max(0, currentSupply - 1)]:
    a level is summed while tokens are left and the level is not below [0],
    and [n] is at most [5000].  At a supply of [0] the start level is
    clamped to [0]: the quote is [price(0) = 0.01] whenever [tokensIn > 0],
    and [0] otherwise. *)
Theorem sellTokensQuote64_walks_down (cs t : float) :
  (exists n : nat,
     (n <= MAX_STEPS)%nat /\
     sellTokensQuote64 cs t = sum64 (descending64 (Math_max 0 (cs - 1)) n) /\
     (forall j, (j < n)%nat -> selling64 (Math_max 0 (cs - 1)) t j = true) /\
     ((n < MAX_STEPS)%nat -> selling64 (Math_max 0 (cs - 1)) t n = false)) /\
  sellTokensQuote64 0 t = (if 0 <? t then 0.01 else 0).
Proof.
  split.
  - unfold sellTokensQuote64, sum64. apply sell_loop64_walk.
  - unfold sellTokensQuote64.
    replace MAX_STEPS with (S (S 4998)) by (vm_compute; reflexivity).
    apply sell_loop64_zero_supply.
Qed.

(** ** Requests that carry no number *)


(** The same with a sale: a request to sell whose token count is no number
    passes both tests, and leaves [NaN] as the balance and as the supply. *)
Lemma sell_nan_accepted :
  let st := exec_all64 nan_sell_trace empty_store64 in
  exists p h,
    projects64 st !! "V1StGXR8" = Some p /\
    holdings64 st !! holdingKey "alice" "V1StGXR8" = Some h /\
    is_nan (p64_supply p) = true /\ is_nan (h64_balance h) = true.
Proof.
  cbv zeta. eexists. eexists.
  split; [vm_compute; reflexivity |]. split; [vm_compute; reflexivity |].
  split; vm_compute; reflexivity.
Qed.

End Binary64Claims.

(** ** Failed operations *)

(** C9: for each of the five engine operations and every starting state,
    if the operation answers with an error then the stores are exactly as
    they were before the call. *)
Theorem failed_operation_leaves_state op st status msg :
  snd (exec op st) = Error status msg ->
  fst (exec op st) = st.
Proof.
  rewrite exec_run. destruct op.
  - rewrite post_projects_run. destruct (_ || _); [reflexivity | discriminate].
  - rewrite post_buy_run.
    destruct (projects st !! id); [| reflexivity].
    destruct (p_capReached p); [reflexivity |].
    destruct (Qle_bool amount 0); [reflexivity |].
    destruct (_ <=? 0); [reflexivity | discriminate].
  - rewrite post_sell_run.
    destruct (projects st !! id); [| reflexivity].
    destruct (tokens <=? 0); [reflexivity |].
    destruct (holdings st !! _); [| reflexivity].
    destruct (_ <? _); [reflexivity | discriminate].
  - rewrite post_offers_run.
    destruct (projects st !! id); [| reflexivity].
    destruct (_ || _); [reflexivity |].
    destruct (holdings st !! _); [| reflexivity].
    destruct (_ <? _); [reflexivity | discriminate].
  - rewrite post_fill_run.
    destruct (projects st !! id); [| reflexivity].
    destruct (offers st !! offerId); [| reflexivity].
    destruct (negb _); [reflexivity |].
    destruct (_ || _); [reflexivity |].
    destruct (_ <=? 0); [reflexivity | discriminate].
Qed.

(** A buy on a project that does not exist. *)
Lemma failed_operation_leaves_state_witness :
  fst (exec (Buy "bob" "V1StGXR8" (5 # 1)) empty_store) = empty_store.
Proof.
  apply (failed_operation_leaves_state _ _ 404 "not found"). reflexivity.
Defined.

(** ** Buy *)




(** ** Sell *)



(** ** Release *)




(** ** Conservation of tokens *)



(** ** The funding cap *)




(** ** Escrow *)

(** C10, as stated, fails: the seller can fill the own offer.  Alice lists
    five of her hundred tokens, and her own fill of five brings her balance
    from [95] back to [100]. *)
Lemma escrow_self_fill_counterexample :
  let st1 := exec_all self_fill_trace empty_store in
  let op := Fill "alice" "V1StGXR8" "oFfer_01" 5 in
  let st2 := fst (exec op st1) in
  (exists o, offers st1 !! "oFfer_01" = Some o /\ o_sellerId o = "alice" /\
             o_status o = OfferOpen /\ o_amount o = 5) /\
  Forall (fun op => caller op = "alice") (self_fill_trace ++ [op]) /\
  balance_of "alice" "V1StGXR8" st1 = 95 /\
  balance_of "alice" "V1StGXR8" st2 = 100.
Proof.
  cbv zeta. split; [| split; [| split]].
  - eexists. split; [vm_compute; reflexivity |]. repeat split.
  - repeat constructor.
  - vm_compute. reflexivity.
  - vm_compute. reflexivity.
Qed.

(** C10 (amended): the tokens escrowed in an offer leave it only through
    Fill, and Fill credits its caller, whoever that is.  In every state
    reached by calls whose amounts are numbers and whose token counts are
    whole, such a CreateProject, Buy, Sell or CreateOffer, a Fill of another
    offer and a Fill that fails leave the offer as it is; a successful Fill
    of the offer for a whole number of tokens takes [take] tokens, with
    [0 < take <= amount], out of the offer and adds them to the holding of
    the caller, be it another party or the seller. *)
Theorem escrow_leaves_only_by_fill op st offerId o :
  reachable st -> fresh_ids op st ->
  offers st !! offerId = Some o ->
  let st' := fst (exec op st) in
  match op with
  | Fill buyerId id oid amount =>
      if bool_decide (oid = offerId) && negb (is_error (snd (exec op st))) then
        let take := fill_take o amount in
        0 < take <= o_amount o /\
        offers st' !! offerId = Some (filled o take) /\
        o_amount (filled o take) = o_amount o - take /\
        balance_of buyerId (o_projectId o) st'
          = balance_of buyerId (o_projectId o) st + take
      else offers st' !! offerId = Some o
  | _ => offers st' !! offerId = Some o
  end.
Proof.
  intros Hr Hfresh Ho st'. subst st'.
  pose proof (reachable_consistent st Hr) as C.
  rewrite exec_run.
  destruct op as [u body id now | u id a | u id n | u id pr a oid now | b id oid a].
  - rewrite post_projects_run. destruct (_ || _); exact Ho.
  - rewrite post_buy_run.
    destruct (projects st !! id); [| exact Ho].
    destruct (p_capReached p); [exact Ho |].
    destruct (Qle_bool a 0); [exact Ho |].
    destruct (_ <=? 0); exact Ho.
  - rewrite post_sell_run.
    destruct (projects st !! id); [| exact Ho].
    destruct (n <=? 0); [exact Ho |].
    destruct (holdings st !! _); [| exact Ho].
    destruct (_ <? _); exact Ho.
  - destruct Hfresh as [_ Hnew]. rewrite post_offers_run.
    destruct (projects st !! id); [| exact Ho].
    destruct (_ || _); [exact Ho |].
    destruct (holdings st !! _); [| exact Ho].
    destruct (_ <? _); [exact Ho |]. cbv zeta. cbn [fst offers].
    rewrite lookup_insert_ne; [exact Ho | congruence].
  - rewrite post_fill_run.
    destruct (projects st !! id) as [p |]; [| cbn; now rewrite andb_false_r].
    destruct (decide (oid = offerId)) as [-> | Hne].
    + rewrite bool_decide_eq_true_2 by reflexivity. rewrite Ho.
      destruct (negb (bool_decide (o_projectId o = p_id p))) eqn:E1; [exact Ho |].
      destruct (negb (bool_decide (o_status o = OfferOpen)) || (o_amount o <=? 0))
        eqn:E2; [exact Ho |].
      destruct (fill_take o a <=? 0) eqn:E3; [exact Ho |].
      destruct (fill_tests o (p_id p) a E1 E2 E3) as (Hpid & Hopen & Htake).
      destruct (cons_offer st C _ _ Ho) as (Hoid & _).
      cbv zeta. cbn [fst snd is_error negb andb offers holdings].
      split; [exact Htake |].
      split; [rewrite Hoid, insert_insert_eq; apply lookup_insert_eq |].
      split; [apply filled_fields |].
      rewrite Hpid. unfold balance_of at 1. cbn [holdings].
      rewrite lookup_insert_eq. unfold credited, balance_of.
      destruct (holdings st !! holdingKey b (p_id p)); reflexivity.
    + rewrite (bool_decide_eq_false_2 _ Hne). cbn [andb].
      destruct (offers st !! oid) as [o2 |] eqn:Ho2; [| exact Ho].
      destruct (negb _); [exact Ho |].
      destruct (_ || _); [exact Ho |].
      destruct (_ <=? 0); [exact Ho |]. cbv zeta. cbn [fst offers].
      destruct (cons_offer st C _ _ Ho2) as (Hoid2 & _).
      rewrite Hoid2, insert_insert_eq. rewrite lookup_insert_ne; [exact Ho | exact Hne].
Qed.

(** The fill of the seller herself is credited like any other. *)
Lemma escrow_leaves_only_by_fill_witness :
  let st1 := exec_all self_fill_trace empty_store in
  let st2 := fst (exec (Fill "alice" "V1StGXR8" "oFfer_01" 5) st1) in
  balance_of "alice" "V1StGXR8" st2 = balance_of "alice" "V1StGXR8" st1 + 5.
Proof.
  intros st1 st2.
  assert (Hr : reachable st1).
  { apply reachable_exec_all; [apply reachable_init |]. vm_compute. repeat split. }
  assert (Ho : offers st1 !! "oFfer_01"
               = Some (mkOffer "oFfer_01" "V1StGXR8" "alice" (1 # 20) 5 2 OfferOpen))
    by (vm_compute; reflexivity).
  pose proof (escrow_leaves_only_by_fill
                (Fill "alice" "V1StGXR8" "oFfer_01" 5) st1 "oFfer_01"
                (mkOffer "oFfer_01" "V1StGXR8" "alice" (1 # 20) 5 2 OfferOpen)
                Hr I Ho) as H.
  cbv beta iota zeta in H.
  assert (E : bool_decide ("oFfer_01" = "oFfer_01")
              && negb (is_error (snd (exec (Fill "alice" "V1StGXR8" "oFfer_01" 5) st1)))
              = true) by (vm_compute; reflexivity).
  rewrite E in H.
  destruct H as (_ & _ & _ & Hb). exact Hb.
Defined.

(** * Further properties *)

(** ** The curve and the quotes *)





(** X3: at a supply [s >= 0] more funds never buy fewer tokens. *)
Theorem buyTokensQuote_monotone_in_funds s f f' :
  0 <= s -> (f <= f')%Q ->
  buyTokensQuote s f <= buyTokensQuote s f'.
Proof.
  intros Hs Hf.
  destruct (Qlt_le_dec f 0) as [Hneg | Hnonneg].
  - rewrite (buyTokensQuote_nonpos s f) by lra. apply buyTokensQuote_nonneg.
  - destruct (buyTokensQuote_spec s f Hs Hnonneg) as (k & Heq & Hk & Hc & _).
    destruct (buyTokensQuote_spec s f' Hs ltac:(lra)) as (k' & Heq' & Hk' & _ & Hn').
    rewrite Heq, Heq'.
    destruct (Nat.le_gt_cases k k') as [Hle | Hgt]; [lia |].
    specialize (Hn' ltac:(lia)).
    pose proof (walked_cost_le_count s (S k') k Hs ltac:(lia)). lra.
Qed.

Lemma buyTokensQuote_monotone_in_funds_witness :
  buyTokensQuote 100 (1 # 50) <= buyTokensQuote 100 (1 # 20).
Proof.
  apply (buyTokensQuote_monotone_in_funds 100 (1 # 50) (1 # 20)).
  - lia.
  - vm_compute. discriminate.
Defined.

(** X4: the same funds never buy more tokens at a higher supply. *)
Theorem buyTokensQuote_antitone_in_supply s s' f :
  0 <= s -> s <= s' ->
  buyTokensQuote s' f <= buyTokensQuote s f.
Proof.
  intros Hs Hss.
  destruct (Qlt_le_dec f 0) as [Hneg | Hnonneg].
  - rewrite (buyTokensQuote_nonpos s' f) by lra. apply buyTokensQuote_nonneg.
  - destruct (buyTokensQuote_spec s f Hs Hnonneg) as (k & Heq & Hk & _ & Hn).
    destruct (buyTokensQuote_spec s' f ltac:(lia) Hnonneg)
      as (k' & Heq' & Hk' & Hc' & _).
    rewrite Heq, Heq'.
    destruct (Nat.le_gt_cases k' k) as [Hle | Hgt]; [lia |].
    specialize (Hn ltac:(lia)).
    pose proof (walked_cost_le_supply (S k) s s' Hss).
    pose proof (walked_cost_le_count s' (S k) k' ltac:(lia) ltac:(lia)). lra.
Qed.

Lemma buyTokensQuote_antitone_in_supply_witness :
  buyTokensQuote 400 (1 # 20) <= buyTokensQuote 100 (1 # 20).
Proof.
  apply (buyTokensQuote_antitone_in_supply 100 400 (1 # 20)); lia.
Defined.

(** X5: the sell quote pays for at most [5000] tokens and for at most the
    tokens of the supply: it is [0] for [tokensIn <= 0], any request of
    [5000] tokens or more is quoted like one of [5000], and at a supply of
    at least one token any request of the whole supply or more is quoted
    like the whole supply. *)
Theorem sellTokensQuote_saturates cs t :
  (t <= 0 -> (sellTokensQuote cs t == 0)%Q) /\
  (5000 <= t -> (sellTokensQuote cs t == sellTokensQuote cs 5000)%Q) /\
  (1 <= cs -> cs <= t -> (sellTokensQuote cs t == sellTokensQuote cs cs)%Q).
Proof.
  pose proof MAX_STEPS_Z as HM. split; [| split].
  - intros Ht. rewrite sellTokensQuote_count. unfold sell_levels.
    replace (Z.to_nat t) with O by lia.
    rewrite Nat.min_0_l, Nat.min_0_r. reflexivity.
  - intros Ht. rewrite !sellTokensQuote_count.
    replace (sell_levels cs t) with (sell_levels cs 5000)
      by (unfold sell_levels; lia).
    reflexivity.
  - intros Hcs Ht. rewrite !sellTokensQuote_count.
    replace (sell_levels cs t) with (sell_levels cs cs)
      by (unfold sell_levels; lia).
    reflexivity.
Qed.

Lemma sellTokensQuote_saturates_witness :
  (sellTokensQuote 100 7000 == sellTokensQuote 100 5000)%Q.
Proof.
  destruct (sellTokensQuote_saturates 100 7000) as (_ & H & _). apply H. lia.
Defined.

(** X6: the sell quote is never negative and never decreases when more
    tokens are sold. *)
Theorem sellTokensQuote_monotone cs t t' :
  t <= t' ->
  (0 <= sellTokensQuote cs t)%Q /\
  (sellTokensQuote cs t <= sellTokensQuote cs t')%Q.
Proof.
  intros Ht. rewrite !sellTokensQuote_count.
  pose proof (sell_levels_bounds cs t') as (_ & _ & Hb').
  pose proof (sell_levels_bounds cs t) as (_ & _ & Hb).
  split.
  - rewrite <- sellTokensQuote_count. apply sellTokensQuote_nonneg.
  - apply descending_sum_le_count; [unfold sell_levels; lia | lia].
Qed.

Lemma sellTokensQuote_monotone_witness :
  (0 <= sellTokensQuote 100 2)%Q /\
  (sellTokensQuote 100 2 <= sellTokensQuote 100 5)%Q.
Proof. apply (sellTokensQuote_monotone 100 2 5). lia. Defined.

(** ** Invariants of the server *)

(** X8: token conservation holds under the whole API: in every state the
    nine writing handlers reach on requests whose amounts are numbers and
    whose token counts are whole, the balances of a project's holdings plus
    the amounts of its open offers equal its supply. *)
Theorem conservation_under_whole_api st id p :
  served st ->
  projects st !! id = Some p ->
  holdings_total id st + escrow_total id st = p_supply p.
Proof.
  intros Hs Hp.
  exact (cons_supply st (sound_consistent st (served_sound st Hs)) id p Hp).
Qed.

Lemma conservation_under_whole_api_witness :
  holdings_total "V1StGXR8" example_released_state
  + escrow_total "V1StGXR8" example_released_state = 102.
Proof.
  rewrite (conservation_under_whole_api example_released_state "V1StGXR8"
             (drawn_down
                (bought (created "alice" (example_body None) "V1StGXR8" 1) (1 # 20))
                (Qmin (1 # 100) (0 + (1 # 20))))).
  - vm_compute. reflexivity.
  - apply example_released_state_served.
  - vm_compute. reflexivity.
Defined.



(** X10: in every state the server reaches on requests whose amounts are
    numbers and whose token counts are whole, a project that is still open
    ([capReached] is [false]) has a reserve below the cap of [100000]; put
    the other way, a reserve at or above the cap always has the flag set. *)
Theorem served_open_below_cap st id p :
  served st ->
  projects st !! id = Some p ->
  p_capReached p = false ->
  (p_reserve p < FUNDING_CAP)%Q.
Proof.
  intros Hs Hp Hflag. destruct (served_sound st Hs) as [_ S _].
  destruct (S _ _ Hp) as [_ Hcap].
  destruct (Qlt_le_dec (p_reserve p) FUNDING_CAP) as [Hlt | Hle]; [exact Hlt |].
  specialize (Hcap Hle). congruence.
Qed.

Lemma served_open_below_cap_witness :
  (p_reserve (bought (created "alice" (example_body None) "V1StGXR8" 1) (1 # 20))
   < FUNDING_CAP)%Q.
Proof.
  apply (served_open_below_cap example_state "V1StGXR8").
  - apply example_state_served.
  - vm_compute. reflexivity.
  - vm_compute. reflexivity.
Defined.

(** X11: in every state the server reaches on requests whose amounts are
    numbers and whose token counts are whole, a proposal refers to an
    existing milestone of its own project, asks for a positive amount that
    is at most the amount of the milestone, has non-negative tallies, and is
    released only if its milestone is. *)
Theorem served_proposals_well_formed st k pr :
  served st ->
  proposals st !! k = Some pr ->
  pr_id pr = k /\ 0 <= pr_approvals pr /\ 0 <= pr_rejections pr /\
  exists m,
    milestones st !! pr_milestoneId pr = Some m /\
    m_id m = pr_milestoneId pr /\
    m_projectId m = pr_projectId pr /\
    (0 < pr_amount pr)%Q /\ (pr_amount pr <= m_amount m)%Q /\
    (pr_released pr = true -> m_status m = MilestoneReleased).
Proof.
  intros Hs Hk. destruct (served_sound st Hs) as [_ _ [GM GP]].
  destruct (GP k pr Hk) as (H1 & H2 & H3 & m & Hm & H4 & H5 & H6 & H7).
  split; [exact H1 |]. split; [exact H2 |]. split; [exact H3 |].
  exists m. destruct (GM _ _ Hm) as (M1 & _). auto 10.
Qed.

Lemma served_proposals_well_formed_witness :
  exists m,
    milestones example_released_state !! "mS7_ab12" = Some m /\
    m_status m = MilestoneReleased.
Proof.
  destruct (served_proposals_well_formed example_released_state "pR0p_x9Z"
              (set_released
                 (voted (mkProposal "pR0p_x9Z" "V1StGXR8" "mS7_ab12" (1 # 100)
                           0 0 false 4) true) true)
              example_released_state_served)
    as (_ & _ & _ & m & Hm & _ & _ & _ & _ & Hrel).
  - vm_compute. reflexivity.
  - exists m. split; [exact Hm | apply Hrel; reflexivity].
Defined.

(** ** The market handlers *)

(** X12: a project created under a fresh identifier starts with a supply of
    [100] tokens, all of them held by the founder, an empty reserve, the cap
    not reached and a positive funding goal (the one given, or [100000]); no
    other project changes. *)
Theorem create_project_allocation u body id now st :
  served st ->
  is_nanoid id = true -> projects st !! id = None ->
  b_name body <> "" -> b_summary body <> "" -> b_plan body <> "" ->
  let st' := fst (serve (Market (CreateProject u body id now)) st) in
  exists p,
    snd (serve (Market (CreateProject u body id now)) st) = ProjectJson p /\
    projects st' !! id = Some p /\
    p_id p = id /\ p_founderId p = u /\
    p_supply p = 100 /\ p_reserve p = 0%Q /\ p_capReached p = false /\
    (0 < p_fundingGoal p)%Q /\
    balance_of u id st' = 100 /\
    holdings_total id st' = 100 /\ escrow_total id st' = 0 /\
    (forall id', id' <> id -> projects st' !! id' = projects st !! id').
Proof.
  intros Hs Hnano Hfresh Hn Hsum Hpl st'.
  pose proof (served_sound st Hs) as [C _ _].
  assert (Hs' : served st') by (apply served_step; [exact Hs | split; assumption]).
  pose proof (served_sound st' Hs') as [C' _ _].
  subst st'. revert C'. cbn [serve]. rewrite exec_run, post_projects_run.
  rewrite (is_empty_string_nonempty _ Hn), (is_empty_string_nonempty _ Hsum),
    (is_empty_string_nonempty _ Hpl). cbn [orb fst snd]. intros C'.
  pose proof (is_nanoid_no_colon id Hnano) as Hcol.
  exists (created u body id now).
  assert (Hp : projects
                 (mkStore (<[id := created u body id now]> (projects st))
                    (<[holdingKey u id := credited st u id 100]> (holdings st))
                    (offers st) (milestones st) (proposals st)) !! id
               = Some (created u body id now))
    by (cbn [projects]; apply lookup_insert_eq).
  assert (He : escrow_total id
                 (mkStore (<[id := created u body id now]> (projects st))
                    (<[holdingKey u id := credited st u id 100]> (holdings st))
                    (offers st) (milestones st) (proposals st)) = 0)
    by (apply (totals_fresh st id C Hfresh)).
  split; [reflexivity |]. split; [exact Hp |].
  split; [reflexivity |]. split; [reflexivity |]. split; [reflexivity |].
  split; [reflexivity |]. split; [reflexivity |].
  split.
  { cbn [created p_fundingGoal]. destruct (b_fundingGoal body) as [g |].
    - destruct (Qpos_bool g) eqn:E; [now apply Qpos_bool_true | reflexivity].
    - reflexivity. }
  split.
  { unfold balance_of at 1. cbn [holdings]. rewrite lookup_insert_eq.
    rewrite h_balance_credited, (balance_of_fresh st u id C Hcol Hfresh). lia. }
  split.
  { pose proof (cons_supply _ C' _ _ Hp) as Hsup. rewrite He in Hsup.
    cbn [created p_supply] in Hsup. lia. }
  split; [exact He |].
  intros id' Hne. cbn [projects]. now rewrite lookup_insert_ne.
Qed.

Lemma create_project_allocation_witness :
  exists p,
    snd (serve (Market (CreateProject "carol" (example_body (Some (7 # 1)%Q))
                          "Zq3_x-7K" 9)) example_state) = ProjectJson p /\
    p_supply p = 100 /\
    holdings_total "Zq3_x-7K"
      (fst (serve (Market (CreateProject "carol" (example_body (Some (7 # 1)%Q))
                             "Zq3_x-7K" 9)) example_state)) = 100.
Proof.
  destruct (create_project_allocation "carol" (example_body (Some (7 # 1)%Q))
              "Zq3_x-7K" 9 example_state example_state_served)
    as (p & Hr & _ & _ & _ & Hsup & _ & _ & _ & _ & Htot & _).
  - reflexivity.
  - vm_compute. reflexivity.
  - discriminate.
  - discriminate.
  - discriminate.
  - exists p. auto.
Defined.





(** X15: an offer that is no longer open is final: whatever calls follow,
    it stays as it is, and every later Fill of it is answered with an error
    and changes nothing. *)
Theorem closed_offer_is_final cs st k o :
  served st -> fresh_calls cs st ->
  offers st !! k = Some o -> o_status o <> OfferOpen ->
  let st' := serve_all cs st in
  offers st' !! k = Some o /\
  forall b id amount,
    is_error (snd (serve (Market (Fill b id k amount)) st')) = true /\
    fst (serve (Market (Fill b id k amount)) st') = st'.
Proof.
  intros Hs Hf Ho Hc st'.
  assert (Ho' : offers st' !! k = Some o)
    by (now apply closed_offer_serve_all).
  split; [exact Ho' |].
  intros b id amount. cbn [serve]. rewrite exec_run, post_fill_run.
  destruct (projects st' !! id) as [p |]; [| split; reflexivity].
  rewrite Ho'.
  destruct (negb (bool_decide (o_projectId o = p_id p))); [split; reflexivity |].
  rewrite (bool_decide_eq_false_2 _ Hc). cbn [negb orb]. split; reflexivity.
Qed.

Lemma closed_offer_is_final_witness :
  let o := filled (mkOffer "oFfer_01" "V1StGXR8" "alice" (1 # 20) 5 2 OfferOpen) 5 in
  let st := fst (serve (Market (Fill "bob" "V1StGXR8" "oFfer_01" 5)) example_state) in
  let st' := serve_all [Market (Sell "bob" "V1StGXR8" 1);
                        Vote "V1StGXR8" "pR0p_x9Z" false] st in
  offers st' !! "oFfer_01" = Some o /\
  is_error (snd (serve (Market (Fill "carol" "V1StGXR8" "oFfer_01" 1)) st')) = true.
Proof.
  intros o st st'.
  destruct (closed_offer_is_final
              [Market (Sell "bob" "V1StGXR8" 1); Vote "V1StGXR8" "pR0p_x9Z" false]
              st "oFfer_01" o) as [Ho Hfill].
  - apply served_step; [apply example_state_served | exact I].
  - cbn. auto.
  - vm_compute. reflexivity.
  - discriminate.
  - split; [exact Ho | apply Hfill].
Defined.

(** X16: in a state the server reaches on requests whose amounts are
    numbers and whose token counts are whole, a Sell of a whole number of
    tokens on an existing project succeeds exactly when that number is
    positive and at most the caller's balance. *)
Theorem sell_succeeds_iff u id n st p :
  served st ->
  projects st !! id = Some p ->
  (is_error (snd (run (post_sell u id n) st)) = false <->
   0 < n <= balance_of u id st).
Proof.
  intros Hs Hp. destruct (served_sound st Hs) as [C _ _].
  destruct (cons_project st C _ _ Hp) as [Hid _].
  rewrite post_sell_run, Hp, Hid. unfold balance_of.
  destruct (n <=? 0) eqn:En.
  { apply Z.leb_le in En. cbn. split; [discriminate | lia]. }
  apply Z.leb_gt in En.
  destruct (holdings st !! holdingKey u id) as [h |].
  - destruct (h_balance h <? n) eqn:Eb; cbn.
    + apply Z.ltb_lt in Eb. split; [discriminate | lia].
    + apply Z.ltb_ge in Eb. split; [lia | reflexivity].
  - cbn. split; [discriminate | lia].
Qed.

Lemma sell_succeeds_iff_witness :
  is_error (snd (run (post_sell "bob" "V1StGXR8" 2) example_state)) = false <->
  0 < 2 <= balance_of "bob" "V1StGXR8" example_state.
Proof.
  apply (sell_succeeds_iff "bob" "V1StGXR8" 2 example_state
           (bought (created "alice" (example_body None) "V1StGXR8" 1) (1 # 20))).
  - apply example_state_served.
  - vm_compute. reflexivity.
Defined.

(** X17: in a state the server reaches on requests whose amounts are
    numbers and whose token counts are whole, the clamps of Sell on the
    supply never fire: a successful Sell of a whole number [n] of tokens
    lowers the supply and the caller's balance by exactly [n], pays a quote
    that is not negative, never raises the reserve, and lowers the price. *)
Theorem sell_exact u id n st p' amountOut :
  served st ->
  snd (run (post_sell u id n) st) = SellJson p' amountOut ->
  let st' := fst (run (post_sell u id n) st) in
  exists p,
    projects st !! id = Some p /\
    0 < n <= p_supply p /\
    p_supply p' = p_supply p - n /\
    balance_of u id st' = balance_of u id st - n /\
    (0 <= amountOut)%Q /\
    (p_reserve p' <= p_reserve p)%Q /\
    (priceAtSupply (p_supply p') < priceAtSupply (p_supply p))%Q.
Proof.
  intros Hs Hr st'. subst st'. destruct (served_sound st Hs) as [C S _].
  revert Hr. rewrite post_sell_run.
  destruct (projects st !! id) as [p |] eqn:Hp; [| discriminate].
  destruct (cons_project st C _ _ Hp) as [Hid Hcol]. rewrite Hid.
  destruct (n <=? 0) eqn:En; [discriminate |].
  destruct (holdings st !! holdingKey u id) as [h |] eqn:Hh; [| discriminate].
  destruct (h_balance h <? n) eqn:Eb; [discriminate |].
  cbn [fst snd]. intros Hr. injection Hr as <- <-.
  apply Z.leb_gt in En. apply Z.ltb_ge in Eb.
  assert (Hbal : balance_of u id st = h_balance h)
    by (unfold balance_of; now rewrite Hh).
  pose proof (balance_le_total st u id C Hcol) as Hle.
  pose proof (escrow_total_nonneg st id C) as He.
  pose proof (cons_supply st C _ _ Hp) as Hsup.
  pose proof (sellTokensQuote_nonneg (p_supply p) n) as Hq.
  destruct (S _ _ Hp) as [Hres _].
  exists p. split; [reflexivity |]. split; [lia |].
  assert (Hs' : p_supply (sold p n) = p_supply p - n)
    by (cbn [sold p_supply set_supply set_reserve]; lia).
  split; [exact Hs' |].
  split.
  { unfold balance_of at 1. cbn [holdings]. rewrite lookup_insert_eq.
    cbn [h_balance set_balance]. lia. }
  split; [exact Hq |].
  split.
  { cbn [sold p_reserve set_supply set_reserve].
    apply Q.max_lub; lra. }
  rewrite Hs'. unfold priceAtSupply, Z.sub.
  rewrite inject_Z_plus, inject_Z_opp.
  assert (Hn : (0 < inject_Z n)%Q)
    by (change 0%Q with (inject_Z 0); now rewrite <- Zlt_Qlt).
  unfold SLOPE, BASE_PRICE. lra.
Qed.

Lemma sell_exact_witness :
  let st' := fst (run (post_sell "bob" "V1StGXR8" 2) example_state) in
  balance_of "bob" "V1StGXR8" st' = balance_of "bob" "V1StGXR8" example_state - 2.
Proof.
  intros st'.
  destruct (sell_exact "bob" "V1StGXR8" 2 example_state
              (sold (bought (created "alice" (example_body None) "V1StGXR8" 1)
                       (1 # 20)) 2)
              (sellTokensQuote 102 2) example_state_served)
    as (p & _ & _ & _ & Hb & _).
  - vm_compute. reflexivity.
  - exact Hb.
Defined.





(** ** The governance handlers *)

(** X20: a governance call (milestone, proposal, vote, release) that
    answers with an error leaves the stores exactly as they were. *)
Theorem governance_failure_leaves_state c st status msg :
  is_governance c = true ->
  snd (serve c st) = Error status msg ->
  fst (serve c st) = st.
Proof.
  intros Hg. rewrite serve_run.
  destruct c as [op | u id ti de a mid now | u id mid a pid now | id pid ap | u id pid];
    [discriminate Hg | | | |].
  - rewrite post_milestones_run.
    destruct (projects st !! id); [| reflexivity].
    destruct (negb _); [reflexivity |].
    destruct (_ || _); [reflexivity | discriminate].
  - rewrite post_proposals_run.
    destruct (projects st !! id); [| reflexivity].
    destruct (negb _); [reflexivity |].
    destruct (milestones st !! mid); [| reflexivity].
    destruct (negb _); [reflexivity |].
    destruct (_ || _); [reflexivity | discriminate].
  - rewrite post_vote_run.
    destruct (projects st !! id); [| reflexivity].
    destruct (proposals st !! pid); [| reflexivity].
    destruct (negb _); [reflexivity | discriminate].
  - rewrite post_release_run.
    destruct (projects st !! id) as [p |]; [| reflexivity].
    destruct (negb _); [reflexivity |].
    destruct (proposals st !! pid) as [pr |]; [| reflexivity].
    destruct (negb _); [reflexivity |].
    destruct (milestones st !! _); [| reflexivity].
    destruct (pr_released pr); [reflexivity |].
    destruct (_ || _); [reflexivity | discriminate].
Qed.

Lemma governance_failure_leaves_state_witness :
  fst (serve (Release "bob" "V1StGXR8" "pR0p_x9Z") example_state) = example_state.
Proof.
  apply (governance_failure_leaves_state _ _ 403 "only founder can release").
  - reflexivity.
  - vm_compute. reflexivity.
Defined.

(** X21: governance never touches tokens: no governance call changes a
    holding or an offer, only a release changes a project, and of a project it
    changes nothing but the reserve and the [capReached] flag (the supply
    stays). *)
Theorem governance_frame c st :
  is_governance c = true ->
  let st' := fst (serve c st) in
  holdings st' = holdings st /\ offers st' = offers st /\
  match c with
  | Release _ _ _ => True
  | _ => projects st' = projects st
  end /\
  (forall id p', projects st' !! id = Some p' ->
     exists p, projects st !! id = Some p /\
       p' = set_capReached (set_reserve p (p_reserve p')) (p_capReached p')).
Proof.
  intros Hg st'. subst st'.
  assert (Hid : forall id p', projects st !! id = Some p' ->
            exists p, projects st !! id = Some p /\
              p' = set_capReached (set_reserve p (p_reserve p')) (p_capReached p')).
  { intros id p' H. exists p'. split; [exact H |]. destruct p'; reflexivity. }
  rewrite serve_run.
  destruct c as [op | u id ti de a mid now | u id mid a pid now | id pid ap | u id pid];
    [discriminate Hg | | | |].
  - rewrite post_milestones_run.
    destruct (projects st !! id); [| auto].
    destruct (negb _); [auto |]. destruct (_ || _); auto.
  - rewrite post_proposals_run.
    destruct (projects st !! id); [| auto].
    destruct (negb _); [auto |].
    destruct (milestones st !! mid); [| auto].
    destruct (negb _); [auto |]. destruct (_ || _); auto.
  - rewrite post_vote_run.
    destruct (projects st !! id); [| auto].
    destruct (proposals st !! pid); [| auto].
    destruct (negb _); auto.
  - rewrite post_release_run.
    destruct (projects st !! id) as [p |] eqn:Hp; [| auto].
    destruct (negb _); [auto |].
    destruct (proposals st !! pid) as [pr |]; [| auto].
    destruct (negb _); [auto |].
    destruct (milestones st !! _); [| auto].
    destruct (pr_released pr); [auto |].
    destruct (_ || _); [auto |]. cbv zeta. cbn [fst holdings offers projects].
    split; [reflexivity |]. split; [reflexivity |].
    split; [exact I |].
    intros id' p'. destruct (decide (id = id')) as [<- | Hne].
    + rewrite lookup_insert_eq. intros Heq. injection Heq as <-.
      exists p. split; [exact Hp |].
      unfold drawn_down. cbv zeta. destruct (Qle_bool FUNDING_CAP _);
        destruct p; reflexivity.
    + rewrite lookup_insert_ne by exact Hne. apply Hid.
Qed.

Lemma governance_frame_witness :
  holdings example_released_state = holdings example_state /\
  offers example_released_state = offers example_state.
Proof.
  destruct (governance_frame (Release "alice" "V1StGXR8" "pR0p_x9Z") example_state)
    as (Hh & Ho & _).
  - reflexivity.
  - split; [exact Hh | exact Ho].
Defined.

(** X22: a released proposal is final: whatever calls follow, it stays
    released with the same amount, and every later Release of it, by
    anyone, is answered with an error and changes nothing. *)
Theorem released_proposal_is_final cs st pid pr :
  served st -> fresh_calls cs st ->
  proposals st !! pid = Some pr -> pr_released pr = true ->
  let st' := serve_all cs st in
  (exists pr', proposals st' !! pid = Some pr' /\
               pr_released pr' = true /\ pr_amount pr' = pr_amount pr) /\
  forall u id,
    is_error (snd (serve (Release u id pid) st')) = true /\
    fst (serve (Release u id pid) st') = st'.
Proof.
  intros Hs Hf Hpr Hrel st'.
  destruct (released_serve_all cs st pid pr Hs Hf Hpr Hrel)
    as (pr' & Hpr' & Hrel' & Ham').
  fold st' in Hpr'.
  split; [exists pr'; auto |].
  intros u id. cbn [serve]. rewrite post_release_run.
  destruct (projects st' !! id) as [p |]; [| split; reflexivity].
  destruct (negb (bool_decide (p_founderId p = u))); [split; reflexivity |].
  rewrite Hpr'.
  destruct (negb (bool_decide (pr_projectId pr' = p_id p))); [split; reflexivity |].
  destruct (milestones st' !! pr_milestoneId pr'); [| split; reflexivity].
  rewrite Hrel'. split; reflexivity.
Qed.

Lemma released_proposal_is_final_witness :
  let st' := serve_all [Vote "V1StGXR8" "pR0p_x9Z" true;
                        Market (Buy "bob" "V1StGXR8" (1 # 20))]
               example_released_state in
  is_error (snd (serve (Release "alice" "V1StGXR8" "pR0p_x9Z") st')) = true /\
  fst (serve (Release "alice" "V1StGXR8" "pR0p_x9Z") st') = st'.
Proof.
  intros st'.
  destruct (released_proposal_is_final
              [Vote "V1StGXR8" "pR0p_x9Z" true; Market (Buy "bob" "V1StGXR8" (1 # 20))]
              example_released_state "pR0p_x9Z"
              (set_released
                 (voted (mkProposal "pR0p_x9Z" "V1StGXR8" "mS7_ab12" (1 # 100)
                           0 0 false 4) true) true))
    as [_ Herr].
  - apply example_released_state_served.
  - cbn. auto.
  - vm_compute. reflexivity.
  - reflexivity.
  - apply Herr.
Defined.

(** X23: the founder needs nobody else to draw funds: on a milestone of the
    own project, a new proposal, one approving vote (votes carry no caller)
    and the release, all made by the founder, succeed and move
    [min(amount, reserve)] out of the reserve. *)
Theorem founder_self_approval u id mid amount pid now st p m :
  projects st !! id = Some p ->
  p_founderId p = u ->
  milestones st !! mid = Some m ->
  m_projectId m = p_id p ->
  (0 < amount)%Q -> (amount <= m_amount m)%Q ->
  proposals st !! pid = None ->
  let st2 := serve_all [CreateProposal u id mid amount pid now; Vote id pid true] st in
  exists p' pr' m',
    snd (serve (Release u id pid) st2)
      = ReleaseJson p' pr' m' (Qmin amount (p_reserve p)) /\
    pr_approvals pr' = 1 /\ pr_rejections pr' = 0 /\ pr_released pr' = true /\
    p_reserve p' = Qmax 0 (p_reserve p - Qmin amount (p_reserve p)).
Proof.
  intros Hp Hf Hm Hmp Hpos Hle Hnew st2. subst st2.
  cbn [serve_all serve].
  rewrite post_proposals_run, Hp, Hm.
  rewrite (bool_decide_eq_true_2 _ Hf), (bool_decide_eq_true_2 _ Hmp).
  apply Qle_bool_false in Hpos. apply Qle_bool_iff in Hle.
  rewrite Hpos, Hle. cbn [negb orb]. cbv zeta. cbn [fst].
  rewrite post_vote_run. cbn [projects proposals]. rewrite Hp, lookup_insert_eq.
  cbn [pr_projectId pr_id].
  rewrite (bool_decide_eq_true_2 (p_id p = p_id p)) by reflexivity.
  cbn [negb]. cbv zeta. cbn [fst]. rewrite !insert_insert_eq.
  rewrite post_release_run. cbn [projects proposals milestones].
  rewrite Hp, (bool_decide_eq_true_2 _ Hf), lookup_insert_eq.
  cbn [negb voted pr_projectId set_approvals pr_milestoneId pr_released
       pr_approvals pr_rejections pr_amount].
  rewrite (bool_decide_eq_true_2 (p_id p = p_id p)) by reflexivity.
  rewrite Hm. cbn [negb Z.add Z.ltb Z.leb Z.compare Pos.compare orb Pos.add
                   Pos.compare_cont].
  cbv zeta. cbn [snd].
  eexists _, _, _. split; [reflexivity |].
  cbn [pr_approvals pr_rejections pr_released set_released].
  split; [reflexivity |]. split; [reflexivity |]. split; [reflexivity |].
  apply p_fields_drawn_down.
Qed.

Lemma founder_self_approval_witness :
  let st := example_governed_store 150000 true 200000 false in
  let st2 := serve_all [CreateProposal "alice" "V1StGXR8" "mS7_ab12" 500 "nEw_pr0P" 5;
                        Vote "V1StGXR8" "nEw_pr0P" true] st in
  exists p' pr' m',
    snd (serve (Release "alice" "V1StGXR8" "nEw_pr0P") st2)
      = ReleaseJson p' pr' m' (Qmin 500 150000) /\
    pr_released pr' = true.
Proof.
  intros st st2.
  destruct (founder_self_approval "alice" "V1StGXR8" "mS7_ab12" 500 "nEw_pr0P" 5 st
              (example_project 150000 true 200000) example_milestone)
    as (p' & pr' & m' & Hr & _ & _ & Hrel & _);
    [reflexivity | reflexivity | reflexivity | reflexivity | reflexivity
    | vm_compute; discriminate | reflexivity |].
  exists p', pr', m'. auto.
Defined.

(** X24: votes are counted without limit and without regard to the
    caller or to the release: after any list of votes on a proposal of the
    project, its approvals have grown by the number of approving votes and
    its rejections by the number of rejecting ones; its amount and its
    released flag, and all projects, holdings, offers and milestones are as
    before. *)
Theorem vote_tally id pid votes : forall st p pr,
  projects st !! id = Some p ->
  proposals st !! pid = Some pr ->
  pr_projectId pr = p_id p -> pr_id pr = pid ->
  let st' := serve_all (map (Vote id pid) votes) st in
  exists pr',
    proposals st' !! pid = Some pr' /\
    pr_approvals pr' = pr_approvals pr + approving votes /\
    pr_rejections pr' = pr_rejections pr + rejecting votes /\
    pr_released pr' = pr_released pr /\ pr_amount pr' = pr_amount pr /\
    projects st' = projects st /\ holdings st' = holdings st /\
    offers st' = offers st /\ milestones st' = milestones st.
Proof.
  induction votes as [| b votes IH]; intros st p pr Hp Hpr Hproj Hid st'; subst st'.
  - cbn [map serve_all]. exists pr. unfold approving, rejecting. cbn.
    rewrite !Z.add_0_r. auto 10.
  - cbn [map serve_all serve].
    destruct (voted_fields pr b) as (V1 & V2 & V3 & V4 & V5 & V6 & V7).
    assert (Hrun : fst (run (post_vote id pid b) st)
                   = mkStore (projects st) (holdings st) (offers st) (milestones st)
                       (<[pid := voted pr b]> (proposals st))).
    { rewrite post_vote_run, Hp, Hpr, (bool_decide_eq_true_2 _ Hproj).
      cbn [negb]. cbv zeta. cbn [fst]. now rewrite Hid, insert_insert_eq. }
    rewrite Hrun.
    destruct (IH (mkStore (projects st) (holdings st) (offers st) (milestones st)
                    (<[pid := voted pr b]> (proposals st))) p (voted pr b))
      as (pr' & H1 & H2 & H3 & H4 & H5 & H6 & H7 & H8 & H9).
    + exact Hp.
    + cbn [proposals]. apply lookup_insert_eq.
    + now rewrite V2.
    + now rewrite V1.
    + exists pr'. cbn [projects holdings offers milestones] in *.
      split; [exact H1 |].
      assert (Ha : approving (b :: votes) = (if b then 1 else 0) + approving votes)
        by (unfold approving; destruct b; cbn [List.filter length]; lia).
      assert (Hr : rejecting (b :: votes) = (if b then 0 else 1) + rejecting votes)
        by (unfold rejecting; destruct b; cbn [List.filter length negb]; lia).
      rewrite Ha, Hr, H2, H3, H4, H5, V4, V5, V6, V7.
      repeat split; try assumption; lia.
Qed.

Lemma vote_tally_witness :
  let st' := serve_all (map (Vote "V1StGXR8" "pR0p_x9Z") [true; false; true])
               example_released_state in
  exists pr',
    proposals st' !! "pR0p_x9Z" = Some pr' /\
    pr_approvals pr' = 1 + approving [true; false; true] /\
    pr_rejections pr' = 0 + rejecting [true; false; true].
Proof.
  intros st'.
  destruct (vote_tally "V1StGXR8" "pR0p_x9Z" [true; false; true]
              example_released_state
              (drawn_down
                 (bought (created "alice" (example_body None) "V1StGXR8" 1) (1 # 20))
                 (Qmin (1 # 100) (0 + (1 # 20))))
              (set_released
                 (voted (mkProposal "pR0p_x9Z" "V1StGXR8" "mS7_ab12" (1 # 100)
                           0 0 false 4) true) true))
    as (pr' & H1 & H2 & H3 & _).
  - vm_compute. reflexivity.
  - vm_compute. reflexivity.
  - reflexivity.
  - reflexivity.
  - exists pr'. auto.
Defined.

(** X25: holdings never collide: with project identifiers drawn by
    [nanoid], two holding keys are equal only for the same user and the same
    project, whatever characters the user identifiers contain. *)
Theorem holding_keys_distinct u p u' p' :
  is_nanoid p = true -> is_nanoid p' = true ->
  holdingKey u p = holdingKey u' p' ->
  u = u' /\ p = p'.
Proof.
  intros Hp Hp'. apply holdingKey_inj; now apply is_nanoid_no_colon.
Qed.

Lemma holding_keys_distinct_witness :
  "a:b" = "a:b" /\ "V1StGXR8" = "V1StGXR8".
Proof.
  apply (holding_keys_distinct "a:b" "V1StGXR8" "a:b" "V1StGXR8"); reflexivity.
Defined.



(** X27: a release is guarded by the proposal only, not by the
    milestone: in a state of the server, when two different unreleased and
    approved proposals ask on the same milestone, the founder can release
    both, one after the other, the second moving
    [min(its amount, what the first release left)]. *)
Theorem milestone_drawn_twice u id pid1 pid2 st p pr1 pr2 :
  served st ->
  projects st !! id = Some p -> p_founderId p = u ->
  proposals st !! pid1 = Some pr1 -> proposals st !! pid2 = Some pr2 ->
  pid1 <> pid2 ->
  pr_projectId pr1 = p_id p -> pr_projectId pr2 = p_id p ->
  pr_milestoneId pr1 = pr_milestoneId pr2 ->
  pr_released pr1 = false -> pr_released pr2 = false ->
  pr_rejections pr1 < pr_approvals pr1 -> pr_rejections pr2 < pr_approvals pr2 ->
  let st1 := fst (serve (Release u id pid1) st) in
  exists p1 pr1' m1 p2 pr2' m2,
    snd (serve (Release u id pid1) st)
      = ReleaseJson p1 pr1' m1 (Qmin (pr_amount pr1) (p_reserve p)) /\
    m_status m1 = MilestoneReleased /\
    snd (serve (Release u id pid2) st1)
      = ReleaseJson p2 pr2' m2 (Qmin (pr_amount pr2) (p_reserve p1)) /\
    m_id m2 = m_id m1.
Proof.
  intros Hs Hp Hf Hpr1 Hpr2 Hne Hproj1 Hproj2 Hmid Hrel1 Hrel2 Happ1 Happ2 st1.
  subst st1. destruct (served_sound st Hs) as [_ _ [GM GP]].
  destruct (GP _ _ Hpr1) as (Hid1 & _ & Hrej1 & m & Hm & _).
  destruct (GM _ _ Hm) as (Hmid1 & _).
  assert (Hvote : forall pr, pr_rejections pr < pr_approvals pr ->
            0 <= pr_rejections pr ->
            (pr_approvals pr <? 1) || (pr_approvals pr <=? pr_rejections pr) = false).
  { intros pr H1 H2. apply orb_false_iff. split; [apply Z.ltb_ge | apply Z.leb_gt]; lia. }
  destruct (GP _ _ Hpr2) as (Hid2 & _ & Hrej2 & _).
  cbn [serve]. rewrite post_release_run, Hp, (bool_decide_eq_true_2 _ Hf), Hpr1,
    (bool_decide_eq_true_2 _ Hproj1), Hm, Hrel1, (Hvote pr1 Happ1 Hrej1).
  cbn [negb]. cbv zeta. cbn [fst snd].
  rewrite Hid1, Hmid1, !insert_insert_eq.
  set (a1 := Qmin (pr_amount pr1) (p_reserve p)).
  destruct (p_fields_drawn_down p a1) as (Hpid & Hpf & _).
  rewrite post_release_run. cbn [projects proposals milestones].
  rewrite lookup_insert_eq, Hpf, (bool_decide_eq_true_2 _ Hf).
  rewrite lookup_insert_ne by exact Hne. rewrite Hpr2, Hpid.
  rewrite (bool_decide_eq_true_2 _ Hproj2), <- Hmid, lookup_insert_eq, Hrel2,
    (Hvote pr2 Happ2 Hrej2).
  cbn [negb]. cbv zeta. cbn [snd].
  eexists _, _, _, _, _, _. split; [reflexivity |].
  split; [reflexivity |]. split; [reflexivity |]. reflexivity.
Qed.

Lemma milestone_drawn_twice_witness :
  let st := example_two_proposals_state in
  let st1 := fst (serve (Release "alice" "V1StGXR8" "pR0p_x9Z") st) in
  exists p1 pr1' m1 p2 pr2' m2,
    snd (serve (Release "alice" "V1StGXR8" "pR0p_x9Z") st)
      = ReleaseJson p1 pr1' m1 (Qmin (1 # 100) (0 + (1 # 20))) /\
    m_status m1 = MilestoneReleased /\
    snd (serve (Release "alice" "V1StGXR8" "nEw_pr0P") st1)
      = ReleaseJson p2 pr2' m2 (Qmin (1 # 50) (p_reserve p1)) /\
    m_id m2 = m_id m1.
Proof.
  intros st st1.
  apply (milestone_drawn_twice "alice" "V1StGXR8" "pR0p_x9Z" "nEw_pr0P" st
           (bought (created "alice" (example_body None) "V1StGXR8" 1) (1 # 20))
           (voted (mkProposal "pR0p_x9Z" "V1StGXR8" "mS7_ab12" (1 # 100)
                     0 0 false 4) true)
           (voted (mkProposal "nEw_pr0P" "V1StGXR8" "mS7_ab12" (1 # 50)
                     0 0 false 5) true)).
  - apply example_two_proposals_state_served.
  - vm_compute. reflexivity.
  - reflexivity.
  - vm_compute. reflexivity.
  - vm_compute. reflexivity.
  - discriminate.
  - reflexivity.
  - reflexivity.
  - reflexivity.
  - reflexivity.
  - reflexivity.
  - cbn. lia.
  - cbn. lia.
Defined.

(** ** The handlers on doubles *)

Section Binary64Handlers.

Local Open Scope float_scope.
#[local] Set Warnings "-inexact-float".

Lemma buy_loop64_not_positive fuel tokens f s :
  (0 <? f) = false -> buy_loop64 fuel tokens f s = tokens.
Proof.
  intros Hf. destruct fuel as [| fuel]; [reflexivity |].
  cbn [buy_loop64]. rewrite Hf. reflexivity.
Qed.

Lemma sell_loop64_not_positive fuel s t out :
  (0 <? t) = false -> sell_loop64 fuel s t out = out.
Proof.
  intros Ht. destruct fuel as [| fuel]; [reflexivity |].
  cbn [sell_loop64]. rewrite Ht. reflexivity.
Qed.

(** X28: on doubles, whatever numbers the request carries, a market call
    that answers with an error leaves the stores as they were. *)
Theorem failed_call64_leaves_state op st :
  is_error64 (snd (exec64 op st)) = true -> fst (exec64 op st) = st.
Proof.
  destruct op as [u body id now | u id amount | u id tokens
                 | u id price amount oid now | b id oid amount];
    cbn [exec64].
  - unfold post_projects64.
    destruct (_ || _); [reflexivity | discriminate].
  - unfold post_buy64.
    destruct (projects64 st !! id) as [p |]; [| reflexivity].
    destruct (p64_capReached p); [reflexivity |].
    destruct (amount <=? 0); [reflexivity |]. cbv zeta.
    destruct (buyTokensQuote64 (p64_supply p) amount <=? 0);
      [reflexivity | discriminate].
  - unfold post_sell64.
    destruct (projects64 st !! id) as [p |]; [| reflexivity].
    destruct (tokens <=? 0); [reflexivity |]. cbv zeta.
    destruct (holdings64 st !! holdingKey u (p64_id p)) as [h |];
      [| reflexivity].
    destruct (h64_balance h <? tokens); [reflexivity | discriminate].
  - unfold post_offers64.
    destruct (projects64 st !! id) as [p |]; [| reflexivity].
    destruct (_ || _); [reflexivity |]. cbv zeta.
    destruct (holdings64 st !! holdingKey u (p64_id p)) as [h |];
      [| reflexivity].
    destruct (h64_balance h <? amount); [reflexivity | discriminate].
  - unfold post_fill64.
    destruct (projects64 st !! id) as [p |]; [| reflexivity].
    destruct (offers64 st !! oid) as [o |]; [| reflexivity].
    destruct (negb _); [reflexivity |].
    destruct (_ || _); [reflexivity |]. cbv zeta.
    destruct (Math_max 0 (Math_min (o64_amount o) amount) <=? 0);
      [reflexivity |].
    cbn [snd is_error64].
    destruct (_ =? 0); discriminate.
Qed.

(** A fill with no number for an offer that does not exist. *)
Lemma failed_call64_leaves_state_witness :
  fst (exec64 (Fill64 "bob" "V1StGXR8" "n0_0ffer" nan)
         (exec_all64 nan_sell_trace empty_store64)) =
  exec_all64 nan_sell_trace empty_store64.
Proof.
  apply (failed_call64_leaves_state (Fill64 "bob" "V1StGXR8" "n0_0ffer" nan)).
  vm_compute. reflexivity.
Defined.

(** X29: Buy takes only an amount that is positive: for an amount that is
    zero, negative or no number the call answers with an error and writes
    nothing. *)
Theorem buy64_needs_positive_amount u id amount st :
  (0 <? amount) = false ->
  is_error64 (snd (post_buy64 u id amount st)) = true /\
  fst (post_buy64 u id amount st) = st.
Proof.
  intros Ha. unfold post_buy64.
  destruct (projects64 st !! id) as [p |]; [| split; reflexivity].
  destruct (p64_capReached p); [split; reflexivity |].
  destruct (amount <=? 0); [split; reflexivity |]. cbv zeta.
  unfold buyTokensQuote64. rewrite (buy_loop64_not_positive _ _ _ _ Ha).
  replace (0 <=? 0) with true by reflexivity. split; reflexivity.
Qed.

(** A buy with no number on the example project. *)
Lemma buy64_needs_positive_amount_witness :
  let st := exec_all64 (firstn 1 nan_sell_trace) empty_store64 in
  is_error64 (snd (post_buy64 "bob" "V1StGXR8" nan st)) = true /\
  fst (post_buy64 "bob" "V1StGXR8" nan st) = st.
Proof.
  intros st. apply (buy64_needs_positive_amount "bob" "V1StGXR8" nan st).
  reflexivity.
Defined.

(** X30: for a token count that is not positive, be it zero, negative or
    no number, the sell quote is [0]. *)
Theorem sellTokensQuote64_nothing_to_sell cs t :
  (0 <? t) = false -> sellTokensQuote64 cs t = 0.
Proof.
  intros Ht. unfold sellTokensQuote64. now apply sell_loop64_not_positive.
Qed.

Lemma sellTokensQuote64_nothing_to_sell_witness :
  sellTokensQuote64 100 nan = 0.
Proof. apply (sellTokensQuote64_nothing_to_sell 100 nan). reflexivity. Defined.

End Binary64Handlers.
